(** * Identity service and LinkedIn OAuth token lifecycle: a shallow embedding

    The development follows the TypeScript sources, one module each:
    - [AuthService] (hashPassword, verifyPassword, register, login) and
      [AuthController] (register, login),
    - [OAuthService] (getLinkedInAuthUrl, exchangeLinkedInCode,
      getLinkedInProfile, storeOAuthProvider, getOAuthProvider,
      isTokenExpired),
    - [OAuthController] (linkedInConnect, linkedInCallback,
      linkedInStatus, linkedInDisconnect),
    - the [oauth_providers] table of the schema and its constraints.

    Conventions.
    - A JavaScript string is a Rocq [string] holding its UTF-8 bytes.
    - A [Date] is its time value, an integer number of milliseconds.
    - The typed TypeScript interfaces are modelled at their declared
      types.  Where a value of type [any] (the result of [JSON.parse] or
      [response.json()]) flows into a typed interface, the model checks
      the runtime type; when it does not match, the run ends in
      [Unmodelled]: the model says nothing about such a run.
    - [async] functions are functions in a state-and-exception monad
      over the relational store and the request log. *)

From Stdlib Require Import String Ascii List ZArith Bool Lia Arith.
Import ListNotations.

Local Open Scope list_scope.
Local Open Scope string_scope.
Set Warnings "-register-all".

(* ================================================================== *)
(** ** JavaScript values *)

Inductive JsValue : Type :=
| JUndefined
| JNull
| JBool (b : bool)
| JNum (literal : string)          (* a number, by its JSON literal *)
| JString (s : string)
| JDate (ms : Z)
| JArray (items : list JsValue)
| JObject (fields : list (string * JsValue)).

(** Thrown values.  Every class below is a subclass of [Error], so
    [error instanceof Error] holds for all of them. *)
Inductive ErrorClass :=
| PlainError
| TypeError
| SyntaxError
| DatabaseError
| ZodError (issues : list (string * string)).   (* field and message of each issue *)

Record JsError := mkError { err_class : ErrorClass; err_message : string }.

(** [new Error(msg)]. *)
Definition Error_ (msg : string) : JsError := mkError PlainError msg.

(** [error instanceof z.ZodError]. *)
Definition instanceof_ZodError (e : JsError) : option (list (string * string)) :=
  match err_class e with
  | ZodError issues => Some issues
  | _ => None
  end.

(** The three ways a computation ends. *)
Inductive Outcome (A : Type) : Type :=
| Ok (a : A)
| Throw (e : JsError)
| Unmodelled (why : string).
Arguments Ok {A} a.
Arguments Throw {A} e.
Arguments Unmodelled {A} why.

(** [JSON.parse] keeps the last of several equal keys. *)
Fixpoint last_binding (k : string) (fields : list (string * JsValue)) : option JsValue :=
  match fields with
  | [] => None
  | (k', v) :: rest =>
      match last_binding k rest with
      | Some later => Some later
      | None => if String.eqb k k' then Some v else None
      end
  end.

Definition own_property (k : string) (fields : list (string * JsValue)) : JsValue :=
  match last_binding k fields with
  | Some v => v
  | None => JUndefined
  end.

(** [v.k] for the property names this program reads ([userId],
    [access_token], [expires_in], [refresh_token], [sub], [email], [name],
    [given_name], [family_name]); none of them is defined by
    [Object.prototype].  Reading a property of [null] or [undefined]
    throws a [TypeError]; reads on primitives and arrays go through
    their prototypes and are left out of the model. *)
Definition js_get (v : JsValue) (k : string) : Outcome JsValue :=
  match v with
  | JUndefined | JNull =>
      Throw (mkError TypeError
               ("Cannot read properties of null or undefined (reading '" ++ k ++ "')"))
  | JObject fields => Ok (own_property k fields)
  | _ => Unmodelled "property read on a primitive or an array"
  end.

Definition is_digit_zero_or_sign (c : ascii) : bool :=
  (Ascii.eqb c "0" || Ascii.eqb c "-" || Ascii.eqb c ".")%bool.

(** A JSON number literal denotes zero when its mantissa has no digit
    other than 0. *)
Fixpoint literal_is_zero (lit : string) : bool :=
  match lit with
  | EmptyString => true
  | String c rest =>
      if (Ascii.eqb c "e" || Ascii.eqb c "E")%bool then true
      else (is_digit_zero_or_sign c && literal_is_zero rest)%bool
  end.

(** [ToBoolean]. *)
Definition truthy (v : JsValue) : bool :=
  match v with
  | JUndefined | JNull => false
  | JBool b => b
  | JNum lit => negb (literal_is_zero lit)
  | JString s => negb (String.eqb s "")
  | JDate _ | JArray _ | JObject _ => true
  end.

(** [a || b] on strings that may be absent ([undefined] or [null]). *)
Definition or_string (a b : option string) : option string :=
  match a with
  | Some s => if String.eqb s "" then b else Some s
  | None => b
  end.

(* ================================================================== *)
(** ** The platform: built-ins and libraries the program calls

    [JSON.parse], [Buffer] transcoding, bcrypt, the JWT signer and zod's
    e-mail pattern are not code of this repository.  The program is
    defined over any implementation of them. *)

Record JWTPayload := { jwt_userId : string; jwt_email : string }.

Class Platform := {
  (** [JSON.parse(text)]; [None] when it throws a [SyntaxError]. *)
  JSON_parse : string -> option JsValue;
  (** [JSON.stringify(value)]. *)
  JSON_stringify : JsValue -> string;
  (** [Buffer.from(text).toString('base64')]. *)
  to_base64 : string -> string;
  (** [Buffer.from(text, 'base64').toString('utf-8')]; never throws. *)
  from_base64 : string -> string;
  (** [Buffer.from(bytes).toString('hex')]. *)
  to_hex : list ascii -> string;
  (** [bcrypt.hash(password, rounds)] with the salt it draws. *)
  bcrypt_hash : string -> nat -> string -> string;
  (** [bcrypt.compare(password, hash)]. *)
  bcrypt_compare : string -> string -> bool;
  (** [request.server.jwt.sign(payload)] at a given time. *)
  jwt_sign : JWTPayload -> Z -> string;
  (** zod's [.email()] pattern. *)
  zod_is_email : string -> bool;
  (** [text.length], in UTF-16 code units. *)
  js_length : string -> nat
}.

(* ================================================================== *)
(** ** The relational store *)

(** [provider: 'linkedin' | 'google']. *)
Inductive Provider := linkedin | google.

Definition Provider_eqb (a b : Provider) : bool :=
  match a, b with
  | linkedin, linkedin | google, google => true
  | _, _ => false
  end.

(** A row of [oauth_providers] ([OAuthProvider = $inferSelect]). *)
Record OAuthProvider := mkOAuthProvider {
  op_id : string;                          (* uuid, primary key, defaultRandom *)
  op_userId : string;                      (* uuid, not null, references users.id *)
  op_provider : Provider;                  (* varchar(50), not null *)
  op_providerUserId : string;              (* varchar(255), not null *)
  op_accessToken : string;                 (* text, not null *)
  op_refreshToken : option string;         (* text *)
  op_tokenExpiresAt : option Z;            (* timestamp *)
  op_scopes : option (list string);        (* text[] *)
  op_createdAt : Z;                        (* timestamp, not null, defaultNow *)
  op_updatedAt : Z                         (* timestamp, not null, defaultNow *)
}.

(** [UserPreferences] of shared/types. *)
Record UserPreferences := mkPreferences {
  brand_voice : option string;
  tone : option string;
  default_hashtags : option (list string);
  banned_phrases : option (list string)
}.

(** [Partial<UserPreferences>]: a key is absent ([None]) or present with
    a value that may be [undefined]. *)
Record PreferencesPatch := mkPatch {
  patch_brand_voice : option (option string);
  patch_tone : option (option string);
  patch_default_hashtags : option (option (list string));
  patch_banned_phrases : option (option (list string))
}.

(** Modelled from the spec: the [users] table, whose schema file is not
    among the sources.  "User: identity record: unique email, display
    name, password hash (optional if passwordless), free-form preference
    bag"; the columns [id], [createdAt] and [updatedAt] are the ones the
    services and controllers read. *)
Record User := mkUser {
  u_id : string;
  u_email : string;
  u_name : string;
  u_passwordHash : option string;
  u_preferences : UserPreferences;
  u_createdAt : Z;
  u_updatedAt : Z
}.

(** The store, and the request log that [request.log.error] appends to. *)
Record State := mkState {
  users : list User;
  oauthProviders : list OAuthProvider;
  log : list JsError
}.

Definition set_users (st : State) (us : list User) : State :=
  mkState us (oauthProviders st) (log st).
Definition set_oauthProviders (st : State) (rows : list OAuthProvider) : State :=
  mkState (users st) rows (log st).
Definition add_log (st : State) (e : JsError) : State :=
  mkState (users st) (oauthProviders st) (log st ++ [e])%list.

(* ------------------------------------------------------------------ *)
(** *** The monad of [async] functions *)

Definition M (A : Type) : Type := State -> Outcome A * State.

Definition ret {A} (a : A) : M A := fun st => (Ok a, st).
Definition throw {A} (e : JsError) : M A := fun st => (Throw e, st).
Definition unmodelled {A} (why : string) : M A := fun st => (Unmodelled why, st).
Definition lift {A} (o : Outcome A) : M A := fun st => (o, st).

Definition bind {A B} (m : M A) (k : A -> M B) : M B :=
  fun st =>
    match m st with
    | (Ok a, st') => k a st'
    | (Throw e, st') => (Throw e, st')
    | (Unmodelled why, st') => (Unmodelled why, st')
    end.

(** [try { body } catch (error) { handler }]. *)
Definition try_catch {A} (body : M A) (handler : JsError -> M A) : M A :=
  fun st =>
    match body st with
    | (Throw e, st') => handler e st'
    | other => other
    end.

Declare Scope js_scope.
Delimit Scope js_scope with js.
Notation "x <- m ;; k" := (bind m (fun x => k))
  (at level 61, m at next level, right associativity) : js_scope.
Notation "m ;;; k" := (bind m (fun _ => k))
  (at level 61, right associativity) : js_scope.

Definition get_state : M State := fun st => (Ok st, st).
Definition put_state (st : State) : M unit := fun _ => (Ok tt, st).

(** [request.log.error(error)]. *)
Definition log_error (e : JsError) : M unit := fun st => (Ok tt, add_log st e).

(* ------------------------------------------------------------------ *)
(** *** Queries as the query builder issues them *)

(** [select().from(t).where(p).limit(n)]. *)
Definition select_where {A} (p : A -> bool) (n : nat) (t : list A) : list A :=
  firstn n (filter p t).

(** [update(t).set(f).where(p).returning()]: the new table and the
    updated rows. *)
Definition update_where {A} (p : A -> bool) (f : A -> A) (t : list A)
  : list A * list A :=
  (map (fun r => if p r then f r else r) t, map f (filter p t)).

(** [delete(t).where(p)]. *)
Definition delete_where {A} (p : A -> bool) (t : list A) : list A :=
  filter (fun r => negb (p r)) t.

(** Characters of a text, as [varchar(n)] counts them: the bytes of its
    UTF-8 encoding that are not continuation bytes. *)
Fixpoint character_count (s : string) : nat :=
  match s with
  | EmptyString => 0
  | String c rest =>
      let n := nat_of_ascii c in
      if (Nat.leb 128 n && Nat.leb n 191)%bool then character_count rest
      else S (character_count rest)
  end.

(** The text of a [uuid] as the database prints it: 8, 4, 4, 4 and 12
    hexadecimal digits in lower case, with hyphens between the groups.
    Every id the database issues, and so every id a row, a session token
    or a state of this program's making carries, has this form.  The
    queries below compare ids as text, which on such ids is the
    comparison of the [uuid] columns: the model is of the queries that
    the database answers.  For an id that is not the text of a uuid the
    database refuses the query, and the program throws where the model
    goes on; so a statement that a query for an id given from outside
    succeeds, or finds nothing, has [uuid_text] of that id as a
    hypothesis. *)
Definition is_lower_hex (c : ascii) : bool :=
  let n := nat_of_ascii c in
  ((Nat.leb 48 n && Nat.leb n 57) || (Nat.leb 97 n && Nat.leb n 102))%bool.

Fixpoint hex_run (n : nat) (s : string) : option string :=
  match n with
  | O => Some s
  | S n' =>
      match s with
      | String c rest => if is_lower_hex c then hex_run n' rest else None
      | EmptyString => None
      end
  end.

Fixpoint uuid_groups (groups : list nat) (s : string) : bool :=
  match groups with
  | [] => false
  | [n] =>
      match hex_run n s with
      | Some EmptyString => true
      | _ => false
      end
  | n :: more =>
      match hex_run n s with
      | Some (String c rest) => (Ascii.eqb c "-" && uuid_groups more rest)%bool
      | _ => false
      end
  end.

Definition uuid_text (s : string) : bool := uuid_groups [8; 4; 4; 4; 12] s.

Definition same_connection (userId : string) (provider : Provider)
  (r : OAuthProvider) : bool :=
  (String.eqb (op_userId r) userId && Provider_eqb (op_provider r) provider)%bool.

(** The constraints the schema puts on an inserted [oauth_providers]
    row: primary key, [unique(user_id, provider)], the foreign key to
    [users.id], and the [varchar] lengths.  The texts stand for the
    database's messages. *)
Definition oauth_insert_violation (st : State) (r : OAuthProvider) : option string :=
  if existsb (fun r' => String.eqb (op_id r') (op_id r)) (oauthProviders st)
  then Some "duplicate key value violates the primary key of oauth_providers"
  else if existsb (same_connection (op_userId r) (op_provider r)) (oauthProviders st)
  then Some "duplicate key value violates the unique constraint on (user_id, provider)"
  else if negb (existsb (fun u => String.eqb (u_id u) (op_userId r)) (users st))
  then Some "insert on oauth_providers violates the foreign key to users"
  else if Nat.ltb 255 (character_count (op_providerUserId r))
  then Some "value too long for type character varying(255)"
  else None.

(** [insert(oauthProviders).values(r).returning()]. *)
Definition insert_oauthProvider (r : OAuthProvider) : M OAuthProvider :=
  fun st =>
    match oauth_insert_violation st r with
    | Some msg => (Throw (mkError DatabaseError msg), st)
    | None => (Ok r, set_oauthProviders st (oauthProviders st ++ [r])%list)
    end.

(** Modelled from the spec: the column constraints of the [users] table.
    Its schema file is not among the sources; what it asks of a row
    beyond the primary key and the unique e-mail (lengths, checks) is a
    parameter of the model. *)
Class UsersSchema := {
  users_accept : User -> bool
}.

(** Modelled from the spec: the constraints of the [users] table
    ("unique email"), with [id] its primary key as every schema file
    among the sources declares it. *)
Definition user_insert_violation {schema : UsersSchema} (st : State) (u : User)
  : option string :=
  if existsb (fun u' => String.eqb (u_id u') (u_id u)) (users st)
  then Some "duplicate key value violates the primary key of users"
  else if existsb (fun u' => String.eqb (u_email u') (u_email u)) (users st)
  then Some "duplicate key value violates the unique constraint on email"
  else if negb (users_accept u)
  then Some "the row violates a column constraint of users"
  else None.

(** [insert(users).values(u).returning()]. *)
Definition insert_user {schema : UsersSchema} (u : User) : M User :=
  fun st =>
    match user_insert_violation st u with
    | Some msg => (Throw (mkError DatabaseError msg), st)
    | None => (Ok u, set_users st (users st ++ [u])%list)
    end.

(* ================================================================== *)
(** ** The environment of one request *)

Record HttpRequest := mkRequest {
  http_method : string;
  http_url : string;
  http_headers : list (string * string);
  http_body : string
}.

Record HttpResponse := mkResponse {
  response_ok : bool;               (* [response.ok] *)
  response_body : string            (* what [response.text()] resolves to *)
}.

(** [await fetch(...)] resolves to a response or rejects. *)
Inductive FetchResult :=
| Responded (r : HttpResponse)
| Rejected (e : JsError).

(** Everything a request reads from outside the program. *)
Record Env := mkEnv {
  clock_now : Z;                    (* [Date.now()] *)
  clock_later : Z;                  (* a later [new Date()] in the same call *)
  db_now : Z;                       (* the database's [now()] *)
  db_random_uuid : string;          (* the database's [gen_random_uuid()] *)
  bcrypt_salt : string;             (* the salt bcrypt draws *)
  random_bytes : nat -> list ascii; (* [crypto.randomBytes(n)] *)
  fetch : HttpRequest -> FetchResult
}.

(** [config.linkedin]. *)
Record LinkedInConfig := mkLinkedInConfig {
  clientId : string;
  clientSecret : string;
  callbackUrl : string
}.

(** [process.env.X || fallback]. *)
Definition env_or (value : option string) (fallback : string) : string :=
  match or_string value (Some fallback) with
  | Some s => s
  | None => fallback
  end.

Definition linkedin_config (process_env : string -> option string) : LinkedInConfig :=
  {| clientId := env_or (process_env "LINKEDIN_CLIENT_ID") "";
     clientSecret := env_or (process_env "LINKEDIN_CLIENT_SECRET") "";
     callbackUrl := env_or (process_env "LINKEDIN_CALLBACK_URL")
                      "http://localhost:3000/auth/linkedin/callback" |}.

(* ================================================================== *)
(** ** [URLSearchParams.prototype.toString]

    The application/x-www-form-urlencoded serializer of the URL
    standard: ASCII alphanumerics and [*-._] stay, a space becomes [+],
    every other byte of the UTF-8 encoding becomes [%XX]. *)

Definition between (lo hi n : nat) : bool := (Nat.leb lo n && Nat.leb n hi)%bool.

Definition is_alphanumeric (c : ascii) : bool :=
  let n := nat_of_ascii c in
  (between 48 57 n || between 65 90 n || between 97 122 n)%bool.

Definition form_unreserved (c : ascii) : bool :=
  (is_alphanumeric c
   || Ascii.eqb c "*" || Ascii.eqb c "-" || Ascii.eqb c "." || Ascii.eqb c "_")%bool.

Definition upper_hex_digit (n : nat) : ascii :=
  if Nat.ltb n 10 then ascii_of_nat (48 + n) else ascii_of_nat (55 + n).

Definition percent_encode (c : ascii) : string :=
  let n := nat_of_ascii c in
  String "%" (String (upper_hex_digit (n / 16)) (String (upper_hex_digit (n mod 16)) "")).

Definition form_encode_char (c : ascii) : string :=
  if form_unreserved c then String c ""
  else if Ascii.eqb c " " then "+"
  else percent_encode c.

Fixpoint form_urlencode (s : string) : string :=
  match s with
  | EmptyString => ""
  | String c rest => form_encode_char c ++ form_urlencode rest
  end.

Fixpoint join_with (sep : string) (parts : list string) : string :=
  match parts with
  | [] => ""
  | [p] => p
  | p :: rest => p ++ sep ++ join_with sep rest
  end.

Definition URLSearchParams_toString (params : list (string * string)) : string :=
  join_with "&"
    (map (fun kv => form_urlencode (fst kv) ++ "=" ++ form_urlencode (snd kv)) params).

(* ================================================================== *)
(** ** Runtime type checks at the typed interfaces *)

Definition as_string (v : JsValue) : Outcome string :=
  match v with
  | JString s => Ok s
  | _ => Unmodelled "a value that is not a string reaches a string parameter"
  end.

(** [refreshToken?: string]; [null] and [undefined] behave alike under
    [||] and as a column value. *)
Definition as_optional_string (v : JsValue) : Outcome (option string) :=
  match v with
  | JString s => Ok (Some s)
  | JUndefined | JNull => Ok None
  | _ => Unmodelled "a value that is not a string reaches an optional string parameter"
  end.

Definition digit_value (c : ascii) : option Z :=
  let n := nat_of_ascii c in
  if between 48 57 n then Some (Z.of_nat (n - 48)) else None.

Fixpoint digits_value (acc : Z) (s : string) : option Z :=
  match s with
  | EmptyString => Some acc
  | String c rest =>
      match digit_value c with
      | Some d => digits_value (10 * acc + d) rest
      | None => None
      end
  end.

(** The value of an integer literal [-?digits]. *)
Definition integer_of_literal (lit : string) : option Z :=
  match lit with
  | EmptyString => None
  | String "-" EmptyString => None
  | String "-" rest => option_map Z.opp (digits_value 0 rest)
  | _ => digits_value 0 lit
  end.

(** [expiresIn: number], for integral values. *)
Definition as_number (v : JsValue) : Outcome Z :=
  match v with
  | JNum lit =>
      match integer_of_literal lit with
      | Some n => Ok n
      | None => Unmodelled "a number that is not an integer literal"
      end
  | _ => Unmodelled "a value that is not a number reaches a number parameter"
  end.

(** [`${v}`] for the values whose conversion is a fixed text. *)
Definition template_text (v : JsValue) : Outcome string :=
  match v with
  | JString s => Ok s
  | JUndefined => Ok "undefined"
  | JNull => Ok "null"
  | JBool true => Ok "true"
  | JBool false => Ok "false"
  | _ => Unmodelled "string conversion of a number or an object"
  end.

(** A time value is a valid [Date] within 8.64e15 ms of the epoch. *)
Definition valid_time (t : Z) : bool :=
  (Z.leb (-8640000000000000) t && Z.leb t 8640000000000000)%bool.

(** A [Date] reaches a [timestamp] column as the text [toISOString]
    gives it.  The database reads that text when its year has four
    digits and is not 0000: from 0001-01-01T00:00:00.000Z to
    9999-12-31T23:59:59.999Z.  It refuses the signed six-digit years
    that [toISOString] writes outside 0000 to 9999, and the year 0000. *)
Definition timestamp_accepts (t : Z) : bool :=
  (Z.leb (-62135596800000) t && Z.leb t 253402300799999)%bool.

(* ================================================================== *)
(** ** [OAuthService] *)

(** What [exchangeLinkedInCode] returns: three properties of the
    provider's JSON payload, as they are. *)
Record TokenData := mkTokenData {
  td_accessToken : JsValue;
  td_expiresIn : JsValue;
  td_refreshToken : JsValue
}.

(** What [getLinkedInProfile] returns. *)
Record Profile := mkProfile {
  profile_id : JsValue;
  profile_email : JsValue;
  profile_name : JsValue
}.

(** The [data] argument of [storeOAuthProvider]. *)
Record StoreData := mkStoreData {
  providerUserId : string;
  accessToken : string;
  refreshToken : option string;
  expiresIn : Z;
  scopes : list string
}.

(** What [refreshLinkedInToken] returns: two properties of the
    provider's JSON payload, as they are. *)
Record RefreshedToken := mkRefreshedToken {
  rt_accessToken : JsValue;
  rt_expiresIn : JsValue
}.

Definition await_fetch (env : Env) (rq : HttpRequest) : M HttpResponse :=
  match fetch env rq with
  | Responded r => ret r
  | Rejected e => throw e
  end.

Module OAuthService.
Section Service.
Context {platform : Platform}.
Variable config : LinkedInConfig.
Local Open Scope js_scope.

(** [await response.json()]. *)
Definition response_json (r : HttpResponse) : M JsValue :=
  match JSON_parse (response_body r) with
  | Some v => ret v
  | None => throw (mkError SyntaxError "Unexpected token in JSON")
  end.

Definition getLinkedInAuthUrl (state : string) : string :=
  let params := URLSearchParams_toString
    [ ("response_type", "code");
      ("client_id", clientId config);
      ("redirect_uri", callbackUrl config);
      ("state", state);
      ("scope", "openid profile email w_member_social") ] in
  "https://www.linkedin.com/oauth/v2/authorization?" ++ params.

Definition exchangeLinkedInCode (env : Env) (code : string) : M TokenData :=
  response <- await_fetch env
    (mkRequest "POST" "https://www.linkedin.com/oauth/v2/accessToken"
       [("Content-Type", "application/x-www-form-urlencoded")]
       (URLSearchParams_toString
          [ ("grant_type", "authorization_code");
            ("code", code);
            ("client_id", clientId config);
            ("client_secret", clientSecret config);
            ("redirect_uri", callbackUrl config) ])) ;;
  if negb (response_ok response) then
    let error := response_body response in
    throw (Error_ ("Failed to exchange code: " ++ error))
  else
    data <- response_json response ;;
    access_token <- lift (js_get data "access_token") ;;
    expires_in <- lift (js_get data "expires_in") ;;
    refresh_token <- lift (js_get data "refresh_token") ;;
    ret (mkTokenData access_token expires_in refresh_token).

Definition getLinkedInProfile (env : Env) (accessToken : JsValue) : M Profile :=
  bearer <- lift (template_text accessToken) ;;
  userResponse <- await_fetch env
    (mkRequest "GET" "https://api.linkedin.com/v2/userinfo"
       [("Authorization", "Bearer " ++ bearer)] "") ;;
  if negb (response_ok userResponse) then
    throw (Error_ "Failed to fetch LinkedIn profile")
  else
    userData <- response_json userResponse ;;
    sub <- lift (js_get userData "sub") ;;
    email <- lift (js_get userData "email") ;;
    name <- lift (js_get userData "name") ;;
    if truthy name then ret (mkProfile sub email name)
    else
      given_name <- lift (js_get userData "given_name") ;;
      family_name <- lift (js_get userData "family_name") ;;
      given <- lift (template_text given_name) ;;
      family <- lift (template_text family_name) ;;
      ret (mkProfile sub email (JString (given ++ " " ++ family))).

(** The [.set({...})] of the update branch. *)
Definition refresh_connection (env : Env) (data : StoreData) (tokenExpiresAt : Z)
  (existing0 : OAuthProvider) (r : OAuthProvider) : OAuthProvider :=
  {| op_id := op_id r;
     op_userId := op_userId r;
     op_provider := op_provider r;
     op_providerUserId := op_providerUserId r;
     op_accessToken := accessToken data;
     op_refreshToken := or_string (refreshToken data) (op_refreshToken existing0);
     op_tokenExpiresAt := Some tokenExpiresAt;
     op_scopes := Some (scopes data);
     op_createdAt := op_createdAt r;
     op_updatedAt := clock_later env |}.

(** The result is the first row of [.returning()], [None] standing for
    [undefined].  A [tokenExpiresAt] outside the range of [Date] is an
    Invalid Date, which no timestamp column takes: such a run is left
    out of the model.  A [tokenExpiresAt] that is a [Date] whose text
    the timestamp column refuses makes the write that follows the select,
    update or insert alike, fail in the database: nothing is written.
    The user id is compared as text: see [uuid_text]. *)
Definition storeOAuthProvider (env : Env) (userId : string) (provider : Provider)
  (data : StoreData) : M (option OAuthProvider) :=
  let tokenExpiresAt := (clock_now env + expiresIn data * 1000)%Z in
  st <- get_state ;;
  let existing := select_where (same_connection userId provider) 1 (oauthProviders st) in
  if negb (valid_time tokenExpiresAt) then
    unmodelled "an Invalid Date reaches a timestamp column"
  else if negb (timestamp_accepts tokenExpiresAt) then
    throw (mkError DatabaseError "date/time field value out of range")
  else
  match existing with
  | existing0 :: _ =>
      let '(table, returning) :=
        update_where (fun r => String.eqb (op_id r) (op_id existing0))
          (refresh_connection env data tokenExpiresAt existing0)
          (oauthProviders st) in
      put_state (set_oauthProviders st table) ;;;
      ret (hd_error returning)
  | [] =>
      newProvider <- insert_oauthProvider
        {| op_id := db_random_uuid env;
           op_userId := userId;
           op_provider := provider;
           op_providerUserId := providerUserId data;
           op_accessToken := accessToken data;
           op_refreshToken := refreshToken data;
           op_tokenExpiresAt := Some tokenExpiresAt;
           op_scopes := Some (scopes data);
           op_createdAt := db_now env;
           op_updatedAt := db_now env |} ;;
      ret (Some newProvider)
  end.

(** The select is answered for a [userId] that is the text of a uuid
    ([uuid_text]); the database refuses any other. *)
Definition getOAuthProvider (userId : string) (provider : Provider)
  : M (option OAuthProvider) :=
  st <- get_state ;;
  ret (hd_error (select_where (same_connection userId provider) 1 (oauthProviders st))).

(** [isTokenExpired(expiresAt)], with [now] the value of [new Date()]. *)
Definition isTokenExpired (now : Z) (expiresAt : option Z) : bool :=
  match expiresAt with
  | None => true
  | Some t => Z.geb now t
  end.

Definition refreshLinkedInToken (env : Env) (refreshToken : string)
  : M RefreshedToken :=
  response <- await_fetch env
    (mkRequest "POST" "https://www.linkedin.com/oauth/v2/accessToken"
       [("Content-Type", "application/x-www-form-urlencoded")]
       (URLSearchParams_toString
          [ ("grant_type", "refresh_token");
            ("refresh_token", refreshToken);
            ("client_id", clientId config);
            ("client_secret", clientSecret config) ])) ;;
  if negb (response_ok response) then
    throw (Error_ "Failed to refresh token")
  else
    data <- response_json response ;;
    access_token <- lift (js_get data "access_token") ;;
    expires_in <- lift (js_get data "expires_in") ;;
    ret (mkRefreshedToken access_token expires_in).

End Service.
End OAuthService.
Import OAuthService.

(* ================================================================== *)
(** ** Requests and replies *)

Record Request := mkHttpRequest {
  request_user : option JWTPayload;      (* [request.user], set by the JWT pre-handler *)
  query_code : option string;            (* [request.query.code] *)
  query_state : option string;           (* [request.query.state] *)
  request_body : JsValue                 (* [request.body] *)
}.

Record Reply := mkReply {
  status : nat;
  body : JsValue
}.

(** [reply.code(n).send(payload)]; [reply.send(payload)] answers 200. *)
Definition send (code : nat) (payload : list (string * JsValue)) : Reply :=
  mkReply code (JObject payload).

(** [!text] for a string that may be [undefined]. *)
Definition missing (text : option string) : bool :=
  match text with
  | Some s => String.eqb s ""
  | None => true
  end.

(** The text of a query parameter that is present. *)
Definition text (param : option string) : string :=
  match param with
  | Some s => s
  | None => ""
  end.

(** [request.user?.userId] when it is truthy. *)
Definition authenticated_user (request : Request) : option string :=
  match request_user request with
  | Some payload =>
      if String.eqb (jwt_userId payload) "" then None else Some (jwt_userId payload)
  | None => None
  end.

Definition unauthorized : Reply :=
  send 401 [("error", JString "Unauthorized");
            ("message", JString "Authentication required")].

Definition date_or_null (t : option Z) : JsValue :=
  match t with Some ms => JDate ms | None => JNull end.

Definition strings_or_null (l : option (list string)) : JsValue :=
  match l with Some xs => JArray (map JString xs) | None => JNull end.

(** [scopes?.includes(name)]. *)
Definition optional_includes (l : option (list string)) (name : string) : JsValue :=
  match l with
  | Some xs => JBool (existsb (String.eqb name) xs)
  | None => JUndefined
  end.

(* ================================================================== *)
(** ** [OAuthController] *)

Module OAuthController.
Section Controller.
Context {platform : Platform}.
Variable config : LinkedInConfig.
Local Open Scope js_scope.

(** [generateRandomString(length)]. *)
Definition generateRandomString (env : Env) (length : nat) : string :=
  to_hex (random_bytes env length).

Definition linkedInConnect (env : Env) (request : Request) : M Reply :=
  try_catch
    (match authenticated_user request with
     | None => ret unauthorized
     | Some userId =>
         let state := generateRandomString env 32 in
         let stateWithUser :=
           to_base64 (JSON_stringify
             (JObject [("state", JString state); ("userId", JString userId)])) in
         let authUrl := getLinkedInAuthUrl config stateWithUser in
         ret (send 200
           [("data", JObject [("authUrl", JString authUrl);
                               ("state", JString stateWithUser)])])
     end)
    (fun error =>
       log_error error ;;;
       ret (send 500 [("error", JString "Internal Server Error");
                      ("message", JString "Failed to initiate LinkedIn OAuth")])).

(** The scopes the callback records. *)
Definition recorded_scopes : list string :=
  ["openid"; "profile"; "email"; "w_member_social"].

(** The inner [try] of the callback: the user id carried by the state,
    or the reply of its [catch]. *)
Definition decode_state (state : string) : M (Reply + JsValue) :=
  try_catch
    (decoded <- match JSON_parse (from_base64 state) with
                | Some v => ret v
                | None => throw (mkError SyntaxError "Unexpected token in JSON")
                end ;;
     userId <- lift (js_get decoded "userId") ;;
     ret (inr userId))
    (fun _ =>
       ret (inl (send 400 [("error", JString "Bad Request");
                           ("message", JString "Invalid state parameter")]))).

Definition linkedInCallback (env : Env) (request : Request) : M Reply :=
  try_catch
    (let code := query_code request in
     let state := query_state request in
     if (missing code || missing state)%bool then
       ret (send 400 [("error", JString "Bad Request");
                      ("message", JString "Missing code or state parameter")])
     else
       decoded <- decode_state (text state) ;;
       match decoded with
       | inl rejected => ret rejected
       | inr userId =>
           tokenData <- exchangeLinkedInCode config env (text code) ;;
           profile <- getLinkedInProfile env (td_accessToken tokenData) ;;
           userId' <- lift (as_string userId) ;;
           providerUserId' <- lift (as_string (profile_id profile)) ;;
           accessToken' <- lift (as_string (td_accessToken tokenData)) ;;
           refreshToken' <- lift (as_optional_string (td_refreshToken tokenData)) ;;
           expiresIn' <- lift (as_number (td_expiresIn tokenData)) ;;
           storeOAuthProvider env userId' linkedin
             {| providerUserId := providerUserId';
                accessToken := accessToken';
                refreshToken := refreshToken';
                expiresIn := expiresIn';
                scopes := recorded_scopes |} ;;;
           ret (send 200
             [("message", JString "LinkedIn account connected successfully");
              ("data", JObject [("provider", JString "linkedin");
                                 ("connectedEmail", profile_email profile);
                                 ("connectedName", profile_name profile)])])
       end)
    (fun error =>
       log_error error ;;;
       ret (send 500 [("error", JString "Internal Server Error");
                      ("message", JString "Failed to connect LinkedIn account");
                      ("details", JString (err_message error))])).

Definition linkedInStatus (env : Env) (request : Request) : M Reply :=
  try_catch
    (match authenticated_user request with
     | None => ret unauthorized
     | Some userId =>
         provider <- getOAuthProvider userId linkedin ;;
         match provider with
         | None =>
             ret (send 200 [("data", JObject [("connected", JBool false);
                                               ("canPost", JBool false)])])
         | Some provider =>
             let isExpired := isTokenExpired (clock_now env) (op_tokenExpiresAt provider) in
             ret (send 200
               [("data", JObject
                  [("connected", JBool true);
                   ("canPost", if negb isExpired
                               then optional_includes (op_scopes provider) "w_member_social"
                               else JBool false);
                   ("expiresAt", date_or_null (op_tokenExpiresAt provider));
                   ("scopes", strings_or_null (op_scopes provider));
                   ("needsRefresh", JBool isExpired)])])
         end
     end)
    (fun error =>
       log_error error ;;;
       ret (send 500 [("error", JString "Internal Server Error");
                      ("message", JString "Failed to fetch LinkedIn status")])).

(** [db.delete(oauthProviders).where(and(eq(userId), eq(provider)))].
    The delete is answered for a [userId] that is the text of a uuid
    ([uuid_text]); the database refuses any other. *)
Definition delete_connection (userId : string) (provider : Provider) : M unit :=
  st <- get_state ;;
  put_state (set_oauthProviders st
    (delete_where (same_connection userId provider) (oauthProviders st))).

Definition linkedInDisconnect (request : Request) : M Reply :=
  try_catch
    (match authenticated_user request with
     | None => ret unauthorized
     | Some userId =>
         delete_connection userId linkedin ;;;
         ret (send 200 [("message", JString "LinkedIn account disconnected successfully")])
     end)
    (fun error =>
       log_error error ;;;
       ret (send 500 [("error", JString "Internal Server Error");
                      ("message", JString "Failed to disconnect LinkedIn account")])).

End Controller.
End OAuthController.
Import OAuthController.

(* ================================================================== *)
(** ** Request validation (zod object schemas of string fields) *)

Inductive StringCheck :=
| email_ (message : string)               (* [.email(message)] *)
| min_ (n : nat) (message : string).      (* [.min(n, message)] *)

Definition ObjectSchema := list (string * list StringCheck).

Definition registerSchema : ObjectSchema :=
  [ ("email", [email_ "Invalid email address"]);
    ("name", [min_ 2 "Name must be at least 2 characters"]);
    ("password", [min_ 8 "Password must be at least 8 characters"]) ].

Definition loginSchema : ObjectSchema :=
  [ ("email", [email_ "Invalid email address"]);
    ("password", [min_ 1 "Password is required"]) ].

(** zod's name for the type of a received value. *)
Definition received_type (v : JsValue) : string :=
  match v with
  | JUndefined => "undefined"
  | JNull => "null"
  | JBool _ => "boolean"
  | JNum _ => "number"
  | JString _ => "string"
  | JDate _ => "date"
  | JArray _ => "array"
  | JObject _ => "object"
  end.

(** The message of zod's [invalid_type] issue. *)
Definition invalid_type (expected : string) (v : JsValue) : string :=
  match v with
  | JUndefined => "Required"
  | _ => "Expected " ++ expected ++ ", received " ++ received_type v
  end.

Section Validation.
Context {platform : Platform}.

Definition failed_check (text : string) (c : StringCheck) : option string :=
  match c with
  | email_ message => if zod_is_email text then None else Some message
  | min_ n message => if Nat.ltb (js_length text) n then Some message else None
  end.

Fixpoint failed_checks (field text : string) (cs : list StringCheck)
  : list (string * string) :=
  match cs with
  | [] => []
  | c :: rest =>
      match failed_check text c with
      | Some message => (field, message) :: failed_checks field text rest
      | None => failed_checks field text rest
      end
  end.

(** Issues and parsed fields of an object against a schema, in schema
    order; unknown keys are dropped. *)
Fixpoint parse_fields (schema : ObjectSchema) (fields : list (string * JsValue))
  : list (string * string) * list (string * string) :=
  match schema with
  | [] => ([], [])
  | (field, checks) :: rest =>
      let '(issues, parsed) := parse_fields rest fields in
      match own_property field fields with
      | JString text => ((failed_checks field text checks ++ issues)%list,
                         (field, text) :: parsed)
      | other => ((field, invalid_type "string" other) :: issues, parsed)
      end
  end.

(** [schema.parse(body)]. *)
Definition zod_parse (schema : ObjectSchema) (body : JsValue)
  : Outcome (list (string * string)) :=
  match body with
  | JObject fields =>
      match parse_fields schema fields with
      | ([], parsed) => Ok parsed
      | (issues, _) => Throw (mkError (ZodError issues) "")
      end
  | other => Throw (mkError (ZodError [("", invalid_type "object" other)]) "")
  end.

End Validation.

(** A parsed field. *)
Fixpoint field (name : string) (parsed : list (string * string)) : string :=
  match parsed with
  | [] => ""
  | (k, v) :: rest => if String.eqb k name then v else field name rest
  end.

(** [error.errors] as the reply shows it: path and message of each issue. *)
Definition issues_value (issues : list (string * string)) : JsValue :=
  JArray (map (fun i => JObject [("path", JArray [JString (fst i)]);
                                 ("message", JString (snd i))]) issues).

(* ================================================================== *)
(** ** [AuthService] *)

Module AuthService.

Definition SALT_ROUNDS : nat := 10.

Section Service.
Context {platform : Platform} {schema : UsersSchema}.
Local Open Scope js_scope.

Definition hashPassword (env : Env) (password : string) : M string :=
  ret (bcrypt_hash password SALT_ROUNDS (bcrypt_salt env)).

Definition verifyPassword (password hash : string) : M bool :=
  ret (bcrypt_compare password hash).

Definition default_preferences : UserPreferences :=
  {| brand_voice := Some "professional";
     tone := Some "informative";
     default_hashtags := Some [];
     banned_phrases := None |}.

(** The row that [register] inserts: the given columns and the
    defaults of the table. *)
Definition new_user (env : Env) (email name passwordHash : string) : User :=
  {| u_id := db_random_uuid env;
     u_email := email;
     u_name := name;
     u_passwordHash := Some passwordHash;
     u_preferences := default_preferences;
     u_createdAt := db_now env;
     u_updatedAt := db_now env |}.

Definition register (env : Env) (email name password : string) : M User :=
  st <- get_state ;;
  let existingUser :=
    select_where (fun u => String.eqb (u_email u) email) 1 (users st) in
  if Nat.ltb 0 (List.length existingUser) then
    throw (Error_ "User with this email already exists")
  else
    passwordHash <- hashPassword env password ;;
    insert_user (new_user env email name passwordHash).

Definition login (email password : string) : M User :=
  st <- get_state ;;
  match select_where (fun u => String.eqb (u_email u) email) 1 (users st) with
  | [] => throw (Error_ "Invalid email or password")
  | user :: _ =>
      match u_passwordHash user with
      | None => throw (Error_ "Password not set for this user")
      | Some hash =>
          if String.eqb hash "" then throw (Error_ "Password not set for this user")
          else
            isValid <- verifyPassword password hash ;;
            if negb isValid then throw (Error_ "Invalid email or password")
            else ret user
      end
  end.

(** The select is answered for a [userId] that is the text of a uuid
    ([uuid_text]); the database refuses any other. *)
Definition getUserById (userId : string) : M (option User) :=
  st <- get_state ;;
  ret (hd_error (select_where (fun u => String.eqb (u_id u) userId) 1 (users st))).

Definition getUserByEmail (email : string) : M (option User) :=
  st <- get_state ;;
  ret (hd_error (select_where (fun u => String.eqb (u_email u) email) 1 (users st))).

(** [{ ...old, ...patch }] on one key of the preference bag, as it
    reads back from the store: a key the patch does not have keeps its
    value; a key the patch has takes the patch's value, and is gone when
    that value is [undefined]. *)
Definition spread_key {T} (old : option T) (patch : option (option T)) : option T :=
  match patch with
  | Some value => value
  | None => old
  end.

Definition spread_preferences (old : UserPreferences) (patch : PreferencesPatch)
  : UserPreferences :=
  {| brand_voice := spread_key (brand_voice old) (patch_brand_voice patch);
     tone := spread_key (tone old) (patch_tone patch);
     default_hashtags := spread_key (default_hashtags old) (patch_default_hashtags patch);
     banned_phrases := spread_key (banned_phrases old) (patch_banned_phrases patch) |}.

(** The [.set({...})] of [updatePreferences]. *)
Definition with_preferences (env : Env) (preferences : UserPreferences) (r : User)
  : User :=
  {| u_id := u_id r;
     u_email := u_email r;
     u_name := u_name r;
     u_passwordHash := u_passwordHash r;
     u_preferences := preferences;
     u_createdAt := u_createdAt r;
     u_updatedAt := clock_now env |}.

(** The result is the first row of [.returning()], [None] standing for
    [undefined].  The select is answered for a [userId] that is the text
    of a uuid ([uuid_text]); the database refuses any other. *)
Definition updatePreferences (env : Env) (userId : string)
  (preferences : PreferencesPatch) : M (option User) :=
  st <- get_state ;;
  match select_where (fun u => String.eqb (u_id u) userId) 1 (users st) with
  | [] => throw (Error_ "User not found")
  | user :: _ =>
      let '(table, returning) :=
        update_where (fun u => String.eqb (u_id u) userId)
          (with_preferences env (spread_preferences (u_preferences user) preferences))
          (users st) in
      put_state (set_users st table) ;;;
      ret (hd_error returning)
  end.

End Service.
End AuthService.

(* ================================================================== *)
(** ** [AuthController] *)

(** The preference bag as an object: the keys it has, each with its
    value.  No statement depends on the order of the keys. *)
Definition preferences_value (p : UserPreferences) : JsValue :=
  JObject
    ((match brand_voice p with Some v => [("brand_voice", JString v)] | None => [] end)
     ++ (match tone p with Some v => [("tone", JString v)] | None => [] end)
     ++ (match default_hashtags p with
         | Some l => [("default_hashtags", JArray (map JString l))]
         | None => []
         end)
     ++ (match banned_phrases p with
         | Some l => [("banned_phrases", JArray (map JString l))]
         | None => []
         end))%list.

Module AuthController.
Section Controller.
Context {platform : Platform} {schema : UsersSchema}.
Local Open Scope js_scope.

(** [request.server.jwt.sign({ userId: user.id, email: user.email })]. *)
Definition token_for (env : Env) (user : User) : string :=
  jwt_sign {| jwt_userId := u_id user; jwt_email := u_email user |} (clock_now env).

Definition register (env : Env) (request : Request) : M Reply :=
  try_catch
    (parsed <- lift (zod_parse registerSchema (request_body request)) ;;
     user <- AuthService.register env (field "email" parsed) (field "name" parsed)
               (field "password" parsed) ;;
     let token := token_for env user in
     ret (send 201
       [("message", JString "User registered successfully");
        ("data", JObject
           [("user", JObject [("id", JString (u_id user));
                               ("email", JString (u_email user));
                               ("name", JString (u_name user));
                               ("createdAt", JDate (u_createdAt user))]);
            ("token", JString token)])]))
    (fun error =>
       match instanceof_ZodError error with
       | Some issues =>
           ret (send 400 [("error", JString "Validation Error");
                          ("details", issues_value issues)])
       | None =>
           if String.eqb (err_message error) "User with this email already exists" then
             ret (send 409 [("error", JString "Conflict");
                            ("message", JString (err_message error))])
           else
             log_error error ;;;
             ret (send 500 [("error", JString "Internal Server Error");
                            ("message", JString "Failed to register user")])
       end).

(** The test of the [catch] in the login handler. *)
Definition is_credentials_failure (error : JsError) : bool :=
  (String.eqb (err_message error) "Invalid email or password"
   || String.eqb (err_message error) "Password not set for this user")%bool.

Definition login (env : Env) (request : Request) : M Reply :=
  try_catch
    (parsed <- lift (zod_parse loginSchema (request_body request)) ;;
     user <- AuthService.login (field "email" parsed) (field "password" parsed) ;;
     let token := token_for env user in
     ret (send 200
       [("message", JString "Login successful");
        ("data", JObject
           [("user", JObject [("id", JString (u_id user));
                               ("email", JString (u_email user));
                               ("name", JString (u_name user))]);
            ("token", JString token)])]))
    (fun error =>
       match instanceof_ZodError error with
       | Some issues =>
           ret (send 400 [("error", JString "Validation Error");
                          ("details", issues_value issues)])
       | None =>
           if is_credentials_failure error then
             ret (send 401 [("error", JString "Unauthorized");
                            ("message", JString "Invalid email or password")])
           else
             log_error error ;;;
             ret (send 500 [("error", JString "Internal Server Error");
                            ("message", JString "Failed to login")])
       end).

Definition me (request : Request) : M Reply :=
  try_catch
    (match authenticated_user request with
     | None => ret unauthorized
     | Some userId =>
         user <- AuthService.getUserById userId ;;
         match user with
         | None =>
             ret (send 404 [("error", JString "Not Found");
                            ("message", JString "User not found")])
         | Some user =>
             ret (send 200
               [("data", JObject
                   [("id", JString (u_id user));
                    ("email", JString (u_email user));
                    ("name", JString (u_name user));
                    ("preferences", preferences_value (u_preferences user));
                    ("createdAt", JDate (u_createdAt user))])])
         end
     end)
    (fun error =>
       log_error error ;;;
       ret (send 500 [("error", JString "Internal Server Error");
                      ("message", JString "Failed to fetch user info")])).

End Controller.
End AuthController.

(* ================================================================== *)
(** ** The JWT pre-handler ([auth.middleware.ts]) *)

(** [request.jwtVerify()] is not code of this repository: given the
    [Authorization] header and the time, it yields the payload of a token
    it accepts, and throws otherwise. *)
Class JwtVerifier := {
  jwt_verify : option string -> Z -> option JWTPayload
}.

(** How a pre-handler ends: it has sent the reply, or the request goes
    on to the next handler. *)
Inductive Hook :=
| Sent (reply : Reply)
| Next (request : Request).

Definition with_user (request : Request) (user : option JWTPayload) : Request :=
  {| request_user := user;
     query_code := query_code request;
     query_state := query_state request;
     request_body := request_body request |}.

Module AuthMiddleware.
Section Middleware.
Context {verifier : JwtVerifier}.
Local Open Scope js_scope.

(** [await request.jwtVerify()]: on success [request.user] is the payload. *)
Definition jwtVerify (env : Env) (authorization : option string) (request : Request)
  : M Request :=
  match jwt_verify authorization (clock_now env) with
  | Some payload => ret (with_user request (Some payload))
  | None => throw (mkError PlainError "Unauthorized")
  end.

Definition authenticate (env : Env) (authorization : option string)
  (request : Request) : M Hook :=
  try_catch
    (verified <- jwtVerify env authorization request ;;
     let decoded := request_user verified in
     ret (Next (with_user verified decoded)))
    (fun error =>
       ret (Sent (send 401 [("error", JString "Unauthorized");
                            ("message", JString "Invalid or expired token")]))).

Definition optionalAuthenticate (env : Env) (authorization : option string)
  (request : Request) : M Hook :=
  try_catch
    (verified <- jwtVerify env authorization request ;;
     let decoded := request_user verified in
     ret (Next (with_user verified decoded)))
    (fun error => ret (Next (with_user request None))).

End Middleware.
End AuthMiddleware.

(* ================================================================== *)
(** ** Routes ([auth.routes.ts] and [oauth.routes.ts]) *)

(** The routes the two files register. *)
Inductive Route :=
| POST_auth_register
| POST_auth_login
| GET_auth_me
| GET_auth_linkedin
| GET_auth_linkedin_callback
| GET_auth_linkedin_status
| DELETE_auth_linkedin.

Section Routes.
Context {platform : Platform} {schema : UsersSchema} {verifier : JwtVerifier}.
Variable config : LinkedInConfig.
Local Open Scope js_scope.

(** A route with [preHandler: [app.authenticate]]: the handler runs on
    the request the pre-handler passes on, unless the pre-handler has
    sent the reply. *)
Definition authPreHandler (env : Env) (authorization : option string)
  (request : Request) (handler : Request -> M Reply) : M Reply :=
  hook <- AuthMiddleware.authenticate env authorization request ;;
  match hook with
  | Sent reply => ret reply
  | Next request' => handler request'
  end.

(** What serves a route: [authorization] is the header of the incoming
    request, [request] the rest of it. *)
Definition serve (route : Route) (env : Env) (authorization : option string)
  (request : Request) : M Reply :=
  match route with
  | POST_auth_register => AuthController.register env request
  | POST_auth_login => AuthController.login env request
  | GET_auth_me => authPreHandler env authorization request AuthController.me
  | GET_auth_linkedin =>
      authPreHandler env authorization request (linkedInConnect config env)
  | GET_auth_linkedin_callback => linkedInCallback config env request
  | GET_auth_linkedin_status =>
      authPreHandler env authorization request (linkedInStatus env)
  | DELETE_auth_linkedin =>
      authPreHandler env authorization request linkedInDisconnect
  end.

End Routes.

(* ================================================================== *)
(** ** Utilities ([shared/utils]) and configuration *)

(** For [truncate] a text is the sequence of its UTF-16 code units, as
    [length] and [slice] see it. *)
Definition CodeUnits := list N.

(** [text.slice(0, end)] for an integer [end]: a negative [end] counts
    from the end of the text. *)
Definition slice_from_start (text : CodeUnits) (end_ : Z) : CodeUnits :=
  let len := Z.of_nat (List.length text) in
  let stop := if (end_ <? 0)%Z then Z.max (len + end_) 0 else Z.min end_ len in
  firstn (Z.to_nat stop) text.

(** The three code units of ['...']. *)
Definition ellipsis : CodeUnits := [46%N; 46%N; 46%N].

Definition truncate (text : CodeUnits) (maxLength : Z) : CodeUnits :=
  if (Z.of_nat (List.length text) <=? maxLength)%Z then text
  else (slice_from_start text (maxLength - 3) ++ ellipsis)%list.

(** [validateConfig()], over the process environment. *)
Definition validateConfig (process_env : string -> option string) : Outcome unit :=
  let required := ["JWT_SECRET"; "ANTHROPIC_API_KEY"] in
  let absent := filter (fun key => missing (process_env key)) required in
  if (Nat.ltb 0 (List.length absent)
      && match process_env "NODE_ENV" with
         | Some value => String.eqb value "production"
         | None => false
         end)%bool
  then Throw (Error_ ("Missing required environment variables: "
                      ++ join_with ", " absent))
  else Ok tt.


(* ================================================================== *)
(** ** A reference platform

    An executable implementation of the platform interface, used to run
    the handlers on concrete requests.  The transcoders, [JSON.parse]
    and [JSON.stringify] follow RFC 4648, the Encoding standard and
    ECMA-262 on UTF-8 text.  bcrypt, the JWT signer and the e-mail
    pattern are stand-ins with the same interface. *)

Module Reference.

(* ------------------------------------------------------------------ *)
(** *** Hexadecimal and base64 *)

Definition lower_hex_digit (n : nat) : ascii :=
  if Nat.ltb n 10 then ascii_of_nat (48 + n) else ascii_of_nat (87 + n).

Fixpoint hex_of_bytes (bytes : list ascii) : string :=
  match bytes with
  | [] => ""
  | b :: rest =>
      let n := nat_of_ascii b in
      String (lower_hex_digit (n / 16))
        (String (lower_hex_digit (n mod 16)) (hex_of_bytes rest))
  end.

Definition base64_alphabet : string :=
  "ABCDEFGHIJKLMNOPQRSTUVWXYZabcdefghijklmnopqrstuvwxyz0123456789+/".

Definition base64_char (n : nat) : ascii :=
  match String.get n base64_alphabet with
  | Some c => c
  | None => "="%char
  end.

Fixpoint base64_encode (s : string) : string :=
  match s with
  | EmptyString => ""
  | String a EmptyString =>
      let x := nat_of_ascii a in
      String (base64_char (x / 4)) (String (base64_char ((x mod 4) * 16)) "==")
  | String a (String b EmptyString) =>
      let x := nat_of_ascii a in
      let y := nat_of_ascii b in
      String (base64_char (x / 4))
        (String (base64_char ((x mod 4) * 16 + y / 16))
           (String (base64_char ((y mod 16) * 4)) "="))
  | String a (String b (String c rest)) =>
      let x := nat_of_ascii a in
      let y := nat_of_ascii b in
      let z := nat_of_ascii c in
      String (base64_char (x / 4))
        (String (base64_char ((x mod 4) * 16 + y / 16))
           (String (base64_char ((y mod 16) * 4 + z / 64))
              (String (base64_char (z mod 64)) (base64_encode rest))))
  end.

(** The sextet of a character of the standard or the URL-safe alphabet. *)
Definition sextet (c : ascii) : option nat :=
  let n := nat_of_ascii c in
  if between 65 90 n then Some (n - 65)
  else if between 97 122 n then Some (n - 71)
  else if between 48 57 n then Some (n + 4)
  else if (Ascii.eqb c "+" || Ascii.eqb c "-")%bool then Some 62
  else if (Ascii.eqb c "/" || Ascii.eqb c "_")%bool then Some 63
  else None.

(** Sextets up to the first [=]; other characters are skipped. *)
Fixpoint sextets (s : string) : list nat :=
  match s with
  | EmptyString => []
  | String c rest =>
      if Ascii.eqb c "=" then []
      else match sextet c with
           | Some n => n :: sextets rest
           | None => sextets rest
           end
  end.

Fixpoint bytes_of_sextets (l : list nat) : list ascii :=
  match l with
  | a :: b :: c :: d :: rest =>
      ascii_of_nat (a * 4 + b / 16)
      :: ascii_of_nat ((b mod 16) * 16 + c / 4)
      :: ascii_of_nat ((c mod 4) * 64 + d)
      :: bytes_of_sextets rest
  | [a; b; c] =>
      [ascii_of_nat (a * 4 + b / 16); ascii_of_nat ((b mod 16) * 16 + c / 4)]
  | [a; b] => [ascii_of_nat (a * 4 + b / 16)]
  | _ => []
  end.

Definition base64_decode (s : string) : list ascii := bytes_of_sextets (sextets s).

(* ------------------------------------------------------------------ *)
(** *** UTF-8 decoding with replacement *)

Definition replacement : string :=
  String (ascii_of_nat 239) (String (ascii_of_nat 191) (String (ascii_of_nat 189) "")).

(** A sequence in progress: the bytes read, how many are still needed,
    and the range allowed for the next one. *)
Record Pending := mkPending {
  read : string;
  needed : nat;
  lower : nat;
  upper : nat
}.

(** A byte met with no sequence in progress. *)
Definition lead (b : ascii) : string * option Pending :=
  let n := nat_of_ascii b in
  let one := String b "" in
  if Nat.leb n 127 then (one, None)
  else if between 194 223 n then ("", Some (mkPending one 1 128 191))
  else if between 224 239 n then
    ("", Some (mkPending one 2 (if Nat.eqb n 224 then 160 else 128)
                               (if Nat.eqb n 237 then 159 else 191)))
  else if between 240 244 n then
    ("", Some (mkPending one 3 (if Nat.eqb n 240 then 144 else 128)
                               (if Nat.eqb n 244 then 143 else 191)))
  else (replacement, None).

Fixpoint utf8_text (bytes : list ascii) (pending : option Pending) : string :=
  match bytes with
  | [] => match pending with Some _ => replacement | None => "" end
  | b :: rest =>
      match pending with
      | None => let '(out, p) := lead b in out ++ utf8_text rest p
      | Some p =>
          if between (lower p) (upper p) (nat_of_ascii b) then
            match needed p with
            | 1 => (read p ++ String b "") ++ utf8_text rest None
            | n => utf8_text rest
                     (Some (mkPending (read p ++ String b "") (n - 1) 128 191))
            end
          else
            let '(out, p') := lead b in
            replacement ++ out ++ utf8_text rest p'
      end
  end.

Definition text_of_base64 (s : string) : string := utf8_text (base64_decode s) None.

(** [text.length]: a four-byte sequence makes two code units. *)
Fixpoint utf16_length (s : string) : nat :=
  match s with
  | EmptyString => 0
  | String c rest =>
      let n := nat_of_ascii c in
      if between 128 191 n then utf16_length rest
      else if Nat.leb 240 n then 2 + utf16_length rest
      else 1 + utf16_length rest
  end.

(* ------------------------------------------------------------------ *)
(** *** [JSON.parse] *)

Definition quotation_mark : ascii := ascii_of_nat 34.

Definition is_whitespace (c : ascii) : bool :=
  let n := nat_of_ascii c in
  (Nat.eqb n 32 || Nat.eqb n 9 || Nat.eqb n 10 || Nat.eqb n 13)%bool.

Fixpoint skip_whitespace (s : string) : string :=
  match s with
  | EmptyString => ""
  | String c rest => if is_whitespace c then skip_whitespace rest else s
  end.

Definition hex_value (c : ascii) : option N :=
  let n := nat_of_ascii c in
  if between 48 57 n then Some (N.of_nat (n - 48))
  else if between 65 70 n then Some (N.of_nat (n - 55))
  else if between 97 102 n then Some (N.of_nat (n - 87))
  else None.

Definition hex4 (a b c d : ascii) : option N :=
  match hex_value a, hex_value b, hex_value c, hex_value d with
  | Some w, Some x, Some y, Some z => Some (((w * 16 + x) * 16 + y) * 16 + z)%N
  | _, _, _, _ => None
  end.

(** The UTF-8 bytes of a code point. *)
Definition utf8_of_code_point (n : N) : string :=
  (if n <? 128 then String (ascii_of_N n) ""
   else if n <? 2048 then
     String (ascii_of_N (192 + n / 64)) (String (ascii_of_N (128 + n mod 64)) "")
   else if n <? 65536 then
     String (ascii_of_N (224 + n / 4096))
       (String (ascii_of_N (128 + (n / 64) mod 64))
          (String (ascii_of_N (128 + n mod 64)) ""))
   else
     String (ascii_of_N (240 + n / 262144))
       (String (ascii_of_N (128 + (n / 4096) mod 64))
          (String (ascii_of_N (128 + (n / 64) mod 64))
             (String (ascii_of_N (128 + n mod 64)) ""))))%N.

Definition is_high_surrogate (n : N) : bool := (N.leb 55296 n && N.leb n 56319)%bool.
Definition is_low_surrogate (n : N) : bool := (N.leb 56320 n && N.leb n 57343)%bool.

Definition simple_escape (c : ascii) : option ascii :=
  let n := nat_of_ascii c in
  if (Nat.eqb n 34 || Nat.eqb n 92 || Nat.eqb n 47)%bool then Some c
  else if Ascii.eqb c "b" then Some (ascii_of_nat 8)
  else if Ascii.eqb c "f" then Some (ascii_of_nat 12)
  else if Ascii.eqb c "n" then Some (ascii_of_nat 10)
  else if Ascii.eqb c "r" then Some (ascii_of_nat 13)
  else if Ascii.eqb c "t" then Some (ascii_of_nat 9)
  else None.

Definition prepend (prefix : string) (r : option (string * string))
  : option (string * string) :=
  match r with
  | Some (text, rest) => Some (prefix ++ text, rest)
  | None => None
  end.

(** The characters of a string literal after its opening quote, and
    what follows the closing quote. *)
Fixpoint string_literal (s : string) : option (string * string) :=
  match s with
  | EmptyString => None
  | String c rest =>
      let n := nat_of_ascii c in
      if Nat.eqb n 34 then Some ("", rest)
      else if Nat.ltb n 32 then None
      else if Nat.eqb n 92 then
        match rest with
        | String "u" (String h1 (String h2 (String h3 (String h4 rest1)))) =>
            match hex4 h1 h2 h3 h4 with
            | None => None
            | Some hi =>
                match rest1 with
                | String "\" (String "u" (String l1 (String l2 (String l3 (String l4 rest2))))) =>
                    match hex4 l1 l2 l3 l4 with
                    | Some lo =>
                        if (is_high_surrogate hi && is_low_surrogate lo)%bool then
                          prepend (utf8_of_code_point
                                     (65536 + (hi - 55296) * 1024 + (lo - 56320))%N)
                                  (string_literal rest2)
                        else prepend (utf8_of_code_point hi) (string_literal rest1)
                    | None => prepend (utf8_of_code_point hi) (string_literal rest1)
                    end
                | _ => prepend (utf8_of_code_point hi) (string_literal rest1)
                end
            end
        | String e rest1 =>
            match simple_escape e with
            | Some c' => prepend (String c' "") (string_literal rest1)
            | None => None
            end
        | EmptyString => None
        end
      else prepend (String c "") (string_literal rest)
  end.

Fixpoint take_digits (s : string) : string * string :=
  match s with
  | String c rest =>
      if between 48 57 (nat_of_ascii c) then
        let '(ds, rest') := take_digits rest in (String c ds, rest')
      else ("", s)
  | EmptyString => ("", "")
  end.

(** A number literal: [-? int frac? exp?]. *)
Definition number_literal (s : string) : option (string * string) :=
  let '(sign, s1) := match s with
                     | String "-" r => ("-", r)
                     | _ => ("", s)
                     end in
  let '(int, s2) := take_digits s1 in
  match int with
  | EmptyString => None
  | String d more =>
      if (Ascii.eqb d "0" && negb (String.eqb more ""))%bool then None
      else
        let frac :=
          match s2 with
          | String "." r =>
              let '(ds, r') := take_digits r in
              if String.eqb ds "" then None else Some ("." ++ ds, r')
          | _ => Some ("", s2)
          end in
        match frac with
        | None => None
        | Some (f, s3) =>
            match s3 with
            | String e r =>
                if (Ascii.eqb e "e" || Ascii.eqb e "E")%bool then
                  let '(esign, r1) := match r with
                                      | String "+" r' => ("+", r')
                                      | String "-" r' => ("-", r')
                                      | _ => ("", r)
                                      end in
                  let '(ds, r2) := take_digits r1 in
                  if String.eqb ds "" then None
                  else Some (sign ++ int ++ f ++ String e esign ++ ds, r2)
                else Some (sign ++ int ++ f, s3)
            | EmptyString => Some (sign ++ int ++ f, s3)
            end
        end
  end.

Fixpoint after_prefix (word s : string) : option string :=
  match word, s with
  | EmptyString, _ => Some s
  | String c word', String d s' =>
      if Ascii.eqb c d then after_prefix word' s' else None
  | String _ _, EmptyString => None
  end.

Definition keyword (word : string) (v : JsValue) (s : string) : option (JsValue * string) :=
  match after_prefix word s with
  | Some rest => Some (v, rest)
  | None => None
  end.

Fixpoint json_value (fuel : nat) (s : string) : option (JsValue * string) :=
  match fuel with
  | O => None
  | S fuel =>
      match skip_whitespace s with
      | String "{" rest =>
          match skip_whitespace rest with
          | String "}" rest' => Some (JObject [], rest')
          | _ => match json_members fuel rest with
                 | Some (fields, rest') => Some (JObject fields, rest')
                 | None => None
                 end
          end
      | String "[" rest =>
          match skip_whitespace rest with
          | String "]" rest' => Some (JArray [], rest')
          | _ => match json_elements fuel rest with
                 | Some (items, rest') => Some (JArray items, rest')
                 | None => None
                 end
          end
      | String "t" _ as s' => keyword "true" (JBool true) s'
      | String "f" _ as s' => keyword "false" (JBool false) s'
      | String "n" _ as s' => keyword "null" JNull s'
      | String c rest as s' =>
          if Ascii.eqb c quotation_mark then
            match string_literal rest with
            | Some (text, rest') => Some (JString text, rest')
            | None => None
            end
          else
            match number_literal s' with
            | Some (lit, rest') => Some (JNum lit, rest')
            | None => None
            end
      | EmptyString => None
      end
  end
with json_elements (fuel : nat) (s : string) : option (list JsValue * string) :=
  match fuel with
  | O => None
  | S fuel =>
      match json_value fuel s with
      | None => None
      | Some (v, rest) =>
          match skip_whitespace rest with
          | String "]" rest' => Some ([v], rest')
          | String "," rest' =>
              match json_elements fuel rest' with
              | Some (vs, rest'') => Some (v :: vs, rest'')
              | None => None
              end
          | _ => None
          end
      end
  end
with json_members (fuel : nat) (s : string)
  : option (list (string * JsValue) * string) :=
  match fuel with
  | O => None
  | S fuel =>
      match skip_whitespace s with
      | String c rest =>
          if negb (Ascii.eqb c quotation_mark) then None else
          match string_literal rest with
          | None => None
          | Some (key, rest1) =>
              match skip_whitespace rest1 with
              | String ":" rest2 =>
                  match json_value fuel rest2 with
                  | None => None
                  | Some (v, rest3) =>
                      match skip_whitespace rest3 with
                      | String "}" rest4 => Some ([(key, v)], rest4)
                      | String "," rest4 =>
                          match json_members fuel rest4 with
                          | Some (fields, rest5) => Some ((key, v) :: fields, rest5)
                          | None => None
                          end
                      | _ => None
                      end
                  end
              | _ => None
              end
          end
      | _ => None
      end
  end.

Definition parse (text : string) : option JsValue :=
  match json_value (2 * String.length text + 2) text with
  | Some (v, rest) => if String.eqb (skip_whitespace rest) "" then Some v else None
  | None => None
  end.

(* ------------------------------------------------------------------ *)
(** *** [JSON.stringify] *)

Definition escape_char (c : ascii) : string :=
  let n := nat_of_ascii c in
  if Nat.eqb n 34 then String "\" (String quotation_mark "")
  else if Nat.eqb n 92 then "\\"
  else if Nat.eqb n 8 then "\b"
  else if Nat.eqb n 12 then "\f"
  else if Nat.eqb n 10 then "\n"
  else if Nat.eqb n 13 then "\r"
  else if Nat.eqb n 9 then "\t"
  else if Nat.ltb n 32 then
    "\u00" ++ String (lower_hex_digit (n / 16)) (String (lower_hex_digit (n mod 16)) "")
  else String c "".

Fixpoint escape (s : string) : string :=
  match s with
  | EmptyString => ""
  | String c rest => escape_char c ++ escape rest
  end.

Definition quote (s : string) : string :=
  String quotation_mark (escape s ++ String quotation_mark "").

Fixpoint decimal_digits (fuel : nat) (n : Z) (acc : string) : string :=
  match fuel with
  | O => acc
  | S fuel =>
      let acc' := String (ascii_of_nat (48 + Z.to_nat (n mod 10))) acc in
      if (n <? 10)%Z then acc' else decimal_digits fuel (n / 10)%Z acc'
  end.

(** A natural number in decimal, padded with zeros to [width] digits. *)
Definition padded (width : nat) (n : Z) : string :=
  let ds := decimal_digits 20 n "" in
  (fix pad (k : nat) (s : string) :=
     match k with
     | O => s
     | S k' => pad k' (String "0" s)
     end) (width - String.length ds) ds.

(** [Date.prototype.toISOString] for a valid time value. *)
Definition iso_string (ms : Z) : string :=
  (let days := ms / 86400000 in
   let in_day := ms mod 86400000 in
   let z := days + 719468 in
   let era := z / 146097 in
   let doe := z - era * 146097 in
   let yoe := (doe - doe / 1460 + doe / 36524 - doe / 146096) / 365 in
   let doy := doe - (365 * yoe + yoe / 4 - yoe / 100) in
   let mp := (5 * doy + 2) / 153 in
   let d := doy - (153 * mp + 2) / 5 + 1 in
   let m := if mp <? 10 then mp + 3 else mp - 9 in
   let y := yoe + era * 400 + (if m <=? 2 then 1 else 0) in
   let year := if (0 <=? y) && (y <=? 9999) then padded 4 y
               else if y <? 0 then "-" ++ padded 6 (- y)
               else "+" ++ padded 6 y in
   year ++ "-" ++ padded 2 m ++ "-" ++ padded 2 d ++ "T"
   ++ padded 2 (in_day / 3600000) ++ ":" ++ padded 2 ((in_day / 60000) mod 60)
   ++ ":" ++ padded 2 ((in_day / 1000) mod 60) ++ "." ++ padded 3 (in_day mod 1000)
   ++ "Z")%Z.

(** A property whose value is [undefined] is left out of an object and
    printed as [null] in an array. *)
Fixpoint stringify (v : JsValue) : string :=
  match v with
  | JUndefined => "null"
  | JNull => "null"
  | JBool true => "true"
  | JBool false => "false"
  | JNum lit => lit
  | JString s => quote s
  | JDate ms => quote (iso_string ms)
  | JArray items =>
      "[" ++ join_with "," (map stringify items) ++ "]"
  | JObject fields =>
      "{" ++ join_with ","
               ((fix members (l : list (string * JsValue)) : list string :=
                   match l with
                   | [] => []
                   | (_, JUndefined) :: rest => members rest
                   | (k, v') :: rest => (quote k ++ ":" ++ stringify v') :: members rest
                   end) fields)
      ++ "}"
  end.

(* ------------------------------------------------------------------ *)
(** *** Stand-ins *)

(** Stands in for bcrypt: a hash names its cost and salt and ends with
    the password, so that a password verifies against its own hash. *)
Definition stand_in_hash (password : string) (rounds : nat) (salt : string) : string :=
  "$2b$" ++ padded 2 (Z.of_nat rounds) ++ "$" ++ salt ++ "$" ++ password.

(** What follows the [n]-th [$]. *)
Fixpoint after_dollars (n : nat) (s : string) : option string :=
  match n, s with
  | O, _ => Some s
  | S _, EmptyString => None
  | S n', String c rest =>
      if Ascii.eqb c "$" then after_dollars n' rest else after_dollars n rest
  end.

Definition stand_in_compare (password hash : string) : bool :=
  match after_dollars 4 hash with
  | Some stored => String.eqb stored password
  | None => false
  end.

(** Stands in for the signer: the claims without a signature. *)
Definition stand_in_sign (payload : JWTPayload) (now : Z) : string :=
  base64_encode
    (stringify (JObject [("userId", JString (jwt_userId payload));
                         ("email", JString (jwt_email payload));
                         ("iat", JNum (decimal_digits 20 (now / 1000) ""))])).

(** Stands in for the e-mail pattern: one [@] with text on both sides
    and a dot after it. *)
Definition stand_in_is_email (s : string) : bool :=
  match String.index 0 "@" s with
  | Some (S i) =>
      let domain := String.substring (S (S i)) (String.length s - S (S i)) s in
      match String.index 0 "@" domain, String.index 0 "." domain with
      | None, Some (S j) => Nat.ltb (S (S j)) (String.length domain)
      | _, _ => false
      end
  | _ => false
  end.

#[export] Instance platform : Platform := {|
  JSON_parse := parse;
  JSON_stringify := stringify;
  to_base64 := base64_encode;
  from_base64 := text_of_base64;
  to_hex := hex_of_bytes;
  bcrypt_hash := stand_in_hash;
  bcrypt_compare := stand_in_compare;
  jwt_sign := stand_in_sign;
  zod_is_email := stand_in_is_email;
  js_length := utf16_length
|}.

(** Stands in for the verifier: it reads the claims of a token that
    [stand_in_sign] made out of the header [Bearer <token>]. *)
Definition stand_in_verify (authorization : option string) (now : Z)
  : option JWTPayload :=
  match authorization with
  | None => None
  | Some header =>
      match after_prefix "Bearer " header with
      | None => None
      | Some token =>
          match parse (text_of_base64 token) with
          | Some (JObject fields) =>
              match own_property "userId" fields, own_property "email" fields with
              | JString userId, JString email =>
                  Some {| jwt_userId := userId; jwt_email := email |}
              | _, _ => None
              end
          | _ => None
          end
      end
  end.

#[export] Instance verifier : JwtVerifier := {|
  jwt_verify := stand_in_verify
|}.

(** The [users] table as the spec describes it: nothing is asked of a
    row beyond the key and the unique e-mail. *)
#[export] Instance schema : UsersSchema := {|
  users_accept := fun _ => true
|}.

End Reference.

(* ================================================================== *)
(** ** Notions used in the statements *)

(** The row stored for a user and a provider, if any. *)
Definition connection_of (st : State) (userId : string) (provider : Provider)
  : option OAuthProvider :=
  find (same_connection userId provider) (oauthProviders st).

(** What the schema asks of a new connection: the user exists, the drawn
    key is new, and the provider's user id fits its column. *)
Definition insert_accepted (env : Env) (st : State) (userId : string)
  (data : StoreData) : Prop :=
  In userId (map u_id (users st))
  /\ ~ In (db_random_uuid env) (map op_id (oauthProviders st))
  /\ character_count (providerUserId data) <= 255.

(** The key of the [unique(user_id, provider)] constraint. *)
Definition connection_key (r : OAuthProvider) : string * Provider :=
  (op_userId r, op_provider r).

(** The constraints of the schema, as a property of the store: primary
    keys and unique columns hold no value twice, and every connection
    belongs to a user. *)
Record consistent (st : State) : Prop := {
  connection_ids : NoDup (map op_id (oauthProviders st));
  connection_keys : NoDup (map connection_key (oauthProviders st));
  connection_owner : forall r, In r (oauthProviders st) ->
                               In (op_userId r) (map u_id (users st));
  user_ids : NoDup (map u_id (users st));
  user_emails : NoDup (map u_email (users st))
}.

(** The configuration when no LinkedIn variable is set. *)
Definition default_config : LinkedInConfig := linkedin_config (fun _ => None).

(** [s] occurs in [t]. *)
Definition Substring (s t : string) : Prop :=
  exists before after, t = before ++ s ++ after.

Fixpoint starts_with (s t : string) : bool :=
  match s, t with
  | EmptyString, _ => true
  | String c s', String d t' => (Ascii.eqb c d && starts_with s' t')%bool
  | String _ _, EmptyString => false
  end.

Fixpoint contains (s t : string) : bool :=
  (starts_with s t
   || match t with
      | EmptyString => false
      | String _ rest => contains s rest
      end)%bool.

(** A computation that ends the same way from every state and leaves
    the state as it found it. *)
Definition stateless {A} (m : M A) : Prop :=
  exists o, forall st, m st = (o, st).

Definition not_connected : Reply :=
  send 200 [("data", JObject [("connected", JBool false); ("canPost", JBool false)])].

Definition invalid_state : Reply :=
  send 400 [("error", JString "Bad Request");
            ("message", JString "Invalid state parameter")].

Definition connect_failed (e : JsError) : Reply :=
  send 500 [("error", JString "Internal Server Error");
            ("message", JString "Failed to connect LinkedIn account");
            ("details", JString (err_message e))].

Definition user_by_email (st : State) (email : string) : option User :=
  find (fun u => String.eqb (u_email u) email) (users st).

(** The three ways a login can fail. *)
Inductive LoginFailure {platform : Platform} (st : State) (email password : string)
  : Prop :=
| unknown_email :
    user_by_email st email = None -> LoginFailure st email password
| no_password_hash (user : User) :
    user_by_email st email = Some user ->
    or_string (u_passwordHash user) None = None ->
    LoginFailure st email password
| wrong_password (user : User) (hash : string) :
    user_by_email st email = Some user ->
    u_passwordHash user = Some hash -> hash <> "" ->
    bcrypt_compare password hash = false ->
    LoginFailure st email password.

Definition invalid_credentials : Reply :=
  send 401 [("error", JString "Unauthorized");
            ("message", JString "Invalid email or password")].

Definition missing_parameters : Reply :=
  send 400 [("error", JString "Bad Request");
            ("message", JString "Missing code or state parameter")].

Definition invalid_token : Reply :=
  send 401 [("error", JString "Unauthorized");
            ("message", JString "Invalid or expired token")].

Definition user_not_found : Reply :=
  send 404 [("error", JString "Not Found"); ("message", JString "User not found")].

(** The request [exchangeLinkedInCode] sends for a code. *)
Definition token_request (config : LinkedInConfig) (code : string) : HttpRequest :=
  mkRequest "POST" "https://www.linkedin.com/oauth/v2/accessToken"
    [("Content-Type", "application/x-www-form-urlencoded")]
    (URLSearchParams_toString
       [ ("grant_type", "authorization_code");
         ("code", code);
         ("client_id", clientId config);
         ("client_secret", clientSecret config);
         ("redirect_uri", callbackUrl config) ]).

(** The request [refreshLinkedInToken] sends for a refresh token. *)
Definition refresh_request (config : LinkedInConfig) (refreshToken : string)
  : HttpRequest :=
  mkRequest "POST" "https://www.linkedin.com/oauth/v2/accessToken"
    [("Content-Type", "application/x-www-form-urlencoded")]
    (URLSearchParams_toString
       [ ("grant_type", "refresh_token");
         ("refresh_token", refreshToken);
         ("client_id", clientId config);
         ("client_secret", clientSecret config) ]).

(** The request [getLinkedInProfile] sends with an access token. *)
Definition userinfo_request (accessToken : string) : HttpRequest :=
  mkRequest "GET" "https://api.linkedin.com/v2/userinfo"
    [("Authorization", "Bearer " ++ accessToken)] "".

(** [reply.body.data[key]] as a client reads it from the JSON answer. *)
Definition data_field (reply : Reply) (key : string) : JsValue :=
  match body reply with
  | JObject fields =>
      match own_property "data" fields with
      | JObject data => own_property key data
      | _ => JUndefined
      end
  | _ => JUndefined
  end.

(** A body that the registration schema takes: an object whose
    [email], [name] and [password] are strings, the first an e-mail
    address, the others of at least 2 and 8 UTF-16 code units. *)
Definition acceptable_registration {platform : Platform} (body : JsValue)
  (email name password : string) : Prop :=
  exists fields,
    body = JObject fields
    /\ own_property "email" fields = JString email
    /\ own_property "name" fields = JString name
    /\ own_property "password" fields = JString password
    /\ zod_is_email email = true
    /\ 2 <= js_length name
    /\ 8 <= js_length password.

Definition email_taken : Reply :=
  send 409 [("error", JString "Conflict");
            ("message", JString "User with this email already exists")].

(** The routes registered with [preHandler: authPreHandler]. *)
Definition protected (route : Route) : bool :=
  match route with
  | GET_auth_me | GET_auth_linkedin | GET_auth_linkedin_status
  | DELETE_auth_linkedin => true
  | POST_auth_register | POST_auth_login | GET_auth_linkedin_callback => false
  end.

(* ================================================================== *)
(** ** Example data *)

Module Examples.
Local Open Scope Z_scope.

Definition alice_id : string := "7d9f3c1a-2b4e-4f60-8a1c-5e6f7a8b9c0d".

Definition alice : User :=
  {| u_id := alice_id; u_email := "a@b.com"; u_name := "Alice";
     u_passwordHash := Some "$2b$10$salt$password123";
     u_preferences := {| brand_voice := Some "professional"; tone := Some "informative";
                         default_hashtags := Some []; banned_phrases := None |};
     u_createdAt := 1699000000000; u_updatedAt := 1699000000000 |}.

(** Alice's LinkedIn connection before she reconnects. *)
Definition first_connection : OAuthProvider :=
  {| op_id := "c1"; op_userId := alice_id; op_provider := linkedin;
     op_providerUserId := "li-old"; op_accessToken := "tok-old";
     op_refreshToken := Some "refresh-old";
     op_tokenExpiresAt := Some 1699999999000;
     op_scopes := Some ["openid"; "profile"; "email"; "w_member_social"];
     op_createdAt := 1699000000000; op_updatedAt := 1699000000000 |}.

Definition connected : State :=
  {| users := [alice]; oauthProviders := [first_connection]; log := [] |}.

Definition unconnected : State :=
  {| users := [alice]; oauthProviders := []; log := [] |}.

(** A reconnect whose token response carries no refresh token. *)
Definition reconnect : StoreData :=
  {| providerUserId := "li-new"; accessToken := "tok-new"; refreshToken := None;
     expiresIn := 3600; scopes := ["openid"; "profile"] |}.

Definition zero_bytes (n : nat) : list ascii := repeat (ascii_of_nat 0%nat) n.

(** A provider that rejects every call. *)
Definition provider_down : Env :=
  {| clock_now := 1700000000000; clock_later := 1700000000005;
     db_now := 1700000000003; db_random_uuid := "c2"; bcrypt_salt := "salt";
     random_bytes := zero_bytes;
     fetch := fun _ =>
       Responded (mkResponse false
         (Reference.stringify (JObject [("error", JString "invalid_grant")]))) |}.

(** A provider that answers both calls; its token response grants a
    scope the program did not ask for. *)
Definition token_payload : JsValue :=
  JObject [("access_token", JString "tok-new");
           ("expires_in", JNum "5183999");
           ("scope", JString "r_liteprofile")].

Definition userinfo_payload : JsValue :=
  JObject [("sub", JString "li-new");
           ("email", JString "a@b.com");
           ("name", JString "Alice")].

Definition answer (token_ok userinfo_ok : bool) (rq : HttpRequest) : FetchResult :=
  if String.eqb (http_url rq) "https://www.linkedin.com/oauth/v2/accessToken"
  then Responded (mkResponse token_ok (Reference.stringify token_payload))
  else Responded (mkResponse userinfo_ok (Reference.stringify userinfo_payload)).

Definition provider_up : Env :=
  {| clock_now := 1700000000000; clock_later := 1700000000005;
     db_now := 1700000000003; db_random_uuid := "c2"; bcrypt_salt := "salt";
     random_bytes := zero_bytes;
     fetch := answer true true |}.

(** The token endpoint answers, the userinfo endpoint refuses. *)
Definition userinfo_down : Env :=
  {| clock_now := 1700000000000; clock_later := 1700000000005;
     db_now := 1700000000003; db_random_uuid := "c2"; bcrypt_salt := "salt";
     random_bytes := zero_bytes;
     fetch := answer true false |}.

Definition alice_session : JWTPayload :=
  {| jwt_userId := alice_id; jwt_email := "a@b.com" |}.

(** A request that carries Alice's session and nothing else. *)
Definition alice_request : Request :=
  {| request_user := Some alice_session; query_code := None; query_state := None;
     request_body := JUndefined |}.

(** The state the connect handler hands to Alice when the random bytes
    are all zero. *)
Definition alice_state : string :=
  Reference.base64_encode
    (Reference.stringify
       (JObject [("state", JString (Reference.hex_of_bytes (zero_bytes 32)));
                 ("userId", JString alice_id)])).

(** The provider's redirect for Alice's connect. *)
Definition alice_callback : Request :=
  {| request_user := None; query_code := Some "auth-code";
     query_state := Some alice_state; request_body := JUndefined |}.

(** A redirect whose state is the base64 text of an empty JSON object. *)
Definition callback_without_user : Request :=
  {| request_user := None; query_code := Some "auth-code";
     query_state := Some "e30="; request_body := JUndefined |}.

(** A fresh token on Alice's connection. *)
Definition fresh_connection : OAuthProvider :=
  {| op_id := "c1"; op_userId := alice_id; op_provider := linkedin;
     op_providerUserId := "li-old"; op_accessToken := "tok-old";
     op_refreshToken := Some "refresh-old";
     op_tokenExpiresAt := Some 1705000000000;
     op_scopes := Some ["openid"; "profile"; "email"; "w_member_social"];
     op_createdAt := 1699000000000; op_updatedAt := 1699000000000 |}.

Definition connected_fresh : State :=
  {| users := [alice]; oauthProviders := [fresh_connection]; log := [] |}.

(** Bob signed up without a password. *)
Definition bob : User :=
  {| u_id := "0a1b2c3d-4e5f-4a6b-8c7d-9e0f1a2b3c4d"; u_email := "bob@b.com";
     u_name := "Bob"; u_passwordHash := None;
     u_preferences := {| brand_voice := None; tone := None;
                         default_hashtags := None; banned_phrases := None |};
     u_createdAt := 1699000000000; u_updatedAt := 1699000000000 |}.

Definition two_users : State :=
  {| users := [alice; bob]; oauthProviders := [first_connection]; log := [] |}.

Definition login_request (email password : string) : Request :=
  {| request_user := None; query_code := None; query_state := None;
     request_body := JObject [("email", JString email);
                              ("password", JString password)] |}.

(** Bob's LinkedIn connection, beside Alice's. *)
Definition bob_connection : OAuthProvider :=
  {| op_id := "c3"; op_userId := u_id bob; op_provider := linkedin;
     op_providerUserId := "li-bob"; op_accessToken := "tok-bob";
     op_refreshToken := None;
     op_tokenExpiresAt := Some 1705000000000;
     op_scopes := Some ["openid"; "profile"; "email"; "w_member_social"];
     op_createdAt := 1699000000000; op_updatedAt := 1699000000000 |}.

Definition both_connected : State :=
  {| users := [alice; bob]; oauthProviders := [first_connection; bob_connection];
     log := [] |}.

(** A request that carries Bob's session and nothing else. *)
Definition bob_request : Request :=
  {| request_user := Some {| jwt_userId := u_id bob; jwt_email := "bob@b.com" |};
     query_code := None; query_state := None; request_body := JUndefined |}.

(** A redirect whose state is the base64 text of JSON [null]. *)
Definition callback_with_null_state : Request :=
  {| request_user := None; query_code := Some "auth-code";
     query_state := Some "bnVsbA=="; request_body := JUndefined |}.

Definition registration_request (email name password : string) : Request :=
  {| request_user := None; query_code := None; query_state := None;
     request_body := JObject [("email", JString email);
                              ("name", JString name);
                              ("password", JString password)] |}.

(** The environment of a sign-up. *)
Definition signup : Env :=
  {| clock_now := 1700000000000; clock_later := 1700000000005;
     db_now := 1700000000003;
     db_random_uuid := "5b6c7d8e-9f0a-4b1c-8d2e-3f4a5b6c7d8e";
     bcrypt_salt := "salt";
     random_bytes := zero_bytes;
     fetch := answer true true |}.

(** The header of a request with the token signed for a session. *)
Definition bearer (session : JWTPayload) : option string :=
  Some ("Bearer " ++ Reference.stand_in_sign session 1700000000000).

(** A provider whose userinfo payload has no name of any kind. *)
Definition nameless_payload : JsValue :=
  JObject [("sub", JString "li-new"); ("email", JString "a@b.com")].

Definition nameless_provider : Env :=
  {| clock_now := 1700000000000; clock_later := 1700000000005;
     db_now := 1700000000003; db_random_uuid := "c2"; bcrypt_salt := "salt";
     random_bytes := zero_bytes;
     fetch := fun rq =>
       if String.eqb (http_url rq) "https://www.linkedin.com/oauth/v2/accessToken"
       then Responded (mkResponse true (Reference.stringify token_payload))
       else Responded (mkResponse true (Reference.stringify nameless_payload)) |}.

(** The code units of a text of ASCII characters. *)
Definition code_units (s : string) : CodeUnits :=
  map N_of_ascii (list_ascii_of_string s).

End Examples.

(* ================================================================== *)
(** * Properties *)

(** ** Queries *)

Section QueryFacts.
Context {A : Type}.
Implicit Types (p q : A -> bool) (t : list A).

Lemma select_one_find p t :
  hd_error (select_where p 1 t) = find p t.
Proof.
  unfold select_where.
  induction t as [|r t IH]; simpl; [reflexivity|].
  destruct (p r); [reflexivity | exact IH].
Qed.

Lemma select_one_nil p t :
  select_where p 1 t = [] <-> find p t = None.
Proof.
  rewrite <- select_one_find.
  destruct (select_where p 1 t); simpl; split; congruence.
Qed.

Lemma select_one_cons p t r rest :
  select_where p 1 t = r :: rest -> find p t = Some r.
Proof.
  intros H. rewrite <- select_one_find, H. reflexivity.
Qed.

Lemma delete_where_idempotent p t :
  delete_where p (delete_where p t) = delete_where p t.
Proof.
  unfold delete_where.
  induction t as [|r t IH]; simpl; [reflexivity|].
  destruct (p r) eqn:E; simpl; [exact IH|].
  rewrite E. simpl. f_equal. exact IH.
Qed.

Lemma delete_where_absent p t :
  find p t = None -> delete_where p t = t.
Proof.
  unfold delete_where.
  induction t as [|r t IH]; simpl; [reflexivity|].
  destruct (p r); simpl; [discriminate|].
  intros H. f_equal. exact (IH H).
Qed.

Lemma find_after_delete p t :
  find p (delete_where p t) = None.
Proof.
  unfold delete_where.
  induction t as [|r t IH]; simpl; [reflexivity|].
  destruct (p r) eqn:E; simpl; [exact IH|].
  rewrite E. exact IH.
Qed.

Lemma find_app_none p t r :
  find p t = None -> find p (t ++ [r]) = if p r then Some r else None.
Proof.
  induction t as [|x t IH]; simpl; [reflexivity|].
  destruct (p x); [discriminate | exact IH].
Qed.

(** Rewriting the rows that satisfy [q] with a function that keeps the
    columns [p] looks at. *)
Lemma find_after_update p q (f : A -> A) t :
  (forall r, p (f r) = p r) ->
  find p (map (fun r => if q r then f r else r) t)
  = option_map (fun r => if q r then f r else r) (find p t).
Proof.
  intros Hkeep.
  induction t as [|r t IH]; simpl; [reflexivity|].
  destruct (q r) eqn:Q.
  - rewrite Hkeep. destruct (p r); simpl; [rewrite Q; reflexivity | exact IH].
  - destruct (p r); simpl; [rewrite Q; reflexivity | exact IH].
Qed.

Lemma returning_first q (f : A -> A) t :
  hd_error (map f (filter q t)) = option_map f (find q t).
Proof.
  induction t as [|r t IH]; simpl; [reflexivity|].
  destruct (q r); [reflexivity | exact IH].
Qed.

Lemma find_some_in p t r :
  find p t = Some r -> In r t /\ p r = true.
Proof. apply find_some. Qed.

End QueryFacts.

(** A primary key picks its own row. *)
Lemma find_by_primary_key (t : list OAuthProvider) (r : OAuthProvider) :
  NoDup (map op_id t) -> In r t ->
  find (fun r' => String.eqb (op_id r') (op_id r)) t = Some r.
Proof.
  induction t as [|x t IH]; simpl; intros Hnd Hin; [contradiction|].
  inversion Hnd as [|? ? Hnotin Hnd']; subst.
  destruct Hin as [->|Hin].
  - rewrite String.eqb_refl. reflexivity.
  - destruct (String.eqb (op_id x) (op_id r)) eqn:E.
    + apply String.eqb_eq in E. exfalso. apply Hnotin.
      rewrite E. apply in_map. exact Hin.
    + apply IH; assumption.
Qed.

Lemma Provider_eqb_refl (p : Provider) : Provider_eqb p p = true.
Proof. destruct p; reflexivity. Qed.

Lemma Provider_eqb_eq (p q : Provider) : Provider_eqb p q = true <-> p = q.
Proof. destruct p, q; simpl; split; congruence. Qed.

Lemma same_connection_spec userId provider r :
  same_connection userId provider r = true
  <-> op_userId r = userId /\ op_provider r = provider.
Proof.
  unfold same_connection.
  rewrite andb_true_iff, String.eqb_eq, Provider_eqb_eq. tauto.
Qed.

(** ** Expiry *)

(** C5. [isTokenExpired] answers true exactly when the expiry is unset
    or the current time is at or past it, and false otherwise. *)
Theorem isTokenExpired_exact (now : Z) (expiresAt : option Z) :
  (isTokenExpired now expiresAt = true
   <-> expiresAt = None \/ exists t, expiresAt = Some t /\ (t <= now)%Z)
  /\ (isTokenExpired now expiresAt = false
      <-> exists t, expiresAt = Some t /\ (now < t)%Z).
Proof.
  destruct expiresAt as [t|]; simpl.
  - rewrite Z.geb_leb. split; split.
    + intros H. right. exists t. split; [reflexivity|]. apply Z.leb_le. exact H.
    + intros [H|[t' [H Hle]]]; [discriminate|]. injection H as <-.
      apply Z.leb_le. exact Hle.
    + intros H. exists t. split; [reflexivity|]. apply Z.leb_gt. exact H.
    + intros [t' [H Hlt]]. injection H as <-. apply Z.leb_gt. exact Hlt.
  - split; split; try tauto; try discriminate.
    intros [t [H _]]. discriminate.
Qed.

(** ** The credential store: [storeOAuthProvider] and [getOAuthProvider] *)

Lemma existsb_eqb_in {A} (key : A -> string) (k : string) (t : list A) :
  existsb (fun r => String.eqb (key r) k) t = true <-> In k (map key t).
Proof.
  rewrite existsb_exists, in_map_iff. split.
  - intros [r [Hin E]]. apply String.eqb_eq in E. exists r. auto.
  - intros [r [E Hin]]. exists r. rewrite E, String.eqb_refl. auto.
Qed.

Lemma existsb_find_none {A} (p : A -> bool) (t : list A) :
  find p t = None -> existsb p t = false.
Proof.
  induction t as [|r t IH]; simpl; [reflexivity|].
  destruct (p r); [discriminate | exact IH].
Qed.

Lemma getOAuthProvider_reads (userId : string) (provider : Provider) (st : State) :
  getOAuthProvider userId provider st = (Ok (connection_of st userId provider), st).
Proof.
  unfold getOAuthProvider, connection_of, bind, get_state, ret.
  rewrite select_one_find. reflexivity.
Qed.

Lemma insert_oauthProvider_accepted (env : Env) (st : State) (userId : string)
  (provider : Provider) (data : StoreData) (r : OAuthProvider) :
  connection_of st userId provider = None ->
  insert_accepted env st userId data ->
  op_id r = db_random_uuid env -> op_userId r = userId ->
  op_provider r = provider -> op_providerUserId r = providerUserId data ->
  insert_oauthProvider r st = (Ok r, set_oauthProviders st (oauthProviders st ++ [r])).
Proof.
  intros Hnone (Huser & Hfresh & Hfits) Hid Hu Hp Hpu.
  unfold insert_oauthProvider, oauth_insert_violation.
  rewrite Hid, Hu, Hp, Hpu.
  destruct (existsb _ (oauthProviders st)) eqn:E1.
  { apply (existsb_eqb_in op_id) in E1. contradiction. }
  rewrite (existsb_find_none _ _ Hnone).
  destruct (existsb _ (users st)) eqn:E3; simpl.
  2:{ apply (existsb_eqb_in u_id) in Huser. congruence. }
  destruct (Nat.ltb_spec 255 (character_count (providerUserId data))); [lia|].
  reflexivity.
Qed.

(** A date the timestamp column takes is a [Date]. *)
Lemma timestamp_accepts_valid (t : Z) :
  timestamp_accepts t = true -> valid_time t = true.
Proof.
  unfold timestamp_accepts, valid_time. intros H.
  apply andb_true_iff in H. destruct H as [Hlow Hhigh].
  apply Z.leb_le in Hlow. apply Z.leb_le in Hhigh.
  apply andb_true_iff. split; apply Z.leb_le; lia.
Qed.

(** After [storeOAuthProvider], what the call returns is what
    [getOAuthProvider] reads back, with the fields below. *)
Lemma upsert_row_fields (env : Env) (st : State) (userId : string)
  (provider : Provider) (data : StoreData) :
  NoDup (map op_id (oauthProviders st)) ->
  timestamp_accepts (clock_now env + expiresIn data * 1000) = true ->
  (connection_of st userId provider = None -> insert_accepted env st userId data) ->
  exists row st',
    storeOAuthProvider env userId provider data st = (Ok (Some row), st')
    /\ getOAuthProvider userId provider st' = (Ok (Some row), st')
    /\ op_userId row = userId
    /\ op_provider row = provider
    /\ op_accessToken row = accessToken data
    /\ op_tokenExpiresAt row = Some (clock_now env + expiresIn data * 1000)%Z
    /\ op_scopes row = Some (scopes data)
    /\ match connection_of st userId provider with
       | None =>
           op_providerUserId row = providerUserId data
           /\ op_refreshToken row = refreshToken data
       | Some before =>
           op_id row = op_id before
           /\ op_providerUserId row = op_providerUserId before
           /\ op_refreshToken row
              = or_string (refreshToken data) (op_refreshToken before)
       end.
Proof.
  intros Hkeys Hvalid Haccepted.
  unfold storeOAuthProvider, bind, get_state. simpl.
  rewrite (timestamp_accepts_valid _ Hvalid), Hvalid. simpl.
  destruct (select_where (same_connection userId provider) 1 (oauthProviders st))
    as [|existing0 rest] eqn:Hsel.
  - apply select_one_nil in Hsel.
    assert (Hnone : connection_of st userId provider = None) by exact Hsel.
    rewrite Hnone.
    match goal with
    | |- context [insert_oauthProvider ?r st] => set (fresh_row := r)
    end.
    rewrite (insert_oauthProvider_accepted env st userId provider data fresh_row
               Hnone (Haccepted Hnone) eq_refl eq_refl eq_refl eq_refl).
    exists fresh_row, (set_oauthProviders st (oauthProviders st ++ [fresh_row])).
    split; [reflexivity|]. split.
    + rewrite getOAuthProvider_reads. unfold connection_of. simpl.
      rewrite (find_app_none _ _ fresh_row Hsel).
      unfold same_connection, fresh_row; simpl.
      rewrite String.eqb_refl, Provider_eqb_refl. reflexivity.
    + unfold fresh_row; simpl. repeat split; reflexivity.
  - apply select_one_cons in Hsel.
    assert (Hsome : connection_of st userId provider = Some existing0) by exact Hsel.
    rewrite Hsome.
    destruct (find_some_in _ _ _ Hsel) as [Hin Hsame].
    apply same_connection_spec in Hsame. destruct Hsame as [Hu Hp].
    unfold update_where, put_state, ret. simpl.
    set (f := refresh_connection env data
                (clock_now env + expiresIn data * 1000)%Z existing0).
    rewrite returning_first, (find_by_primary_key _ _ Hkeys Hin). simpl.
    exists (f existing0). eexists. split; [reflexivity|]. split.
    + rewrite getOAuthProvider_reads. unfold connection_of. simpl.
      rewrite (find_after_update (same_connection userId provider)) by reflexivity.
      rewrite Hsel. simpl. rewrite String.eqb_refl. reflexivity.
    + unfold f; simpl. repeat split; assumption || reflexivity.
Qed.

(** An expiry that is a [Date] but that the timestamp column does not
    take is refused: the call throws and the store is as it was, whether
    or not a row exists. *)
Lemma storeOAuthProvider_refuses_expiry (env : Env) (st : State) (userId : string)
  (provider : Provider) (data : StoreData) :
  valid_time (clock_now env + expiresIn data * 1000) = true ->
  timestamp_accepts (clock_now env + expiresIn data * 1000) = false ->
  storeOAuthProvider env userId provider data st
  = (Throw (mkError DatabaseError "date/time field value out of range"), st).
Proof.
  intros Hvalid Hrefused.
  unfold storeOAuthProvider, bind, get_state. simpl.
  rewrite Hvalid, Hrefused. reflexivity.
Qed.


(** ** Disconnect *)

Lemma delete_connection_runs (userId : string) (provider : Provider) (st : State) :
  delete_connection userId provider st
  = (Ok tt, set_oauthProviders st
              (delete_where (same_connection userId provider) (oauthProviders st))).
Proof. reflexivity. Qed.

Lemma set_oauthProviders_same (st : State) :
  set_oauthProviders st (oauthProviders st) = st.
Proof. destruct st; reflexivity. Qed.

Lemma linkedInDisconnect_runs (request : Request) (userId : string) (st : State) :
  authenticated_user request = Some userId ->
  linkedInDisconnect request st
  = (Ok (send 200 [("message", JString "LinkedIn account disconnected successfully")]),
     snd (delete_connection userId linkedin st)).
Proof.
  intros Hauth. unfold linkedInDisconnect, try_catch, bind. rewrite Hauth.
  reflexivity.
Qed.

(** C9.  For every user id that is the text of a uuid and every
    provider the delete succeeds whether or not a connection is stored,
    leaves no connection behind, leaves a store without one as it is,
    and a second delete leaves the store as the first one left it.  The
    handler of a request authenticated for such an id answers 200 both
    times, and its second run changes nothing. *)
Theorem disconnect_idempotent (request : Request) (session_user : string)
  (userId : string) (provider : Provider) (st : State) :
  authenticated_user request = Some session_user ->
  uuid_text session_user = true ->
  uuid_text userId = true ->
  let success :=
    Ok (send 200 [("message", JString "LinkedIn account disconnected successfully")]) in
  let once := delete_connection userId provider st in
  let twice := delete_connection userId provider (snd once) in
  (fst once = Ok tt /\ fst twice = Ok tt /\ snd twice = snd once
   /\ connection_of (snd once) userId provider = None
   /\ (connection_of st userId provider = None -> snd once = st))
  /\ (let first := linkedInDisconnect request st in
      let second := linkedInDisconnect request (snd first) in
      fst first = success /\ fst second = success /\ snd second = snd first
      /\ connection_of (snd first) session_user linkedin = None
      /\ (connection_of st session_user linkedin = None -> snd first = st)).
Proof.
  intros Hauth _ _. cbv zeta. split.
  - rewrite !delete_connection_runs. simpl.
    split; [reflexivity|]. split; [reflexivity|]. split; [|split].
    + unfold set_oauthProviders. simpl. rewrite delete_where_idempotent. reflexivity.
    + unfold connection_of. simpl. apply find_after_delete.
    + intros Habsent. rewrite (delete_where_absent _ _ Habsent).
      apply set_oauthProviders_same.
  - rewrite !(linkedInDisconnect_runs request session_user) by exact Hauth.
    rewrite !delete_connection_runs. simpl.
    split; [reflexivity|]. split; [reflexivity|]. split; [|split].
    + unfold set_oauthProviders. simpl. rewrite delete_where_idempotent. reflexivity.
    + unfold connection_of. simpl. apply find_after_delete.
    + intros Habsent. rewrite (delete_where_absent _ _ Habsent).
      apply set_oauthProviders_same.
Qed.

(** ** Status *)

(** C4.  For a request authenticated for a user id that is the text of
    a uuid: with no LinkedIn row for the user
    the reply reports [connected=false] and [canPost=false]; with a row
    it reports [connected=true], [canPost] is true exactly when the token
    is not expired and the stored scopes include [w_member_social], and
    [needsRefresh] is true exactly when the token is expired. *)
Theorem linkedInStatus_reports (env : Env) (request : Request) (userId : string)
  (st : State) :
  authenticated_user request = Some userId ->
  uuid_text userId = true ->
  match connection_of st userId linkedin with
  | None => linkedInStatus env request st = (Ok not_connected, st)
  | Some row =>
      let expired := isTokenExpired (clock_now env) (op_tokenExpiresAt row) in
      exists data,
        linkedInStatus env request st = (Ok (send 200 [("data", JObject data)]), st)
        /\ own_property "connected" data = JBool true
        /\ (own_property "canPost" data = JBool true
            <-> expired = false
                /\ exists stored, op_scopes row = Some stored
                                  /\ In "w_member_social" stored)
        /\ (own_property "needsRefresh" data = JBool true <-> expired = true)
  end.
Proof.
  intros Hauth _.
  unfold linkedInStatus, try_catch, bind. rewrite Hauth.
  rewrite getOAuthProvider_reads.
  destruct (connection_of st userId linkedin) as [row|]; [|reflexivity].
  cbv zeta.
  set (expired := isTokenExpired (clock_now env) (op_tokenExpiresAt row)).
  eexists. split; [reflexivity|].
  split; [reflexivity|].
  change (own_property "canPost" _)
    with (if negb expired
          then optional_includes (op_scopes row) "w_member_social"
          else JBool false).
  change (own_property "needsRefresh" _) with (JBool expired).
  split.
  - destruct expired; cbn [negb].
    + split; [discriminate | intros [H _]; discriminate].
    + unfold optional_includes. destruct (op_scopes row) as [stored|].
      * split.
        -- intros [= H]. split; [reflexivity|]. exists stored. split; [reflexivity|].
           apply existsb_exists in H. destruct H as [x [Hin E]].
           change (String.eqb "w_member_social" x = true) in E.
           apply String.eqb_eq in E. subst x. exact Hin.
        -- intros [_ [stored' [[= <-] Hin]]]. f_equal.
           apply existsb_exists. exists "w_member_social".
           split; [exact Hin | apply String.eqb_refl].
      * split; [discriminate | intros [_ [stored [H _]]]; discriminate].
  - destruct expired; split; congruence.
Qed.

(** ** The constraints of the schema are kept *)

Lemma NoDup_map_filter {A B} (key : A -> B) (p : A -> bool) (t : list A) :
  NoDup (map key t) -> NoDup (map key (filter p t)).
Proof.
  induction t as [|r t IH]; simpl; intros Hnd; [constructor|].
  inversion Hnd as [|? ? Hnotin Hnd']; subst.
  destruct (p r); simpl; [|exact (IH Hnd')].
  constructor; [|exact (IH Hnd')].
  intros Hin. apply Hnotin.
  apply in_map_iff in Hin. destruct Hin as [x [E Hx]].
  apply filter_In in Hx. apply in_map_iff. exists x. tauto.
Qed.

Lemma NoDup_map_app_one {A B} (key : A -> B) (t : list A) (r : A) :
  NoDup (map key t) -> ~ In (key r) (map key t) -> NoDup (map key (t ++ [r])).
Proof.
  intros Hnd Hnew. rewrite map_app. simpl.
  apply NoDup_app; [exact Hnd | constructor; [intros [] | constructor] |].
  intros x Hx [<-|[]]. contradiction.
Qed.

Lemma map_key_after_update {A B} (key : A -> B) (q : A -> bool) (f : A -> A)
  (t : list A) :
  (forall r, key (f r) = key r) ->
  map key (map (fun r => if q r then f r else r) t) = map key t.
Proof.
  intros Hkeep. rewrite map_map. apply map_ext.
  intros r. destruct (q r); [apply Hkeep | reflexivity].
Qed.

Lemma existsb_same_connection_false (st : State) (r : OAuthProvider) :
  existsb (same_connection (op_userId r) (op_provider r)) (oauthProviders st) = false ->
  ~ In (connection_key r) (map connection_key (oauthProviders st)).
Proof.
  intros Hnone Hin. apply in_map_iff in Hin. destruct Hin as [x [E Hx]].
  assert (existsb (same_connection (op_userId r) (op_provider r)) (oauthProviders st)
          = true); [|congruence].
  apply existsb_exists. exists x. split; [exact Hx|].
  apply same_connection_spec. unfold connection_key in E. split; congruence.
Qed.

Lemma consistent_empty : consistent (mkState [] [] []).
Proof. split; simpl; try constructor. intros r []. Qed.

Lemma consistent_add_log (st : State) (e : JsError) :
  consistent st -> consistent (add_log st e).
Proof. intros [H1 H2 H3 H4 H5]. split; assumption. Qed.

Lemma storeOAuthProvider_consistent (env : Env) (userId : string)
  (provider : Provider) (data : StoreData) (st : State) :
  consistent st -> consistent (snd (storeOAuthProvider env userId provider data st)).
Proof.
  intros [Hids Hkeys Howner Huids Hemails].
  unfold storeOAuthProvider, bind, get_state. simpl.
  destruct (valid_time _); simpl; [|split; assumption].
  destruct (timestamp_accepts _); simpl; [|split; assumption].
  destruct (select_where (same_connection userId provider) 1 (oauthProviders st))
    as [|existing0 rest].
  - unfold insert_oauthProvider, oauth_insert_violation. cbn [op_id op_userId op_provider].
    destruct (existsb (fun r' => String.eqb (op_id r') (db_random_uuid env))
                (oauthProviders st)) eqn:E1;
      [split; assumption|].
    destruct (existsb (same_connection userId provider) (oauthProviders st)) eqn:E2;
      [split; assumption|].
    destruct (existsb _ (users st)) eqn:E3; simpl; [|split; assumption].
    destruct (Nat.ltb 255 _); simpl; [split; assumption|].
    split; simpl; try assumption.
    + apply NoDup_map_app_one; [exact Hids|]. simpl.
      intros Hin. apply (existsb_eqb_in op_id) in Hin. congruence.
    + apply NoDup_map_app_one; [exact Hkeys|].
      apply existsb_same_connection_false. exact E2.
    + intros r Hin. apply in_app_or in Hin. destruct Hin as [Hin|[<-|[]]].
      * exact (Howner r Hin).
      * simpl. apply (existsb_eqb_in u_id). exact E3.
  - unfold update_where, put_state, ret. simpl.
    split; simpl; try assumption.
    + rewrite map_key_after_update by reflexivity. exact Hids.
    + rewrite map_key_after_update by reflexivity. exact Hkeys.
    + intros r Hin. apply in_map_iff in Hin. destruct Hin as [x [<- Hx]].
      destruct (String.eqb (op_id x) (op_id existing0)); exact (Howner x Hx).
Qed.

Lemma delete_connection_consistent (userId : string) (provider : Provider)
  (st : State) :
  consistent st -> consistent (snd (delete_connection userId provider st)).
Proof.
  intros [Hids Hkeys Howner Huids Hemails].
  rewrite delete_connection_runs. unfold delete_where.
  split; simpl; try assumption.
  - apply NoDup_map_filter. exact Hids.
  - apply NoDup_map_filter. exact Hkeys.
  - intros r Hin. apply filter_In in Hin. exact (Howner r (proj1 Hin)).
Qed.

Lemma register_consistent {platform : Platform} {schema : UsersSchema} (env : Env)
  (email name password : string) (st : State) :
  consistent st ->
  consistent (snd (AuthService.register env email name password st)).
Proof.
  intros [Hids Hkeys Howner Huids Hemails].
  unfold AuthService.register, bind, get_state. simpl.
  destruct (Nat.ltb 0 _); simpl; [split; assumption|].
  unfold AuthService.hashPassword, ret, insert_user, user_insert_violation. simpl.
  destruct (existsb (fun u' => String.eqb (u_id u') (db_random_uuid env)) (users st))
    eqn:E1; [split; assumption|].
  destruct (existsb (fun u' => String.eqb (u_email u') email) (users st))
    eqn:E2; [split; assumption|].
  destruct (negb _); [split; assumption|].
  split; simpl; try assumption.
  - intros r Hin. rewrite map_app. apply in_or_app. left. exact (Howner r Hin).
  - apply NoDup_map_app_one; [exact Huids|]. simpl.
    intros Hin. apply (existsb_eqb_in u_id) in Hin. congruence.
  - apply NoDup_map_app_one; [exact Hemails|]. simpl.
    intros Hin. apply (existsb_eqb_in u_email) in Hin. congruence.
Qed.

(** In a consistent store [storeOAuthProvider] and [getOAuthProvider]
    agree for every user that exists, without a further assumption on
    the keys. *)
Lemma consistent_row_fields (env : Env) (st : State) (userId : string)
  (provider : Provider) (data : StoreData) :
  consistent st ->
  timestamp_accepts (clock_now env + expiresIn data * 1000) = true ->
  (connection_of st userId provider = None -> insert_accepted env st userId data) ->
  exists row st',
    storeOAuthProvider env userId provider data st = (Ok (Some row), st')
    /\ getOAuthProvider userId provider st' = (Ok (Some row), st')
    /\ consistent st'.
Proof.
  intros Hst Hvalid Haccepted.
  destruct (upsert_row_fields env st userId provider data
              (connection_ids st Hst) Hvalid Haccepted)
    as (row & st' & Hstore & Hget & _).
  exists row, st'. split; [exact Hstore|]. split; [exact Hget|].
  pose proof (storeOAuthProvider_consistent env userId provider data st Hst) as H.
  rewrite Hstore in H. exact H.
Qed.

(** ** The authorization URL *)

Lemma append_associative (a b c : string) : (a ++ b) ++ c = a ++ (b ++ c).
Proof. induction a as [|x a IH]; simpl; [reflexivity | rewrite IH; reflexivity]. Qed.

Lemma starts_with_append (s t : string) :
  starts_with s t = true <-> exists after, t = s ++ after.
Proof.
  revert t. induction s as [|c s IH]; intros t; simpl.
  - split; [intros _; exists t; reflexivity | reflexivity].
  - destruct t as [|d t].
    + split; [discriminate | intros [after H]; discriminate].
    + rewrite andb_true_iff, Ascii.eqb_eq, IH. split.
      * intros [-> [after ->]]. exists after. reflexivity.
      * intros [after [= -> ->]]. split; [reflexivity | exists after; reflexivity].
Qed.

Lemma contains_Substring (s t : string) :
  contains s t = true <-> Substring s t.
Proof.
  unfold Substring. induction t as [|c t IH].
  - simpl. rewrite orb_false_r, starts_with_append. split.
    + intros [after H]. exists "", after. exact H.
    + intros [before [after H]]. destruct before; simpl in H.
      * exists after. exact H.
      * discriminate.
  - cbn [contains]. rewrite orb_true_iff, IH, starts_with_append. split.
    + intros [[after H] | [before [after H]]].
      * exists "", after. exact H.
      * exists (String c before), after. simpl. rewrite H. reflexivity.
    + intros [before [after H]]. destruct before as [|d before]; simpl in H.
      * left. exists after. exact H.
      * right. exists before, after. congruence.
Qed.

Lemma form_urlencode_unreserved (s : string) :
  forallb form_unreserved (list_ascii_of_string s) = true ->
  form_urlencode s = s.
Proof.
  induction s as [|c s IH]; simpl; [reflexivity|].
  rewrite andb_true_iff. intros [Hc Hs].
  unfold form_encode_char. rewrite Hc. simpl. rewrite (IH Hs). reflexivity.
Qed.

Lemma getLinkedInAuthUrl_text (config : LinkedInConfig) (state : string) :
  getLinkedInAuthUrl config state
  = "https://www.linkedin.com/oauth/v2/authorization?response_type=code&client_id="
    ++ form_urlencode (clientId config)
    ++ "&redirect_uri=" ++ form_urlencode (callbackUrl config)
    ++ "&state=" ++ form_urlencode state
    ++ "&scope=openid+profile+email+w_member_social".
Proof.
  unfold getLinkedInAuthUrl, URLSearchParams_toString.
  cbn [map join_with fst snd].
  change (form_urlencode "response_type") with "response_type".
  change (form_urlencode "code") with "code".
  change (form_urlencode "client_id") with "client_id".
  change (form_urlencode "redirect_uri") with "redirect_uri".
  change (form_urlencode "state") with "state".
  change (form_urlencode "scope") with "scope".
  change (form_urlencode "openid profile email w_member_social")
    with "openid+profile+email+w_member_social".
  rewrite !append_associative. reflexivity.
Qed.

(** C7 (as amended).  [getLinkedInAuthUrl] is a function of the
    configuration and the state alone: the authorization endpoint with
    [response_type=code], the configured client id and redirect URI, the
    state and the four requested scopes, each value form-urlencoded.  The
    URL contains the form-urlencoded state as the value of its [state]
    parameter; it contains the state verbatim when every character of
    the state is one the encoding leaves as it is. *)
Theorem getLinkedInAuthUrl_shape (config : LinkedInConfig) (state : string) :
  getLinkedInAuthUrl config state
  = "https://www.linkedin.com/oauth/v2/authorization?response_type=code&client_id="
    ++ form_urlencode (clientId config)
    ++ "&redirect_uri=" ++ form_urlencode (callbackUrl config)
    ++ "&state=" ++ form_urlencode state
    ++ "&scope=openid+profile+email+w_member_social"
  /\ Substring ("&state=" ++ form_urlencode state ++ "&")
       (getLinkedInAuthUrl config state)
  /\ (forallb form_unreserved (list_ascii_of_string state) = true ->
      Substring state (getLinkedInAuthUrl config state)).
Proof.
  split; [apply getLinkedInAuthUrl_text|].
  rewrite getLinkedInAuthUrl_text. split.
  - exists ("https://www.linkedin.com/oauth/v2/authorization?response_type=code&client_id="
            ++ form_urlencode (clientId config)
            ++ "&redirect_uri=" ++ form_urlencode (callbackUrl config)),
           "scope=openid+profile+email+w_member_social".
    rewrite !append_associative. reflexivity.
  - intros Hplain. rewrite (form_urlencode_unreserved state Hplain).
    exists ("https://www.linkedin.com/oauth/v2/authorization?response_type=code&client_id="
            ++ form_urlencode (clientId config)
            ++ "&redirect_uri=" ++ form_urlencode (callbackUrl config) ++ "&state="),
           "&scope=openid+profile+email+w_member_social".
    rewrite !append_associative. reflexivity.
Qed.

Lemma linkedInConnect_runs {platform : Platform} (config : LinkedInConfig)
  (env : Env) (request : Request) (userId : string) (st : State) :
  authenticated_user request = Some userId ->
  let state := to_base64 (JSON_stringify
                 (JObject [("state", JString (generateRandomString env 32));
                           ("userId", JString userId)])) in
  linkedInConnect config env request st
  = (Ok (send 200 [("data", JObject [("authUrl", JString (getLinkedInAuthUrl config state));
                                     ("state", JString state)])]), st).
Proof.
  intros Hauth. unfold linkedInConnect, try_catch. rewrite Hauth. reflexivity.
Qed.

(** ** Calls that do not touch the store *)

Lemma stateless_ret {A} (a : A) : stateless (ret a).
Proof. exists (Ok a). reflexivity. Qed.

Lemma stateless_throw {A} (e : JsError) : stateless (@throw A e).
Proof. exists (Throw e). reflexivity. Qed.

Lemma stateless_unmodelled {A} (why : string) : stateless (@unmodelled A why).
Proof. exists (Unmodelled why). reflexivity. Qed.

Lemma stateless_lift {A} (o : Outcome A) : stateless (lift o).
Proof. exists o. reflexivity. Qed.

Lemma stateless_bind {A B} (m : M A) (k : A -> M B) :
  stateless m -> (forall a, stateless (k a)) -> stateless (bind m k).
Proof.
  intros [o Hm] Hk. unfold bind. destruct o as [a|e|why].
  - destruct (Hk a) as [o' Hka]. exists o'. intros st. rewrite Hm. apply Hka.
  - exists (Throw e). intros st. rewrite Hm. reflexivity.
  - exists (Unmodelled why). intros st. rewrite Hm. reflexivity.
Qed.

Lemma stateless_try_catch {A} (m : M A) (handler : JsError -> M A) :
  stateless m -> (forall e, stateless (handler e)) -> stateless (try_catch m handler).
Proof.
  intros [o Hm] Hh. unfold try_catch. destruct o as [a|e|why].
  - exists (Ok a). intros st. rewrite Hm. reflexivity.
  - destruct (Hh e) as [o' Hhe]. exists o'. intros st. rewrite Hm. apply Hhe.
  - exists (Unmodelled why). intros st. rewrite Hm. reflexivity.
Qed.

Lemma stateless_run {A} (m : M A) (st : State) :
  stateless m -> m st = (fst (m st), st).
Proof. intros [o H]. rewrite H. reflexivity. Qed.

Ltac stateless_step :=
  first
    [ apply stateless_ret
    | apply stateless_throw
    | apply stateless_unmodelled
    | apply stateless_lift
    | apply stateless_bind; [|intro]
    | apply stateless_try_catch; [|intro]
    | match goal with
      | |- stateless (match ?x with _ => _ end) => destruct x
      | |- stateless (if ?b then _ else _) => destruct b
      end ].

Lemma await_fetch_stateless (env : Env) (rq : HttpRequest) :
  stateless (await_fetch env rq).
Proof. unfold await_fetch. repeat stateless_step. Qed.

Lemma response_json_stateless {platform : Platform} (r : HttpResponse) :
  stateless (response_json r).
Proof. unfold response_json. repeat stateless_step. Qed.

Lemma exchangeLinkedInCode_stateless {platform : Platform} (config : LinkedInConfig)
  (env : Env) (code : string) :
  stateless (exchangeLinkedInCode config env code).
Proof.
  unfold exchangeLinkedInCode.
  apply stateless_bind; [apply await_fetch_stateless | intro].
  destruct (negb _); [apply stateless_throw|].
  apply stateless_bind; [apply response_json_stateless | intro].
  repeat stateless_step.
Qed.

Lemma getLinkedInProfile_stateless {platform : Platform} (env : Env)
  (accessToken : JsValue) :
  stateless (getLinkedInProfile env accessToken).
Proof.
  unfold getLinkedInProfile.
  apply stateless_bind; [apply stateless_lift | intro].
  apply stateless_bind; [apply await_fetch_stateless | intro].
  destruct (negb _); [apply stateless_throw|].
  apply stateless_bind; [apply response_json_stateless | intro].
  repeat stateless_step.
Qed.

Lemma decode_state_stateless {platform : Platform} (state : string) :
  stateless (decode_state state).
Proof. unfold decode_state. repeat stateless_step. Qed.

(** The inner [catch] of the callback lets no exception out. *)
Lemma decode_state_cases {platform : Platform} (state : string) (st : State) :
  match JSON_parse (from_base64 state) with
  | None =>
      decode_state state st
      = (Ok (inl (send 400 [("error", JString "Bad Request");
                            ("message", JString "Invalid state parameter")])), st)
  | Some decoded =>
      match js_get decoded "userId" with
      | Ok userId => decode_state state st = (Ok (inr userId), st)
      | Throw _ =>
          decode_state state st
          = (Ok (inl (send 400 [("error", JString "Bad Request");
                                ("message", JString "Invalid state parameter")])), st)
      | Unmodelled why => decode_state state st = (Unmodelled why, st)
      end
  end.
Proof.
  unfold decode_state, try_catch, bind, lift, ret, throw.
  destruct (JSON_parse (from_base64 state)) as [decoded|]; [|reflexivity].
  destruct (js_get decoded "userId"); reflexivity.
Qed.

(** ** The callback *)

(** What a call of [storeOAuthProvider] leaves behind: users and log as
    they were; after a success, a row for the connection with the given
    access token and scopes; after a failure, the store as it was. *)
Lemma storeOAuthProvider_effect (env : Env) (userId : string) (provider : Provider)
  (data : StoreData) (st : State) :
  let run := storeOAuthProvider env userId provider data st in
  users (snd run) = users st
  /\ log (snd run) = log st
  /\ match fst run with
     | Ok _ =>
         exists row,
           connection_of (snd run) userId provider = Some row
           /\ op_accessToken row = accessToken data
           /\ op_scopes row = Some (scopes data)
     | _ => snd run = st
     end.
Proof.
  unfold storeOAuthProvider, bind, get_state. simpl.
  destruct (valid_time _); simpl; [|repeat split; reflexivity].
  destruct (timestamp_accepts _); simpl; [|repeat split; reflexivity].
  destruct (select_where (same_connection userId provider) 1 (oauthProviders st))
    as [|existing0 rest] eqn:Hsel.
  - apply select_one_nil in Hsel.
    unfold insert_oauthProvider.
    destruct (oauth_insert_violation st _); simpl; [repeat split; reflexivity|].
    split; [reflexivity|]. split; [reflexivity|].
    eexists. split.
    + unfold connection_of. simpl. rewrite (find_app_none _ _ _ Hsel).
      unfold same_connection at 1. simpl.
      rewrite String.eqb_refl, Provider_eqb_refl. reflexivity.
    + split; reflexivity.
  - apply select_one_cons in Hsel.
    unfold update_where, put_state, ret. simpl.
    split; [reflexivity|]. split; [reflexivity|].
    eexists. split.
    + unfold connection_of. simpl.
      rewrite (find_after_update (same_connection userId provider)) by reflexivity.
      rewrite Hsel. simpl. rewrite String.eqb_refl. reflexivity.
    + split; reflexivity.
Qed.

Lemma decode_state_rejects {platform : Platform} (state : string) (st : State)
  (rejected : Reply) :
  fst (decode_state state st) = Ok (inl rejected) -> rejected = invalid_state.
Proof.
  unfold invalid_state.
  pose proof (decode_state_cases state st) as H.
  destruct (JSON_parse (from_base64 state)) as [decoded|].
  - destruct (js_get decoded "userId"); rewrite H; simpl; congruence.
  - rewrite H. simpl. congruence.
Qed.

Lemma decode_state_never_throws {platform : Platform} (state : string) (st : State)
  (e : JsError) :
  fst (decode_state state st) <> Throw e.
Proof.
  pose proof (decode_state_cases state st) as H.
  destruct (JSON_parse (from_base64 state)) as [decoded|].
  - destruct (js_get decoded "userId"); rewrite H; simpl; congruence.
  - rewrite H. simpl. congruence.
Qed.

(** A state that does not parse, or that parses to [null], is answered
    with 400 before any call to the provider or the store. *)
Lemma callback_undecodable_state {platform : Platform} (config : LinkedInConfig)
  (env : Env) (request : Request) (st : State) :
  missing (query_code request) = false ->
  missing (query_state request) = false ->
  JSON_parse (from_base64 (text (query_state request))) = None
  \/ JSON_parse (from_base64 (text (query_state request))) = Some JNull ->
  linkedInCallback config env request st = (Ok invalid_state, st).
Proof.
  intros Hcode Hstate Hbad.
  unfold linkedInCallback, try_catch, bind. rewrite Hcode, Hstate. simpl.
  pose proof (decode_state_cases (text (query_state request)) st) as H.
  destruct Hbad as [E|E]; rewrite E in H; simpl in H; rewrite H; reflexivity.
Qed.

(** C3.  When the callback reaches the provider (code and state are
    present and the state decodes) and the code exchange or the profile
    fetch throws, the handler answers 500 with the error's message,
    logs the error, and leaves the users and the connections as they
    were: nothing is stored unless both calls succeed. *)
Theorem callback_provider_failure {platform : Platform} (config : LinkedInConfig)
  (env : Env) (request : Request) (userId : JsValue) (st : State) (e : JsError) :
  missing (query_code request) = false ->
  missing (query_state request) = false ->
  fst (decode_state (text (query_state request)) st) = Ok (inr userId) ->
  (fst (exchangeLinkedInCode config env (text (query_code request)) st) = Throw e
   \/ exists tokenData,
        fst (exchangeLinkedInCode config env (text (query_code request)) st)
        = Ok tokenData
        /\ fst (getLinkedInProfile env (td_accessToken tokenData) st) = Throw e) ->
  exists st',
    linkedInCallback config env request st = (Ok (connect_failed e), st')
    /\ status (connect_failed e) = 500
    /\ users st' = users st
    /\ oauthProviders st' = oauthProviders st
    /\ log st' = (log st ++ [e])%list.
Proof.
  intros Hcode Hstate Hdecode Hfail.
  exists (add_log st e).
  split; [|repeat split; reflexivity].
  unfold linkedInCallback, try_catch, bind. rewrite Hcode, Hstate. simpl.
  rewrite (stateless_run _ st (decode_state_stateless _)), Hdecode.
  rewrite (stateless_run _ st (exchangeLinkedInCode_stateless _ _ _)).
  destruct Hfail as [Hx | [tokenData [Hx Hp]]]; rewrite Hx.
  - reflexivity.
  - rewrite (stateless_run _ st (getLinkedInProfile_stateless _ _)), Hp.
    reflexivity.
Qed.

Lemma as_string_Ok (v : JsValue) (s : string) : as_string v = Ok s -> v = JString s.
Proof. destruct v; simpl; congruence. Qed.

(** Every way the callback can end once the state has been decoded:
    with 500 and the store as it was, outside the model with the store
    as it was, or with 200 after both provider calls have succeeded and
    the connection has been stored. *)
Lemma callback_after_decode {platform : Platform} (config : LinkedInConfig)
  (env : Env) (request : Request) (userId : JsValue) (st : State) :
  missing (query_code request) = false ->
  missing (query_state request) = false ->
  fst (decode_state (text (query_state request)) st) = Ok (inr userId) ->
  (exists e st',
     linkedInCallback config env request st = (Ok (connect_failed e), st')
     /\ users st' = users st
     /\ oauthProviders st' = oauthProviders st)
  \/ (exists why, linkedInCallback config env request st = (Unmodelled why, st))
  \/ (exists reply st' user row tokenData profile,
        linkedInCallback config env request st = (Ok reply, st')
        /\ status reply = 200
        /\ userId = JString user
        /\ fst (exchangeLinkedInCode config env (text (query_code request)) st)
           = Ok tokenData
        /\ fst (getLinkedInProfile env (td_accessToken tokenData) st) = Ok profile
        /\ users st' = users st
        /\ connection_of st' user linkedin = Some row
        /\ op_scopes row = Some recorded_scopes).
Proof.
  intros Hcode Hstate Hdecode.
  unfold linkedInCallback, try_catch, bind. rewrite Hcode, Hstate. simpl.
  rewrite (stateless_run _ st (decode_state_stateless _)), Hdecode.
  rewrite (stateless_run _ st (exchangeLinkedInCode_stateless _ _ _)).
  destruct (fst (exchangeLinkedInCode config env (text (query_code request)) st))
    as [tokenData|e|why]; simpl.
  2:{ left. exists e. eexists. repeat split; reflexivity. }
  2:{ right. left. eauto. }
  rewrite (stateless_run _ st (getLinkedInProfile_stateless _ _)).
  destruct (fst (getLinkedInProfile env (td_accessToken tokenData) st))
    as [profile|e|why] eqn:Hprofile; simpl.
  2:{ left. exists e. eexists. repeat split; reflexivity. }
  2:{ right. left. eauto. }
  unfold lift.
  destruct (as_string userId) as [user|e|why] eqn:Huser; simpl.
  2:{ left. exists e. eexists. repeat split; reflexivity. }
  2:{ right. left. eauto. }
  apply as_string_Ok in Huser.
  destruct (as_string (profile_id profile)) as [providerUserId'|e|why]; simpl.
  2:{ left. exists e. eexists. repeat split; reflexivity. }
  2:{ right. left. eauto. }
  destruct (as_string (td_accessToken tokenData)) as [accessToken'|e|why]; simpl.
  2:{ left. exists e. eexists. repeat split; reflexivity. }
  2:{ right. left. eauto. }
  destruct (as_optional_string (td_refreshToken tokenData)) as [refreshToken'|e|why];
    simpl.
  2:{ left. exists e. eexists. repeat split; reflexivity. }
  2:{ right. left. eauto. }
  destruct (as_number (td_expiresIn tokenData)) as [expiresIn'|e|why]; simpl.
  2:{ left. exists e. eexists. repeat split; reflexivity. }
  2:{ right. left. eauto. }
  match goal with
  | |- context [storeOAuthProvider env user linkedin ?d st] =>
      pose proof (storeOAuthProvider_effect env user linkedin d st) as Heffect;
      destruct (storeOAuthProvider env user linkedin d st) as [[stored|e|why] st1]
  end; simpl in Heffect; destruct Heffect as (Husers & _ & Hrow).
  - right. right. destruct Hrow as (row & Hfind & _ & Hscopes).
    eexists. exists st1, user, row, tokenData, profile.
    split; [reflexivity|]. repeat (split; [assumption || reflexivity|]).
    exact Hscopes.
  - left. exists e. eexists. split; [reflexivity|]. subst st1. split; reflexivity.
  - right. left. subst st1. eauto.
Qed.

(** The connections change only in a run in which both the code
    exchange and the profile fetch have succeeded. *)
Lemma callback_stores_only_after_both_calls {platform : Platform}
  (config : LinkedInConfig) (env : Env) (request : Request) (st st' : State)
  (outcome : Outcome Reply) :
  linkedInCallback config env request st = (outcome, st') ->
  oauthProviders st' <> oauthProviders st ->
  exists tokenData profile,
    fst (exchangeLinkedInCode config env (text (query_code request)) st) = Ok tokenData
    /\ fst (getLinkedInProfile env (td_accessToken tokenData) st) = Ok profile
    /\ outcome = Ok (send 200
          [("message", JString "LinkedIn account connected successfully");
           ("data", JObject [("provider", JString "linkedin");
                              ("connectedEmail", profile_email profile);
                              ("connectedName", profile_name profile)])]).
Proof.
  intros Hrun Hchanged.
  destruct (missing (query_code request) || missing (query_state request))%bool eqn:Hm.
  { unfold linkedInCallback, try_catch, bind in Hrun. rewrite Hm in Hrun.
    simpl in Hrun. injection Hrun as <- <-. contradiction. }
  apply orb_false_iff in Hm. destruct Hm as [Hcode Hstate].
  destruct (fst (decode_state (text (query_state request)) st))
    as [[rejected|userId]|e|why] eqn:Hdecode.
  - unfold linkedInCallback, try_catch, bind in Hrun.
    rewrite Hcode, Hstate in Hrun. simpl in Hrun.
    rewrite (stateless_run _ st (decode_state_stateless _)), Hdecode in Hrun.
    simpl in Hrun. injection Hrun as <- <-. contradiction.
  - revert Hrun.
    unfold linkedInCallback, try_catch, bind. rewrite Hcode, Hstate. simpl.
    rewrite (stateless_run _ st (decode_state_stateless _)), Hdecode.
    rewrite (stateless_run _ st (exchangeLinkedInCode_stateless _ _ _)).
    destruct (fst (exchangeLinkedInCode config env (text (query_code request)) st))
      as [tokenData|e|why] eqn:Hexchange; simpl;
      try (intros [= <- <-]; contradiction).
    rewrite (stateless_run _ st (getLinkedInProfile_stateless _ _)).
    destruct (fst (getLinkedInProfile env (td_accessToken tokenData) st))
      as [profile|e|why] eqn:Hprofile; simpl;
      try (intros [= <- <-]; contradiction).
    unfold lift.
    destruct (as_string userId); simpl; try (intros [= <- <-]; contradiction).
    destruct (as_string (profile_id profile)); simpl;
      try (intros [= <- <-]; contradiction).
    destruct (as_string (td_accessToken tokenData)); simpl;
      try (intros [= <- <-]; contradiction).
    destruct (as_optional_string (td_refreshToken tokenData)); simpl;
      try (intros [= <- <-]; contradiction).
    destruct (as_number (td_expiresIn tokenData)); simpl;
      try (intros [= <- <-]; contradiction).
    match goal with
    | |- context [storeOAuthProvider env ?u linkedin ?d st] =>
        pose proof (storeOAuthProvider_effect env u linkedin d st) as Heffect;
        destruct (storeOAuthProvider env u linkedin d st) as [[stored|e|why] st1]
    end; simpl in Heffect; destruct Heffect as (_ & _ & Hrow).
    + intros [= <- <-]. exists tokenData, profile.
      split; [reflexivity|]. split; [exact Hprofile | reflexivity].
    + subst st1. intros [= <- <-]. contradiction.
    + subst st1. intros [= <- <-]. contradiction.
  - exfalso. exact (decode_state_never_throws _ _ _ Hdecode).
  - unfold linkedInCallback, try_catch, bind in Hrun.
    rewrite Hcode, Hstate in Hrun. simpl in Hrun.
    rewrite (stateless_run _ st (decode_state_stateless _)), Hdecode in Hrun.
    injection Hrun as <- <-. contradiction.
Qed.

(** C10.  After every callback that answers 200, the row stored for the
    user carried by the state has exactly the scopes [openid],
    [profile], [email], [w_member_social], whatever the provider's token
    response says: [exchangeLinkedInCode] hands on [access_token],
    [expires_in] and [refresh_token] and nothing else of the payload. *)
Theorem callback_records_fixed_scopes {platform : Platform} (config : LinkedInConfig)
  (env : Env) (request : Request) (st st' : State) (reply : Reply) :
  linkedInCallback config env request st = (Ok reply, st') ->
  status reply = 200 ->
  exists user row,
    fst (decode_state (text (query_state request)) st) = Ok (inr (JString user))
    /\ getOAuthProvider user linkedin st' = (Ok (Some row), st')
    /\ op_scopes row = Some ["openid"; "profile"; "email"; "w_member_social"].
Proof.
  intros Hrun H200.
  destruct (missing (query_code request) || missing (query_state request))%bool eqn:Hm.
  { unfold linkedInCallback, try_catch, bind in Hrun. rewrite Hm in Hrun.
    simpl in Hrun. injection Hrun as <- <-. discriminate H200. }
  apply orb_false_iff in Hm. destruct Hm as [Hcode Hstate].
  destruct (fst (decode_state (text (query_state request)) st))
    as [[rejected|userId]|e|why] eqn:Hdecode.
  - apply decode_state_rejects in Hdecode as Hrej.
    unfold linkedInCallback, try_catch, bind in Hrun.
    rewrite Hcode, Hstate in Hrun. simpl in Hrun.
    rewrite (stateless_run _ st (decode_state_stateless _)), Hdecode in Hrun.
    simpl in Hrun. injection Hrun as <- <-. subst rejected. discriminate H200.
  - destruct (callback_after_decode config env request userId st Hcode Hstate Hdecode)
      as [(e & st1 & Hr & _)
         | [(why & Hr)
           | (r & st1 & user & row & tokenData & profile
              & Hr & _ & Hu & _ & _ & _ & Hfind & Hscopes)]];
      rewrite Hr in Hrun.
    + injection Hrun as <- <-. discriminate H200.
    + discriminate Hrun.
    + injection Hrun as <- <-. exists user, row. subst userId.
      split; [reflexivity|]. split; [|exact Hscopes].
      rewrite getOAuthProvider_reads, Hfind. reflexivity.
  - exfalso. exact (decode_state_never_throws _ _ _ Hdecode).
  - unfold linkedInCallback, try_catch, bind in Hrun.
    rewrite Hcode, Hstate in Hrun. simpl in Hrun.
    rewrite (stateless_run _ st (decode_state_stateless _)), Hdecode in Hrun.
    discriminate Hrun.
Qed.

(** The token payload reaches the rest of the program through three of
    its properties only. *)
Lemma exchangeLinkedInCode_reads_three {platform : Platform} (config : LinkedInConfig)
  (env : Env) (code : string) (st : State) (response : HttpResponse) (data : JsValue) :
  fetch env
    (mkRequest "POST" "https://www.linkedin.com/oauth/v2/accessToken"
       [("Content-Type", "application/x-www-form-urlencoded")]
       (URLSearchParams_toString
          [ ("grant_type", "authorization_code");
            ("code", code);
            ("client_id", clientId config);
            ("client_secret", clientSecret config);
            ("redirect_uri", callbackUrl config) ]))
  = Responded response ->
  response_ok response = true ->
  JSON_parse (response_body response) = Some data ->
  fst (exchangeLinkedInCode config env code st)
  = match js_get data "access_token", js_get data "expires_in",
          js_get data "refresh_token" with
    | Ok a, Ok x, Ok r => Ok (mkTokenData a x r)
    | Throw e, _, _ => Throw e
    | Unmodelled why, _, _ => Unmodelled why
    | Ok _, Throw e, _ => Throw e
    | Ok _, Unmodelled why, _ => Unmodelled why
    | Ok _, Ok _, Throw e => Throw e
    | Ok _, Ok _, Unmodelled why => Unmodelled why
    end.
Proof.
  intros Hfetch Hok Hjson.
  unfold exchangeLinkedInCode, bind, await_fetch. rewrite Hfetch. simpl.
  rewrite Hok. simpl. unfold response_json. rewrite Hjson. simpl.
  unfold lift.
  destruct (js_get data "access_token"); simpl; try reflexivity.
  destruct (js_get data "expires_in"); simpl; try reflexivity.
  destruct (js_get data "refresh_token"); reflexivity.
Qed.

(** The [scope] property of the token payload has no influence. *)
Lemma own_property_other_key (k k' : string) (v : JsValue)
  (fields : list (string * JsValue)) :
  k <> k' -> own_property k ((k', v) :: fields) = own_property k fields.
Proof.
  intros Hne. unfold own_property. simpl.
  destruct (last_binding k fields); [reflexivity|].
  destruct (String.eqb_spec k k'); [contradiction | reflexivity].
Qed.

Lemma exchangeLinkedInCode_ignores_scope {platform : Platform} (config : LinkedInConfig)
  (env env' : Env) (code : string) (st : State) (response response' : HttpResponse)
  (fields : list (string * JsValue)) (granted : JsValue) :
  let rq := mkRequest "POST" "https://www.linkedin.com/oauth/v2/accessToken"
       [("Content-Type", "application/x-www-form-urlencoded")]
       (URLSearchParams_toString
          [ ("grant_type", "authorization_code");
            ("code", code);
            ("client_id", clientId config);
            ("client_secret", clientSecret config);
            ("redirect_uri", callbackUrl config) ]) in
  fetch env rq = Responded response -> response_ok response = true ->
  fetch env' rq = Responded response' -> response_ok response' = true ->
  JSON_parse (response_body response) = Some (JObject fields) ->
  JSON_parse (response_body response') = Some (JObject (("scope", granted) :: fields)) ->
  fst (exchangeLinkedInCode config env' code st)
  = fst (exchangeLinkedInCode config env code st).
Proof.
  intros rq Hf Hok Hf' Hok' Hj Hj'.
  rewrite (exchangeLinkedInCode_reads_three config env code st response _ Hf Hok Hj).
  rewrite (exchangeLinkedInCode_reads_three config env' code st response' _ Hf' Hok' Hj').
  unfold js_get.
  rewrite !own_property_other_key by discriminate. reflexivity.
Qed.

(** A state that decodes to an object without [userId] is never
    answered with 400. *)
Lemma callback_without_userId_never_400 {platform : Platform} (config : LinkedInConfig)
  (env : Env) (request : Request) (st st' : State) (reply : Reply)
  (fields : list (string * JsValue)) :
  missing (query_code request) = false ->
  missing (query_state request) = false ->
  JSON_parse (from_base64 (text (query_state request))) = Some (JObject fields) ->
  own_property "userId" fields = JUndefined ->
  linkedInCallback config env request st = (Ok reply, st') ->
  status reply = 500.
Proof.
  intros Hcode Hstate Hparse Habsent Hrun.
  pose proof (decode_state_cases (text (query_state request)) st) as Hd.
  rewrite Hparse in Hd. simpl in Hd. rewrite Habsent in Hd.
  assert (Hdecode : fst (decode_state (text (query_state request)) st)
                    = Ok (inr JUndefined)) by (rewrite Hd; reflexivity).
  destruct (callback_after_decode config env request _ st Hcode Hstate Hdecode)
    as [(e & st1 & Hr & _)
       | [(why & Hr)
         | (r & st1 & user & row & tokenData & profile & Hr & _ & Hu & _)]];
    rewrite Hr in Hrun.
  - injection Hrun as <- <-. reflexivity.
  - discriminate Hrun.
  - discriminate Hu.
Qed.

(** C2.  The callback for [state=e30=], whose decoded state is an
    object with no [userId]: the handler does not answer 400.  It goes on
    to exchange the code; with a provider that refuses the code it
    answers 500, and with a provider that answers both calls it arrives
    at the store with [undefined] for the user id. *)
Theorem callback_state_without_userId :
  Reference.parse (Reference.text_of_base64 "e30=") = Some (JObject [])
  /\ js_get (JObject []) "userId" = Ok JUndefined
  /\ (exists e,
        linkedInCallback (platform := Reference.platform) default_config
          Examples.provider_down Examples.callback_without_user Examples.connected
        = (Ok (connect_failed e), add_log Examples.connected e)
        /\ status (connect_failed e) = 500
        /\ connect_failed e <> invalid_state)
  /\ linkedInCallback (platform := Reference.platform) default_config
       Examples.provider_up Examples.callback_without_user Examples.connected
     = (Unmodelled "a value that is not a string reaches a string parameter",
        Examples.connected).
Proof.
  split; [vm_compute; reflexivity|].
  split; [reflexivity|].
  split.
  - exists (Error_ ("Failed to exchange code: "
                    ++ Reference.stringify (JObject [("error", JString "invalid_grant")]))).
    split; [vm_compute; reflexivity|].
    split; [reflexivity | discriminate].
  - vm_compute. reflexivity.
Qed.

(** ** Registration and login *)

Lemma login_fails {platform : Platform} (st : State) (email password : string) :
  LoginFailure st email password ->
  exists e,
    AuthService.login email password st = (Throw e, st)
    /\ err_class e = PlainError
    /\ AuthController.is_credentials_failure e = true.
Proof.
  intros Hcause. unfold AuthService.login, bind, get_state. simpl.
  destruct Hcause as [Hnone | user Hsome Hhash | user hash Hsome Hhash Hne Hwrong];
    unfold user_by_email in *.
  - apply select_one_nil in Hnone. rewrite Hnone.
    eexists. split; [reflexivity|]. split; reflexivity.
  - rewrite <- select_one_find in Hsome.
    destruct (select_where _ 1 (users st)) as [|user' rest]; [discriminate|].
    injection Hsome as ->.
    destruct (u_passwordHash user) as [hash|].
    + simpl in Hhash. destruct (String.eqb hash ""); [|discriminate].
      eexists. split; [reflexivity|]. split; reflexivity.
    + eexists. split; [reflexivity|]. split; reflexivity.
  - rewrite <- select_one_find in Hsome.
    destruct (select_where _ 1 (users st)) as [|user' rest]; [discriminate|].
    injection Hsome as ->. rewrite Hhash.
    destruct (String.eqb_spec hash ""); [contradiction|].
    unfold AuthService.verifyPassword, ret. rewrite Hwrong. simpl.
    eexists. split; [reflexivity|]. split; reflexivity.
Qed.

(** C6.  A login that fails because the e-mail is unknown, because the
    stored record has no password hash, or because the password does not
    verify, throws an error that the handler recognises as a credentials
    failure, and the handler gives the same answer in the three cases:
    401 with the message [Invalid email or password], the store and the
    log left as they were. *)
Theorem login_failures_collapse {platform : Platform} (env : Env) (request : Request)
  (st : State) (parsed : list (string * string)) :
  zod_parse loginSchema (request_body request) = Ok parsed ->
  LoginFailure st (field "email" parsed) (field "password" parsed) ->
  (exists e,
     AuthService.login (field "email" parsed) (field "password" parsed) st = (Throw e, st)
     /\ AuthController.is_credentials_failure e = true)
  /\ AuthController.login env request st = (Ok invalid_credentials, st).
Proof.
  intros Hparsed Hcause.
  destruct (login_fails st _ _ Hcause) as (e & Hlogin & Hclass & Hkind).
  split; [exists e; split; assumption|].
  unfold AuthController.login, try_catch, bind, lift. rewrite Hparsed, Hlogin.
  unfold instanceof_ZodError. rewrite Hclass, Hkind. reflexivity.
Qed.

(** A registration on a new e-mail stores the user it returns, and that
    user logs in with the same password. *)
Lemma registered_user_logs_in {platform : Platform} {schema : UsersSchema}
  (env : Env) (st : State) (email name password : string) :
  user_by_email st email = None ->
  ~ In (db_random_uuid env) (map u_id (users st)) ->
  users_accept (AuthService.new_user env email name
                  (bcrypt_hash password AuthService.SALT_ROUNDS (bcrypt_salt env)))
  = true ->
  bcrypt_hash password AuthService.SALT_ROUNDS (bcrypt_salt env) <> "" ->
  bcrypt_compare password
    (bcrypt_hash password AuthService.SALT_ROUNDS (bcrypt_salt env)) = true ->
  exists user st',
    AuthService.register env email name password st = (Ok user, st')
    /\ AuthService.login email password st' = (Ok user, st')
    /\ u_email user = email /\ u_id user = db_random_uuid env
    /\ u_name user = name /\ u_createdAt user = db_now env.
Proof.
  intros Hnew Hfresh Hfits Hhash Hverify.
  unfold AuthService.register, bind, get_state. simpl.
  unfold user_by_email in Hnew.
  rewrite (proj2 (select_one_nil _ _) Hnew). simpl.
  unfold AuthService.hashPassword, ret, insert_user, user_insert_violation.
  rewrite Hfits. simpl.
  destruct (existsb (fun u' => String.eqb (u_id u') (db_random_uuid env)) (users st))
    eqn:E1.
  { apply (existsb_eqb_in u_id) in E1. contradiction. }
  rewrite (existsb_find_none _ _ Hnew).
  eexists. eexists. split; [reflexivity|].
  split; [|repeat split; reflexivity].
  unfold AuthService.login, bind, get_state. simpl.
  destruct (select_where (fun u => String.eqb (u_email u) email) 1 _)
    as [|found rest] eqn:Hsel.
  - apply select_one_nil in Hsel. rewrite (find_app_none _ _ _ Hnew) in Hsel.
    simpl in Hsel. rewrite String.eqb_refl in Hsel. discriminate.
  - apply select_one_cons in Hsel. rewrite (find_app_none _ _ _ Hnew) in Hsel.
    simpl in Hsel. rewrite String.eqb_refl in Hsel. injection Hsel as <-. simpl.
    destruct (String.eqb_spec
                (bcrypt_hash password AuthService.SALT_ROUNDS (bcrypt_salt env)) "");
      [contradiction|].
    unfold AuthService.verifyPassword, ret. rewrite Hverify. reflexivity.
Qed.

(** C8.  When the e-mail is not registered yet, [register] succeeds and
    a [login] with the same e-mail and password right after it succeeds
    and returns the user that [register] returned, in particular the
    same user id.  The triple is valid for the [users] table (its
    columns accept the row); bcrypt is asked for its contract: the hash
    it returns is not empty and the password verifies against it; the
    database is asked for a primary key that is not in use. *)
Theorem register_then_login {platform : Platform} {schema : UsersSchema}
  (env : Env) (st : State) (email name password : string) :
  user_by_email st email = None ->
  ~ In (db_random_uuid env) (map u_id (users st)) ->
  users_accept (AuthService.new_user env email name
                  (bcrypt_hash password AuthService.SALT_ROUNDS (bcrypt_salt env)))
  = true ->
  bcrypt_hash password AuthService.SALT_ROUNDS (bcrypt_salt env) <> "" ->
  bcrypt_compare password
    (bcrypt_hash password AuthService.SALT_ROUNDS (bcrypt_salt env)) = true ->
  exists registered st',
    AuthService.register env email name password st = (Ok registered, st')
    /\ exists logged_in,
         AuthService.login email password st' = (Ok logged_in, st')
         /\ u_id logged_in = u_id registered
         /\ logged_in = registered.
Proof.
  intros Hnew Hfresh Hfits Hhash Hverify.
  destruct (registered_user_logs_in env st email name password
              Hnew Hfresh Hfits Hhash Hverify)
    as (user & st' & Hregister & Hlogin & _).
  exists user, st'. split; [exact Hregister|].
  exists user. split; [exact Hlogin|]. split; reflexivity.
Qed.

(** A login throws for no other reason than the three. *)
Lemma login_throws_only_so {platform : Platform} (st : State)
  (email password : string) (e : JsError) :
  fst (AuthService.login email password st) = Throw e -> LoginFailure st email password.
Proof.
  unfold AuthService.login, bind, get_state. simpl.
  destruct (select_where (fun u => String.eqb (u_email u) email) 1 (users st))
    as [|user rest] eqn:Hsel.
  - intros _. apply unknown_email. apply select_one_nil. exact Hsel.
  - apply select_one_cons in Hsel.
    destruct (u_passwordHash user) as [hash|] eqn:Hhash.
    + destruct (String.eqb_spec hash "") as [->|Hne].
      * intros _. apply (no_password_hash _ _ _ user Hsel). rewrite Hhash. reflexivity.
      * unfold AuthService.verifyPassword, ret. simpl.
        destruct (bcrypt_compare password hash) eqn:Hverify; simpl; [discriminate|].
        intros _. exact (wrong_password _ _ _ user hash Hsel Hhash Hne Hverify).
    + intros _. apply (no_password_hash _ _ _ user Hsel). rewrite Hhash. reflexivity.
Qed.

(** The same through the handlers: a registration that validates
    answers 201 with the new user id, and the login that follows with
    the same e-mail and password answers 200 with that id. *)
Lemma register_then_login_replies {platform : Platform} {schema : UsersSchema}
  (env env' : Env) (st : State)
  (registration attempt : Request) (email name password : string) :
  zod_parse registerSchema (request_body registration)
  = Ok [("email", email); ("name", name); ("password", password)] ->
  zod_parse loginSchema (request_body attempt)
  = Ok [("email", email); ("password", password)] ->
  user_by_email st email = None ->
  ~ In (db_random_uuid env) (map u_id (users st)) ->
  users_accept (AuthService.new_user env email name
                  (bcrypt_hash password AuthService.SALT_ROUNDS (bcrypt_salt env)))
  = true ->
  bcrypt_hash password AuthService.SALT_ROUNDS (bcrypt_salt env) <> "" ->
  bcrypt_compare password
    (bcrypt_hash password AuthService.SALT_ROUNDS (bcrypt_salt env)) = true ->
  exists user st',
    u_id user = db_random_uuid env
    /\ AuthController.register env registration st
       = (Ok (send 201
            [("message", JString "User registered successfully");
             ("data", JObject
                [("user", JObject [("id", JString (u_id user));
                                    ("email", JString email);
                                    ("name", JString name);
                                    ("createdAt", JDate (db_now env))]);
                 ("token", JString (AuthController.token_for env user))])]), st')
    /\ AuthController.login env' attempt st'
       = (Ok (send 200
            [("message", JString "Login successful");
             ("data", JObject
                [("user", JObject [("id", JString (u_id user));
                                    ("email", JString email);
                                    ("name", JString name)]);
                 ("token", JString (AuthController.token_for env' user))])]), st').
Proof.
  intros Hregistration Hattempt Hnew Hfresh Hfits Hhash Hverify.
  pose proof (registered_user_logs_in env st email name password
                Hnew Hfresh Hfits Hhash Hverify) as Hregister.
  destruct Hregister as (user & st' & Hr & Hl & Hemail & Hid & Hname & Hcreated).
  exists user, st'. split; [exact Hid|]. split.
  - unfold AuthController.register, try_catch, bind, lift. rewrite Hregistration.
    change (field "email" _) with email.
    change (field "name" [("email", email); ("name", name); ("password", password)])
      with name.
    change (field "password" [("email", email); ("name", name); ("password", password)])
      with password.
    rewrite Hr. unfold ret. rewrite Hemail, Hname, Hcreated. reflexivity.
  - unfold AuthController.login, try_catch, bind, lift. rewrite Hattempt.
    change (field "email" _) with email.
    change (field "password" [("email", email); ("password", password)])
      with password.
    rewrite Hl. unfold ret. rewrite Hemail, Hname. reflexivity.
Qed.

(** ** The handlers keep the constraints of the schema *)

(** Where a callback leaves the store: as it was, as it was with one
    more log entry, or as one call of [storeOAuthProvider] left it. *)
Lemma callback_final_state {platform : Platform} (config : LinkedInConfig)
  (env : Env) (request : Request) (st : State) :
  let st' := snd (linkedInCallback config env request st) in
  st' = st
  \/ (exists e, st' = add_log st e)
  \/ (exists user data, st' = snd (storeOAuthProvider env user linkedin data st)).
Proof.
  cbv zeta.
  unfold linkedInCallback, try_catch, bind.
  destruct (missing (query_code request) || missing (query_state request))%bool;
    simpl; [left; reflexivity|].
  rewrite (stateless_run _ st (decode_state_stateless _)).
  destruct (fst (decode_state (text (query_state request)) st))
    as [[rejected|userId]|e|why]; simpl;
    [left; reflexivity | | right; left; eauto | left; reflexivity].
  rewrite (stateless_run _ st (exchangeLinkedInCode_stateless _ _ _)).
  destruct (fst (exchangeLinkedInCode config env (text (query_code request)) st))
    as [tokenData|e|why]; simpl;
    [| right; left; eauto | left; reflexivity].
  rewrite (stateless_run _ st (getLinkedInProfile_stateless _ _)).
  destruct (fst (getLinkedInProfile env (td_accessToken tokenData) st))
    as [profile|e|why]; simpl;
    [| right; left; eauto | left; reflexivity].
  unfold lift.
  destruct (as_string userId); simpl;
    [| right; left; eauto | left; reflexivity].
  destruct (as_string (profile_id profile)); simpl;
    [| right; left; eauto | left; reflexivity].
  destruct (as_string (td_accessToken tokenData)); simpl;
    [| right; left; eauto | left; reflexivity].
  destruct (as_optional_string (td_refreshToken tokenData)); simpl;
    [| right; left; eauto | left; reflexivity].
  destruct (as_number (td_expiresIn tokenData)); simpl;
    [| right; left; eauto | left; reflexivity].
  match goal with
  | |- context [storeOAuthProvider env ?u linkedin ?d st] =>
      pose proof (storeOAuthProvider_effect env u linkedin d st) as Heffect;
      destruct (storeOAuthProvider env u linkedin d st) as [[stored|e|why] st1] eqn:Hs
  end; simpl in Heffect; destruct Heffect as (_ & _ & Hrow); simpl.
  - right. right. eexists. eexists. rewrite Hs. reflexivity.
  - subst st1. right. left. eauto.
  - subst st1. left. reflexivity.
Qed.

Lemma linkedInCallback_consistent {platform : Platform} (config : LinkedInConfig)
  (env : Env) (request : Request) (st : State) :
  consistent st -> consistent (snd (linkedInCallback config env request st)).
Proof.
  intros Hst.
  destruct (callback_final_state config env request st)
    as [-> | [[e ->] | (user & data & ->)]].
  - exact Hst.
  - apply consistent_add_log. exact Hst.
  - apply storeOAuthProvider_consistent. exact Hst.
Qed.

Lemma linkedInDisconnect_consistent (request : Request) (st : State) :
  consistent st -> consistent (snd (linkedInDisconnect request st)).
Proof.
  intros Hst. unfold linkedInDisconnect, try_catch, bind.
  destruct (authenticated_user request) as [userId|]; [|exact Hst].
  rewrite delete_connection_runs. simpl.
  exact (delete_connection_consistent userId linkedin st Hst).
Qed.

Lemma linkedInStatus_reads_only (env : Env) (request : Request) (st : State) :
  snd (linkedInStatus env request st) = st.
Proof.
  unfold linkedInStatus, try_catch, bind.
  destruct (authenticated_user request) as [userId|]; [|reflexivity].
  rewrite getOAuthProvider_reads.
  destruct (connection_of st userId linkedin); reflexivity.
Qed.

Lemma linkedInConnect_reads_only {platform : Platform} (config : LinkedInConfig)
  (env : Env) (request : Request) (st : State) :
  snd (linkedInConnect config env request st) = st.
Proof.
  unfold linkedInConnect, try_catch.
  destruct (authenticated_user request); reflexivity.
Qed.

(** ** The theorems at work on concrete requests *)



(** A state of unreserved characters. *)
Lemma getLinkedInAuthUrl_shape_witness :
  forallb form_unreserved (list_ascii_of_string "a1B2-c3_d4.e5") = true
  /\ Substring "a1B2-c3_d4.e5" (getLinkedInAuthUrl default_config "a1B2-c3_d4.e5").
Proof.
  split; [reflexivity|].
  exact (proj2 (proj2 (getLinkedInAuthUrl_shape default_config "a1B2-c3_d4.e5")) eq_refl).
Defined.

(** C7, as stated, fails: the state [e30=] (base64 of an empty JSON
    object) does not occur in the URL built from it, which carries
    [state=e30%3D]. *)
Lemma state_not_verbatim_in_url :
  ~ Substring "e30=" (getLinkedInAuthUrl default_config "e30=")
  /\ Substring "state=e30%3D" (getLinkedInAuthUrl default_config "e30=").
Proof.
  split.
  - intros H. apply contains_Substring in H. vm_compute in H. discriminate H.
  - apply contains_Substring. vm_compute. reflexivity.
Qed.

(** The state that [linkedInConnect] hands to Alice ends in [==]; the URL
    carries it as [%3D%3D], so the state is not a substring of the URL. *)
Lemma connect_state_not_verbatim :
  exists authUrl,
    linkedInConnect (platform := Reference.platform) default_config
      Examples.provider_down Examples.alice_request Examples.connected
    = (Ok (send 200 [("data", JObject [("authUrl", JString authUrl);
                                       ("state", JString Examples.alice_state)])]),
       Examples.connected)
    /\ contains "==" Examples.alice_state = true
    /\ contains Examples.alice_state authUrl = false
    /\ contains (form_urlencode Examples.alice_state) authUrl = true.
Proof.
  eexists. split; [vm_compute; reflexivity|].
  repeat split; vm_compute; reflexivity.
Qed.

(** The three failures on a store with Alice and passwordless Bob. *)
Lemma login_failures_collapse_witness :
  let run email password :=
    AuthController.login (platform := Reference.platform) Examples.provider_down
      (Examples.login_request email password) Examples.two_users in
  run "nobody@b.com" "password123" = (Ok invalid_credentials, Examples.two_users)
  /\ run "bob@b.com" "password123" = (Ok invalid_credentials, Examples.two_users)
  /\ run "a@b.com" "password124" = (Ok invalid_credentials, Examples.two_users).
Proof.
  cbv zeta. split; [|split].
  - refine (proj2 (login_failures_collapse (platform := Reference.platform)
                     Examples.provider_down
                     (Examples.login_request "nobody@b.com" "password123")
                     Examples.two_users
                     [("email", "nobody@b.com"); ("password", "password123")]
                     eq_refl _)).
    apply unknown_email. reflexivity.
  - refine (proj2 (login_failures_collapse (platform := Reference.platform)
                     Examples.provider_down
                     (Examples.login_request "bob@b.com" "password123")
                     Examples.two_users
                     [("email", "bob@b.com"); ("password", "password123")]
                     eq_refl _)).
    apply (no_password_hash _ _ _ Examples.bob); reflexivity.
  - refine (proj2 (login_failures_collapse (platform := Reference.platform)
                     Examples.provider_down
                     (Examples.login_request "a@b.com" "password124")
                     Examples.two_users
                     [("email", "a@b.com"); ("password", "password124")]
                     eq_refl _)).
    apply (wrong_password _ _ _ Examples.alice "$2b$10$salt$password123");
      [reflexivity | reflexivity | discriminate | reflexivity].
Defined.

(** Carol registers and logs in. *)
Lemma register_then_login_witness :
  user_by_email Examples.two_users "carol@b.com" = None
  /\ Reference.stand_in_compare "password123"
       (Reference.stand_in_hash "password123" AuthService.SALT_ROUNDS "salt") = true
  /\ exists registered st',
       AuthService.register (platform := Reference.platform) (schema := Reference.schema)
         Examples.provider_down "carol@b.com" "Carol" "password123" Examples.two_users
       = (Ok registered, st')
       /\ exists logged_in,
            AuthService.login (platform := Reference.platform) "carol@b.com" "password123" st'
            = (Ok logged_in, st')
            /\ u_id logged_in = u_id registered.
Proof.
  split; [reflexivity|]. split; [reflexivity|].
  destruct (register_then_login (platform := Reference.platform)
              (schema := Reference.schema)
              Examples.provider_down Examples.two_users
              "carol@b.com" "Carol" "password123")
    as (registered & st' & Hregister & logged_in & Hlogin & Hid & _).
  - reflexivity.
  - simpl. intros [H|[H|[]]]; discriminate H.
  - reflexivity.
  - discriminate.
  - reflexivity.
  - exists registered, st'. split; [exact Hregister|].
    exists logged_in. split; [exact Hlogin | exact Hid].
Defined.

(** Alice disconnects twice. *)
Lemma disconnect_idempotent_witness :
  authenticated_user Examples.alice_request = Some Examples.alice_id
  /\ uuid_text Examples.alice_id = true
  /\ (let first := linkedInDisconnect Examples.alice_request Examples.connected in
      let second := linkedInDisconnect Examples.alice_request (snd first) in
      oauthProviders (snd first) = []
      /\ fst second = fst first
      /\ snd second = snd first).
Proof.
  split; [reflexivity|]. split; [reflexivity|].
  destruct (disconnect_idempotent Examples.alice_request Examples.alice_id
              Examples.alice_id linkedin Examples.connected eq_refl eq_refl eq_refl)
    as (_ & Hfirst & Hsecond & Hsame & _).
  cbv zeta. split; [reflexivity|]. split.
  - rewrite Hfirst, Hsecond. reflexivity.
  - exact Hsame.
Defined.

(** Alice's status with a fresh token, with an expired one, and with no
    connection. *)
Lemma linkedInStatus_reports_witness :
  authenticated_user Examples.alice_request = Some Examples.alice_id
  /\ uuid_text Examples.alice_id = true
  /\ (exists data,
        linkedInStatus Examples.provider_down Examples.alice_request
          Examples.connected_fresh
        = (Ok (send 200 [("data", JObject data)]), Examples.connected_fresh)
        /\ own_property "connected" data = JBool true
        /\ own_property "canPost" data = JBool true)
  /\ (exists data,
        linkedInStatus Examples.provider_down Examples.alice_request
          Examples.connected
        = (Ok (send 200 [("data", JObject data)]), Examples.connected)
        /\ own_property "needsRefresh" data = JBool true)
  /\ linkedInStatus Examples.provider_down Examples.alice_request
       Examples.unconnected
     = (Ok not_connected, Examples.unconnected).
Proof.
  split; [reflexivity|]. split; [reflexivity|]. split; [|split].
  - pose proof (linkedInStatus_reports Examples.provider_down Examples.alice_request
                  Examples.alice_id Examples.connected_fresh eq_refl eq_refl) as H.
    change (connection_of Examples.connected_fresh Examples.alice_id linkedin)
      with (Some Examples.fresh_connection) in H.
    destruct H as (data & Hrun & Hconnected & Hpost & _).
    exists data. split; [exact Hrun|]. split; [exact Hconnected|].
    apply Hpost. split; [reflexivity|].
    eexists. split; [reflexivity|]. simpl. tauto.
  - pose proof (linkedInStatus_reports Examples.provider_down Examples.alice_request
                  Examples.alice_id Examples.connected eq_refl eq_refl) as H.
    change (connection_of Examples.connected Examples.alice_id linkedin)
      with (Some Examples.first_connection) in H.
    destruct H as (data & Hrun & _ & _ & Hrefresh).
    exists data. split; [exact Hrun|]. apply Hrefresh. reflexivity.
  - exact (linkedInStatus_reports Examples.provider_down Examples.alice_request
             Examples.alice_id Examples.unconnected eq_refl eq_refl).
Defined.

(** Alice's callback when the userinfo endpoint refuses, and when the
    token endpoint refuses. *)
Lemma callback_provider_failure_witness :
  let run env :=
    linkedInCallback (platform := Reference.platform) default_config env
      Examples.alice_callback Examples.connected in
  fst (decode_state (platform := Reference.platform)
         (text (query_state Examples.alice_callback)) Examples.connected)
  = Ok (inr (JString Examples.alice_id))
  /\ (exists st',
        run Examples.userinfo_down
        = (Ok (connect_failed (Error_ "Failed to fetch LinkedIn profile")), st')
        /\ oauthProviders st' = oauthProviders Examples.connected)
  /\ (exists e st',
        run Examples.provider_down = (Ok (connect_failed e), st')
        /\ oauthProviders st' = oauthProviders Examples.connected).
Proof.
  cbv zeta.
  assert (Hdecode :
    fst (decode_state (platform := Reference.platform)
           (text (query_state Examples.alice_callback)) Examples.connected)
    = Ok (inr (JString Examples.alice_id))) by (vm_compute; reflexivity).
  split; [exact Hdecode|]. split.
  - destruct (callback_provider_failure (platform := Reference.platform)
                default_config Examples.userinfo_down Examples.alice_callback
                (JString Examples.alice_id) Examples.connected
                (Error_ "Failed to fetch LinkedIn profile")
                eq_refl eq_refl Hdecode)
      as (st' & Hrun & _ & _ & Hkept & _).
    + right. eexists. split; vm_compute; reflexivity.
    + exists st'. split; [exact Hrun | exact Hkept].
  - destruct (callback_provider_failure (platform := Reference.platform)
                default_config Examples.provider_down Examples.alice_callback
                (JString Examples.alice_id) Examples.connected
                (Error_ ("Failed to exchange code: "
                         ++ Reference.stringify
                              (JObject [("error", JString "invalid_grant")])))
                eq_refl eq_refl Hdecode)
      as (st' & Hrun & _ & _ & Hkept & _).
    + left. vm_compute. reflexivity.
    + eexists. exists st'. split; [exact Hrun | exact Hkept].
Defined.

(** Alice's callback with a provider that grants [r_liteprofile]. *)
Lemma callback_records_fixed_scopes_witness :
  exists reply st',
    linkedInCallback (platform := Reference.platform) default_config
      Examples.provider_up Examples.alice_callback Examples.unconnected
    = (Ok reply, st')
    /\ status reply = 200
    /\ exists row,
         getOAuthProvider Examples.alice_id linkedin st' = (Ok (Some row), st')
         /\ op_accessToken row = "tok-new"
         /\ op_scopes row = Some ["openid"; "profile"; "email"; "w_member_social"].
Proof.
  eexists. eexists. split; [vm_compute; reflexivity|].
  split; [reflexivity|].
  match goal with
  | |- exists row, getOAuthProvider _ _ ?st' = _ /\ _ =>
      destruct (callback_records_fixed_scopes (platform := Reference.platform)
                  default_config Examples.provider_up Examples.alice_callback
                  Examples.unconnected st' _ ltac:(vm_compute; reflexivity) eq_refl)
        as (user & row & Hdecode & Hget & Hscopes)
  end.
  assert (Huser : user = Examples.alice_id).
  { vm_compute in Hdecode. inversion Hdecode. reflexivity. }
  subst user. exists row. split; [exact Hget|]. split; [|exact Hscopes].
  rewrite getOAuthProvider_reads in Hget. injection Hget as Hrow.
  vm_compute in Hrow. inversion Hrow. reflexivity.
Defined.

(* ================================================================== *)
(** * Further properties of the code *)

(** ** The credential store, row by row *)


Lemma find_app_other {A} (q : A -> bool) (t : list A) (r : A) :
  q r = false -> find q (t ++ [r]) = find q t.
Proof.
  intros Hr. induction t as [|x t IH]; simpl.
  - rewrite Hr. reflexivity.
  - destruct (q x); [reflexivity | exact IH].
Qed.

Lemma find_after_delete_other {A} (p q : A -> bool) (t : list A) :
  (forall r, q r = true -> p r = false) ->
  find q (delete_where p t) = find q t.
Proof.
  intros Hdisjoint. unfold delete_where.
  induction t as [|r t IH]; simpl; [reflexivity|].
  destruct (q r) eqn:Hq.
  - rewrite (Hdisjoint r Hq). simpl. rewrite Hq. reflexivity.
  - destruct (p r); simpl; [exact IH|]. rewrite Hq. exact IH.
Qed.

Lemma same_connection_other (userId userId' : string) (provider provider' : Provider)
  (r : OAuthProvider) :
  (userId', provider') <> (userId, provider) ->
  same_connection userId' provider' r = true ->
  same_connection userId provider r = false.
Proof.
  intros Hother Hr. apply same_connection_spec in Hr. destruct Hr as [Hu Hp].
  destruct (same_connection userId provider r) eqn:E; [|reflexivity].
  apply same_connection_spec in E. destruct E as [Hu' Hp'].
  exfalso. apply Hother. congruence.
Qed.





(** ** The constraints of the schema, operation by operation *)

Lemma at_most_one_row {A B} (key : A -> B) (same : B -> A -> bool) (t : list A)
  (k : B) :
  (forall r, same k r = true -> key r = k) ->
  NoDup (map key t) ->
  List.length (filter (same k) t) <= 1.
Proof.
  intros Hsame. induction t as [|r t IH]; simpl; intros Hnd; [lia|].
  inversion Hnd as [|? ? Hnotin Hnd']; subst.
  destruct (same k r) eqn:E; [|exact (IH Hnd')].
  simpl. assert (Hnone : filter (same k) t = []).
  { destruct (filter (same k) t) as [|x rest] eqn:F; [reflexivity|].
    exfalso. apply Hnotin.
    assert (Hx : In x (filter (same k) t)) by (rewrite F; left; reflexivity).
    apply filter_In in Hx. destruct Hx as [Hin Hk].
    rewrite (Hsame r E), <- (Hsame x Hk). apply in_map. exact Hin. }
  rewrite Hnone. simpl. lia.
Qed.

Lemma login_reads_only {platform : Platform} (email password : string) (st : State) :
  snd (AuthService.login email password st) = st.
Proof.
  unfold AuthService.login, bind, get_state. simpl.
  destruct (select_where _ 1 (users st)) as [|user rest]; [reflexivity|].
  destruct (u_passwordHash user) as [hash|]; [|reflexivity].
  destruct (String.eqb hash ""); [reflexivity|].
  unfold AuthService.verifyPassword, ret. simpl.
  destruct (bcrypt_compare password hash); reflexivity.
Qed.

Lemma getUserById_reads (userId : string) (st : State) :
  AuthService.getUserById userId st
  = (Ok (find (fun u => String.eqb (u_id u) userId) (users st)), st).
Proof.
  unfold AuthService.getUserById, bind, get_state, ret.
  rewrite select_one_find. reflexivity.
Qed.

Lemma getUserByEmail_reads (email : string) (st : State) :
  AuthService.getUserByEmail email st = (Ok (user_by_email st email), st).
Proof.
  unfold AuthService.getUserByEmail, user_by_email, bind, get_state, ret.
  rewrite select_one_find. reflexivity.
Qed.

Lemma updatePreferences_consistent (env : Env) (userId : string)
  (patch : PreferencesPatch) (st : State) :
  consistent st ->
  consistent (snd (AuthService.updatePreferences env userId patch st)).
Proof.
  intros [Hids Hkeys Howner Huids Hemails].
  unfold AuthService.updatePreferences, bind, get_state. simpl.
  destruct (select_where _ 1 (users st)) as [|user rest]; [split; assumption|].
  unfold update_where, put_state, ret. simpl.
  split; simpl; try assumption.
  - intros r Hin. rewrite map_key_after_update by reflexivity. exact (Howner r Hin).
  - rewrite map_key_after_update by reflexivity. exact Huids.
  - rewrite map_key_after_update by reflexivity. exact Hemails.
Qed.

(** X2.  The constraints of the schema are an invariant of the four
    operations that write: from a store in which primary keys, e-mails
    and (user, provider) pairs are unique and every connection belongs
    to a user, [storeOAuthProvider], the delete of a connection,
    [register] and [updatePreferences] lead to such a store, whatever
    their arguments and however they end.  In such a store no (user,
    provider) pair has two rows. *)
Theorem writes_keep_constraints {platform : Platform} {schema : UsersSchema}
  (st : State) :
  consistent st ->
  (forall env userId provider data,
     consistent (snd (storeOAuthProvider env userId provider data st)))
  /\ (forall userId provider,
        consistent (snd (delete_connection userId provider st)))
  /\ (forall env email name password,
        consistent (snd (AuthService.register env email name password st)))
  /\ (forall env userId patch,
        consistent (snd (AuthService.updatePreferences env userId patch st)))
  /\ (forall userId provider,
        List.length (filter (same_connection userId provider) (oauthProviders st)) <= 1).
Proof.
  intros Hst. split; [|split; [|split; [|split]]].
  - intros. apply storeOAuthProvider_consistent. exact Hst.
  - intros. apply delete_connection_consistent. exact Hst.
  - intros. apply register_consistent. exact Hst.
  - intros. apply updatePreferences_consistent. exact Hst.
  - intros userId provider.
    apply (at_most_one_row connection_key
             (fun k r => same_connection (fst k) (snd k) r)
             (oauthProviders st) (userId, provider)).
    + intros r Hr. apply same_connection_spec in Hr. simpl in Hr.
      unfold connection_key. destruct Hr as [-> ->]. reflexivity.
    + exact (connection_keys st Hst).
Qed.

(** ** The callback, case by case *)

Lemma storeOAuthProvider_stored_row (env : Env) (userId : string)
  (provider : Provider) (data : StoreData) (st st' : State)
  (stored : option OAuthProvider) :
  storeOAuthProvider env userId provider data st = (Ok stored, st') ->
  exists row,
    connection_of st' userId provider = Some row
    /\ op_accessToken row = accessToken data
    /\ op_scopes row = Some (scopes data)
    /\ op_tokenExpiresAt row = Some (clock_now env + expiresIn data * 1000)%Z.
Proof.
  unfold storeOAuthProvider, bind, get_state. simpl.
  destruct (valid_time _); simpl; [|discriminate].
  destruct (timestamp_accepts _); simpl; [|discriminate].
  destruct (select_where (same_connection userId provider) 1 (oauthProviders st))
    as [|existing0 rest] eqn:Hsel.
  - apply select_one_nil in Hsel.
    unfold insert_oauthProvider.
    destruct (oauth_insert_violation st _); simpl; [discriminate|].
    intros [= <- <-]. eexists. split.
    + unfold connection_of. simpl. rewrite (find_app_none _ _ _ Hsel).
      unfold same_connection at 1. simpl.
      rewrite String.eqb_refl, Provider_eqb_refl. reflexivity.
    + repeat split; reflexivity.
  - apply select_one_cons in Hsel.
    unfold update_where, put_state, ret. simpl.
    intros [= <- <-]. eexists. split.
    + unfold connection_of. simpl.
      rewrite (find_after_update (same_connection userId provider)) by reflexivity.
      rewrite Hsel. simpl. rewrite String.eqb_refl. reflexivity.
    + repeat split; reflexivity.
Qed.

Ltac callback_dead_end H200 :=
  first [ discriminate
        | intros [= <- <-]; discriminate H200 ].

(** What a callback that answers 200 has done. *)
Lemma callback_success_row {platform : Platform} (config : LinkedInConfig)
  (env : Env) (request : Request) (st st' : State) (reply : Reply) :
  linkedInCallback config env request st = (Ok reply, st') ->
  status reply = 200 ->
  exists user tokenData seconds row,
    fst (decode_state (text (query_state request)) st) = Ok (inr (JString user))
    /\ fst (exchangeLinkedInCode config env (text (query_code request)) st)
       = Ok tokenData
    /\ as_number (td_expiresIn tokenData) = Ok seconds
    /\ as_string (td_accessToken tokenData) = Ok (op_accessToken row)
    /\ connection_of st' user linkedin = Some row
    /\ op_scopes row = Some recorded_scopes
    /\ op_tokenExpiresAt row = Some (clock_now env + seconds * 1000)%Z.
Proof.
  intros Hrun H200. revert Hrun.
  unfold linkedInCallback, try_catch, bind.
  destruct (missing (query_code request) || missing (query_state request))%bool;
    simpl; [callback_dead_end H200|].
  rewrite (stateless_run _ st (decode_state_stateless _)).
  destruct (fst (decode_state (text (query_state request)) st))
    as [[rejected|userId]|e|why] eqn:Hdecode; simpl;
    try callback_dead_end H200.
  { apply decode_state_rejects in Hdecode. subst rejected.
    intros [= <- <-]. discriminate H200. }
  rewrite (stateless_run _ st (exchangeLinkedInCode_stateless _ _ _)).
  destruct (fst (exchangeLinkedInCode config env (text (query_code request)) st))
    as [tokenData|e|why] eqn:Hexchange; simpl; try callback_dead_end H200.
  rewrite (stateless_run _ st (getLinkedInProfile_stateless _ _)).
  destruct (fst (getLinkedInProfile env (td_accessToken tokenData) st))
    as [profile|e|why]; simpl; try callback_dead_end H200.
  unfold lift.
  destruct (as_string userId) as [user|e|why] eqn:Huser; simpl;
    try callback_dead_end H200.
  apply as_string_Ok in Huser. subst userId.
  destruct (as_string (profile_id profile)) as [providerUserId'|e|why]; simpl;
    try callback_dead_end H200.
  destruct (as_string (td_accessToken tokenData)) as [accessToken'|e|why] eqn:Htoken;
    simpl; try callback_dead_end H200.
  destruct (as_optional_string (td_refreshToken tokenData)) as [refreshToken'|e|why];
    simpl; try callback_dead_end H200.
  destruct (as_number (td_expiresIn tokenData)) as [seconds|e|why] eqn:Hseconds;
    simpl; try callback_dead_end H200.
  match goal with
  | |- context [storeOAuthProvider env user linkedin ?d st] =>
      pose proof (storeOAuthProvider_stored_row env user linkedin d st) as Hrow;
      destruct (storeOAuthProvider env user linkedin d st) as [[stored|e|why] st1]
  end; simpl; try callback_dead_end H200.
  intros [= <- <-].
  destruct (Hrow st1 stored eq_refl) as (row & Hfind & Haccess & Hscopes & Hexpiry).
  exists user, tokenData, seconds, row. simpl in *.
  repeat (split; [first [reflexivity | assumption]|]).
  split; [rewrite Haccess; first [reflexivity | assumption]|].
  split; [exact Hfind|]. split; [exact Hscopes | exact Hexpiry].
Qed.

(** X5.  After a callback that answers 200, the status handler, asked
    by the user the state names, reports the connection: [connected] is
    true, the scopes are the four recorded ones, the expiry is the time
    of the callback plus the [expires_in] seconds of the token response,
    and [canPost] holds, and [needsRefresh] does not, exactly while the
    time of asking is before that expiry.  The status request changes
    nothing. *)
Theorem callback_then_status {platform : Platform} (config : LinkedInConfig)
  (env : Env) (request : Request) (st st' : State) (reply : Reply) :
  linkedInCallback config env request st = (Ok reply, st') ->
  status reply = 200 ->
  exists user tokenData seconds,
    fst (decode_state (text (query_state request)) st) = Ok (inr (JString user))
    /\ fst (exchangeLinkedInCode config env (text (query_code request)) st)
       = Ok tokenData
    /\ as_number (td_expiresIn tokenData) = Ok seconds
    /\ forall later asking,
         authenticated_user asking = Some user ->
         exists answer,
           linkedInStatus later asking st' = (Ok answer, st')
           /\ status answer = 200
           /\ data_field answer "connected" = JBool true
           /\ data_field answer "scopes" = JArray (map JString recorded_scopes)
           /\ data_field answer "expiresAt"
              = JDate (clock_now env + seconds * 1000)
           /\ data_field answer "canPost"
              = JBool (Z.ltb (clock_now later) (clock_now env + seconds * 1000))
           /\ data_field answer "needsRefresh"
              = JBool (Z.leb (clock_now env + seconds * 1000) (clock_now later)).
Proof.
  intros Hrun H200.
  destruct (callback_success_row config env request st st' reply Hrun H200)
    as (user & tokenData & seconds & row & Hdecode & Hexchange & Hseconds
        & _ & Hfind & Hscopes & Hexpiry).
  exists user, tokenData, seconds.
  repeat (split; [assumption|]).
  intros later asking Hauth.
  unfold linkedInStatus, try_catch, bind. rewrite Hauth.
  rewrite getOAuthProvider_reads, Hfind. unfold ret.
  rewrite Hscopes, Hexpiry. unfold isTokenExpired.
  cbn [optional_includes date_or_null strings_or_null].
  eexists. split; [reflexivity|].
  rewrite Z.geb_leb, Z.ltb_antisym.
  destruct (Z.leb (clock_now env + seconds * 1000) (clock_now later));
    repeat split; reflexivity.
Qed.

(** X6.  A 400 from the callback is an answer to its input alone: it is
    given only when [code] or [state] is missing or empty, or when the
    state does not decode (no JSON, or JSON [null]); the store and the
    log are as they were, and the answer is the same whatever the
    configuration and whatever the provider would have said. *)
Theorem callback_bad_request {platform : Platform} (config : LinkedInConfig)
  (env : Env) (request : Request) (st st' : State) (reply : Reply) :
  linkedInCallback config env request st = (Ok reply, st') ->
  status reply = 400 ->
  st' = st
  /\ (((missing (query_code request) || missing (query_state request))%bool = true
       /\ reply = missing_parameters)
      \/ ((missing (query_code request) || missing (query_state request))%bool = false
          /\ reply = invalid_state
          /\ forall decoded,
               JSON_parse (from_base64 (text (query_state request))) = Some decoded ->
               decoded = JNull \/ decoded = JUndefined))
  /\ forall config' env',
       linkedInCallback config' env' request st = (Ok reply, st).
Proof.
  intros Hrun H400.
  destruct (missing (query_code request) || missing (query_state request))%bool eqn:Hm.
  - assert (Hall : forall c e,
              linkedInCallback c e request st = (Ok missing_parameters, st)).
    { intros c e. unfold linkedInCallback, try_catch, bind. rewrite Hm. reflexivity. }
    rewrite Hall in Hrun. injection Hrun as <- <-.
    split; [reflexivity|]. split; [left; split; reflexivity | exact Hall].
  - pose proof Hm as Hm'. apply orb_false_iff in Hm'. destruct Hm' as [Hcode Hstate].
    pose proof (decode_state_cases (text (query_state request)) st) as Hd.
    assert (Hall : fst (decode_state (text (query_state request)) st)
                   = Ok (inl invalid_state) ->
                   forall c e, linkedInCallback c e request st = (Ok invalid_state, st)).
    { intros Hdecode c e. unfold linkedInCallback, try_catch, bind.
      rewrite Hm. simpl.
      rewrite (stateless_run _ st (decode_state_stateless _)), Hdecode.
      reflexivity. }
    destruct (JSON_parse (from_base64 (text (query_state request))))
      as [decoded|] eqn:Hparse.
    + destruct (js_get decoded "userId") as [userId|e|why] eqn:Hget.
      * exfalso.
        assert (Hdecode : fst (decode_state (text (query_state request)) st)
                          = Ok (inr userId)) by (rewrite Hd; reflexivity).
        destruct (callback_after_decode config env request userId st
                    Hcode Hstate Hdecode)
          as [(e & st1 & Hr & _)
             | [(why & Hr) | (r & st1 & user & row & t & p & Hr & H200 & _)]];
          rewrite Hr in Hrun.
        -- injection Hrun as <- <-. discriminate H400.
        -- discriminate Hrun.
        -- injection Hrun as <- <-. rewrite H200 in H400. discriminate H400.
      * assert (Hdecode : fst (decode_state (text (query_state request)) st)
                          = Ok (inl invalid_state)) by (rewrite Hd; reflexivity).
        rewrite (Hall Hdecode) in Hrun. injection Hrun as <- <-.
        split; [reflexivity|]. split; [|exact (Hall Hdecode)].
        right. split; [reflexivity|]. split; [reflexivity|].
        intros decoded' [= <-].
        destruct decoded; simpl in Hget; try discriminate; auto.
      * exfalso. unfold linkedInCallback, try_catch, bind in Hrun.
        rewrite Hm in Hrun. simpl in Hrun. rewrite Hd in Hrun. simpl in Hrun.
        discriminate Hrun.
    + assert (Hdecode : fst (decode_state (text (query_state request)) st)
                        = Ok (inl invalid_state)) by (rewrite Hd; reflexivity).
      rewrite (Hall Hdecode) in Hrun. injection Hrun as <- <-.
      split; [reflexivity|]. split; [|exact (Hall Hdecode)].
      right. split; [reflexivity|]. split; [reflexivity|].
      intros decoded' [=].
Qed.



(** X8.  What the callback tells the client when the provider refuses.
    A token endpoint that answers not-ok has its response body passed on
    word for word in [details] of the 500 reply (and in the log); a
    userinfo endpoint that answers not-ok gives the fixed text 'Failed to
    fetch LinkedIn profile', whatever its body.  Nothing is stored in
    either case. *)
Theorem callback_error_details {platform : Platform} (config : LinkedInConfig)
  (env : Env) (request : Request) (st : State) (userId : JsValue)
  (response : HttpResponse) :
  missing (query_code request) = false ->
  missing (query_state request) = false ->
  fst (decode_state (text (query_state request)) st) = Ok (inr userId) ->
  response_ok response = false ->
  (fetch env (token_request config (text (query_code request))) = Responded response ->
   let e := Error_ ("Failed to exchange code: " ++ response_body response) in
   linkedInCallback config env request st = (Ok (connect_failed e), add_log st e)
   /\ js_get (body (connect_failed e)) "details"
      = Ok (JString ("Failed to exchange code: " ++ response_body response)))
  /\ (forall tokenData accessToken,
        fst (exchangeLinkedInCode config env (text (query_code request)) st)
        = Ok tokenData ->
        td_accessToken tokenData = JString accessToken ->
        fetch env (userinfo_request accessToken) = Responded response ->
        let e := Error_ "Failed to fetch LinkedIn profile" in
        linkedInCallback config env request st = (Ok (connect_failed e), add_log st e)
        /\ js_get (body (connect_failed e)) "details"
           = Ok (JString "Failed to fetch LinkedIn profile")).
Proof.
  intros Hcode Hstate Hdecode Hrefused. split.
  - intros Hfetch. cbv zeta. split; [|reflexivity].
    unfold linkedInCallback, try_catch, bind. rewrite Hcode, Hstate. simpl.
    rewrite (stateless_run _ st (decode_state_stateless _)), Hdecode.
    unfold exchangeLinkedInCode, await_fetch, bind.
    unfold token_request in Hfetch. rewrite Hfetch. unfold ret.
    rewrite Hrefused. reflexivity.
  - intros tokenData accessToken Hexchange Haccess Hfetch. cbv zeta.
    split; [|reflexivity].
    unfold linkedInCallback, try_catch, bind. rewrite Hcode, Hstate. simpl.
    rewrite (stateless_run _ st (decode_state_stateless _)), Hdecode.
    rewrite (stateless_run _ st (exchangeLinkedInCode_stateless _ _ _)), Hexchange.
    unfold getLinkedInProfile, await_fetch, bind, lift. rewrite Haccess.
    cbn [template_text]. unfold userinfo_request in Hfetch. rewrite Hfetch.
    unfold ret. rewrite Hrefused. reflexivity.
Qed.

(** ** Disconnect and connect, seen from the other handlers *)

Lemma delete_connection_other (userId userId' : string) (provider provider' : Provider)
  (st : State) :
  (userId', provider') <> (userId, provider) ->
  connection_of (snd (delete_connection userId provider st)) userId' provider'
  = connection_of st userId' provider'.
Proof.
  intros Hother. rewrite delete_connection_runs. unfold connection_of. simpl.
  apply find_after_delete_other.
  intros r Hr. exact (same_connection_other _ _ _ _ r Hother Hr).
Qed.

(** X9.  A disconnect by a user whose id is the text of a uuid removes
    the LinkedIn connection of that user and nothing else: the users and
    the log are as they were, every other (user, provider) pair reads
    back as before, the status handler then answers that user with
    [connected: false], and answers every other user as it did
    before. *)
Theorem disconnect_touches_one_connection (request : Request) (userId : string)
  (st : State) :
  authenticated_user request = Some userId ->
  uuid_text userId = true ->
  let st' := snd (linkedInDisconnect request st) in
  users st' = users st
  /\ log st' = log st
  /\ (forall user provider,
        (user, provider) <> (userId, linkedin) ->
        getOAuthProvider user provider st'
        = (fst (getOAuthProvider user provider st), st'))
  /\ (forall env asking,
        authenticated_user asking = Some userId ->
        linkedInStatus env asking st' = (Ok not_connected, st'))
  /\ (forall env asking other,
        authenticated_user asking = Some other ->
        other <> userId ->
        fst (linkedInStatus env asking st') = fst (linkedInStatus env asking st)).
Proof.
  intros Hauth _. cbv zeta.
  rewrite (linkedInDisconnect_runs request userId st Hauth). cbn [snd].
  split; [reflexivity|]. split; [reflexivity|]. split; [|split].
  - intros user provider Hother. rewrite !getOAuthProvider_reads. cbn [fst].
    rewrite (delete_connection_other userId user linkedin provider st Hother).
    reflexivity.
  - intros env asking Hasking.
    unfold linkedInStatus, try_catch, bind. rewrite Hasking.
    rewrite getOAuthProvider_reads.
    assert (Hgone : connection_of (snd (delete_connection userId linkedin st))
                      userId linkedin = None).
    { rewrite delete_connection_runs. unfold connection_of. simpl.
      apply find_after_delete. }
    rewrite Hgone. reflexivity.
  - intros env asking other Hasking Hother.
    unfold linkedInStatus, try_catch, bind. rewrite Hasking.
    rewrite !getOAuthProvider_reads.
    rewrite (delete_connection_other userId other linkedin linkedin st)
      by congruence.
    destruct (connection_of st other linkedin); reflexivity.
Qed.

(** X10.  The state that [linkedInConnect] hands out brings the callback
    back to the user who asked for it.  Where base64 and JSON take the
    issued state object there and back, the state decodes to that user's
    id, and a callback that carries it and answers 200 has stored a
    connection for that user. *)
Theorem connect_then_callback {platform : Platform} (config : LinkedInConfig)
  (env : Env) (connecting : Request) (userId : string) (st : State) :
  authenticated_user connecting = Some userId ->
  let issued := JObject [("state", JString (generateRandomString env 32));
                         ("userId", JString userId)] in
  from_base64 (to_base64 (JSON_stringify issued)) = JSON_stringify issued ->
  JSON_parse (JSON_stringify issued) = Some issued ->
  exists answer state,
    linkedInConnect config env connecting st = (Ok answer, st)
    /\ data_field answer "state" = JString state
    /\ (forall st1, fst (decode_state state st1) = Ok (inr (JString userId)))
    /\ forall env' returning st1 reply st',
         query_state returning = Some state ->
         linkedInCallback config env' returning st1 = (Ok reply, st') ->
         status reply = 200 ->
         exists row,
           connection_of st' userId linkedin = Some row
           /\ op_scopes row = Some recorded_scopes.
Proof.
  intros Hauth issued Hbase64 Hjson.
  assert (Hdecode : forall st1,
            fst (decode_state (to_base64 (JSON_stringify issued)) st1)
            = Ok (inr (JString userId))).
  { intros st1.
    pose proof (decode_state_cases (to_base64 (JSON_stringify issued)) st1) as Hd.
    rewrite Hbase64, Hjson in Hd. subst issued. simpl in Hd.
    rewrite Hd. reflexivity. }
  eexists. exists (to_base64 (JSON_stringify issued)).
  split; [exact (linkedInConnect_runs config env connecting userId st Hauth)|].
  split; [reflexivity|]. split; [exact Hdecode|].
  intros env' returning st1 reply st' Hstate Hrun H200.
  destruct (callback_success_row config env' returning st1 st' reply Hrun H200)
    as (user & tokenData & seconds & row & Huser & _ & _ & _ & Hfind & Hscopes & _).
  rewrite Hstate in Huser. simpl in Huser. rewrite Hdecode in Huser.
  injection Huser as <-. exists row. split; assumption.
Qed.

(** ** Pre-handlers and routes *)

Lemma authenticate_runs {verifier : JwtVerifier} (env : Env)
  (authorization : option string) (request : Request) (st : State) :
  AuthMiddleware.authenticate env authorization request st
  = (Ok match jwt_verify authorization (clock_now env) with
        | Some payload => Next (with_user request (Some payload))
        | None => Sent invalid_token
        end, st).
Proof.
  unfold AuthMiddleware.authenticate, AuthMiddleware.jwtVerify, try_catch, bind.
  destruct (jwt_verify authorization (clock_now env)); reflexivity.
Qed.

Lemma authPreHandler_runs {verifier : JwtVerifier} (env : Env)
  (authorization : option string) (request : Request)
  (handler : Request -> M Reply) (st : State) :
  authPreHandler env authorization request handler st
  = match jwt_verify authorization (clock_now env) with
    | Some payload => handler (with_user request (Some payload)) st
    | None => (Ok invalid_token, st)
    end.
Proof.
  unfold authPreHandler, bind. rewrite authenticate_runs.
  destruct (jwt_verify authorization (clock_now env)); reflexivity.
Qed.

Lemma me_reads_only (request : Request) (st : State) :
  snd (AuthController.me request st) = st.
Proof.
  unfold AuthController.me, try_catch, bind.
  destruct (authenticated_user request) as [userId|]; [|reflexivity].
  rewrite getUserById_reads.
  destruct (find _ (users st)); reflexivity.
Qed.

(** The login handler writes nothing, not even to the log. *)
Lemma login_handler_reads_only {platform : Platform} (env : Env)
  (request : Request) (st : State) :
  snd (AuthController.login env request st) = st.
Proof.
  unfold AuthController.login, try_catch, bind, lift.
  destruct (zod_parse loginSchema (request_body request)) as [parsed|e|why] eqn:Hparse.
  - pose proof (login_reads_only (field "email" parsed) (field "password" parsed) st)
      as Hreads.
    destruct (AuthService.login (field "email" parsed) (field "password" parsed) st)
      as [[user|e|why] st1] eqn:Hlogin; simpl in Hreads; subst st1;
      [reflexivity| |reflexivity].
    assert (Hcause : LoginFailure st (field "email" parsed) (field "password" parsed)).
    { apply (login_throws_only_so st _ _ e). rewrite Hlogin. reflexivity. }
    destruct (login_fails st _ _ Hcause) as (e' & Hrun & Hclass & Hfailure).
    rewrite Hrun in Hlogin. injection Hlogin as <-.
    unfold instanceof_ZodError. rewrite Hclass, Hfailure. reflexivity.
  - unfold zod_parse in Hparse.
    destruct (request_body request); try (injection Hparse as <-; reflexivity).
    destruct (parse_fields loginSchema _) as [[|issue issues] parsed];
      [discriminate | injection Hparse as <-; reflexivity].
  - unfold zod_parse in Hparse.
    destruct (request_body request); try discriminate.
    destruct (parse_fields loginSchema _) as [[|issue issues] parsed]; discriminate.
Qed.

Lemma register_handler_consistent {platform : Platform} {schema : UsersSchema}
  (env : Env) (request : Request) (st : State) :
  consistent st -> consistent (snd (AuthController.register env request st)).
Proof.
  intros Hst.
  unfold AuthController.register, try_catch, bind, lift.
  destruct (zod_parse registerSchema (request_body request)) as [parsed|e|why].
  - pose proof (register_consistent env (field "email" parsed) (field "name" parsed)
                  (field "password" parsed) st Hst) as Hkept.
    destruct (AuthService.register env (field "email" parsed) (field "name" parsed)
                (field "password" parsed) st) as [[user|e|why] st1];
      simpl in Hkept; [exact Hkept| |exact Hkept].
    destruct (instanceof_ZodError e); [exact Hkept|].
    destruct (String.eqb (err_message e) _); [exact Hkept|].
    simpl. apply consistent_add_log. exact Hkept.
  - destruct (instanceof_ZodError e); [exact Hst|].
    destruct (String.eqb (err_message e) _); [exact Hst|].
    simpl. apply consistent_add_log. exact Hst.
  - exact Hst.
Qed.

(** X11.  The routes registered with the [authenticate] pre-handler
    answer 401 'Invalid or expired token' and touch nothing when the
    token is not accepted, whatever else the request holds.  With an
    accepted token they act for the user of the token: the users are as
    they were, and no connection other than that user's LinkedIn one is
    changed.  The other routes, the callback among them, do not look at
    the token. *)
Theorem route_guard {platform : Platform} {schema : UsersSchema}
  {verifier : JwtVerifier} (config : LinkedInConfig) (route : Route) (env : Env)
  (authorization : option string) (request : Request) (st : State) :
  (protected route = true ->
   jwt_verify authorization (clock_now env) = None ->
   serve config route env authorization request st = (Ok invalid_token, st))
  /\ (protected route = true ->
      forall payload,
        jwt_verify authorization (clock_now env) = Some payload ->
        let st' := snd (serve config route env authorization request st) in
        users st' = users st
        /\ forall user provider,
             (user, provider) <> (jwt_userId payload, linkedin) ->
             connection_of st' user provider = connection_of st user provider)
  /\ (protected route = false ->
      forall authorization',
        serve config route env authorization' request st
        = serve config route env authorization request st).
Proof.
  split; [|split].
  - intros Hprotected Hrefused.
    destruct route; try discriminate Hprotected; simpl;
      rewrite authPreHandler_runs, Hrefused; reflexivity.
  - intros Hprotected payload Haccepted. cbv zeta.
    destruct route; try discriminate Hprotected; simpl;
      rewrite authPreHandler_runs, Haccepted.
    + rewrite me_reads_only. split; reflexivity.
    + rewrite linkedInConnect_reads_only. split; reflexivity.
    + rewrite linkedInStatus_reads_only. split; reflexivity.
    + unfold linkedInDisconnect, try_catch, bind.
      unfold authenticated_user. cbn [with_user request_user].
      destruct (String.eqb (jwt_userId payload) ""); [split; reflexivity|].
      rewrite delete_connection_runs. cbn [snd]. split; [reflexivity|].
      intros user provider Hother.
      exact (delete_connection_other (jwt_userId payload) user linkedin provider
               st Hother).
  - intros Hpublic authorization'.
    destruct route; try discriminate Hpublic; reflexivity.
Qed.

(** X12.  The two pre-handlers.  [authenticate] sends its 401 exactly
    when the token is not accepted, and otherwise passes the request on
    with the payload of the token as its user.  [optionalAuthenticate]
    never sends a reply: it passes the request on with the payload as
    its user, or with no user when the token is not accepted, whatever
    user the request had.  Neither touches the store or the rest of the
    request. *)
Theorem pre_handlers {verifier : JwtVerifier} (env : Env)
  (authorization : option string) (request : Request) (st : State) :
  (exists hook,
     AuthMiddleware.authenticate env authorization request st = (Ok hook, st)
     /\ (hook = Sent invalid_token <-> jwt_verify authorization (clock_now env) = None)
     /\ (forall payload,
           jwt_verify authorization (clock_now env) = Some payload ->
           hook = Next (with_user request (Some payload))))
  /\ (exists request',
        AuthMiddleware.optionalAuthenticate env authorization request st
        = (Ok (Next request'), st)
        /\ request_user request' = jwt_verify authorization (clock_now env)
        /\ query_code request' = query_code request
        /\ query_state request' = query_state request
        /\ request_body request' = request_body request).
Proof.
  split.
  - eexists. split; [apply authenticate_runs|].
    destruct (jwt_verify authorization (clock_now env)) as [payload|].
    + split; [split; discriminate|]. intros payload' [= <-]. reflexivity.
    + split; [split; reflexivity|]. intros payload' [=].
  - unfold AuthMiddleware.optionalAuthenticate, AuthMiddleware.jwtVerify,
      try_catch, bind.
    destruct (jwt_verify authorization (clock_now env)) as [payload|];
      eexists; (split; [reflexivity|]); repeat split; reflexivity.
Qed.

(** X13.  Whatever is asked of whichever route, and however the request
    ends, the store satisfies the constraints of the schema afterwards
    if it did before. *)
Theorem serve_keeps_constraints {platform : Platform} {schema : UsersSchema}
  {verifier : JwtVerifier} (config : LinkedInConfig) (route : Route) (env : Env)
  (authorization : option string) (request : Request) (st : State) :
  consistent st ->
  consistent (snd (serve config route env authorization request st)).
Proof.
  intros Hst.
  destruct route; simpl; try rewrite authPreHandler_runs;
    try (destruct (jwt_verify authorization (clock_now env)) as [payload|];
         [|exact Hst]).
  - apply register_handler_consistent. exact Hst.
  - rewrite login_handler_reads_only. exact Hst.
  - rewrite me_reads_only. exact Hst.
  - rewrite linkedInConnect_reads_only. exact Hst.
  - apply linkedInCallback_consistent. exact Hst.
  - rewrite linkedInStatus_reads_only. exact Hst.
  - apply linkedInDisconnect_consistent. exact Hst.
Qed.

(** ** Registration, login and the user's own record *)

(** What the registration schema takes and what it refuses. *)
Lemma zod_parse_register {platform : Platform} (body : JsValue) :
  match zod_parse registerSchema body with
  | Ok parsed =>
      exists email name password,
        acceptable_registration body email name password
        /\ parsed = [("email", email); ("name", name); ("password", password)]
  | Throw e =>
      (exists issues, issues <> [] /\ e = mkError (ZodError issues) "")
      /\ forall email name password,
           ~ acceptable_registration body email name password
  | Unmodelled _ => False
  end.
Proof.
  unfold zod_parse.
  destruct body as [| | | | | | |fields];
    try (split; [eexists; split; [|reflexivity]; discriminate
                |intros email name password (fields & Hbody & _); discriminate]).
  unfold registerSchema. cbn [parse_fields failed_checks failed_check].
  destruct (own_property "email" fields) as [| | | |email| | |] eqn:He;
  destruct (own_property "name" fields) as [| | | |name| | |] eqn:Hn;
  destruct (own_property "password" fields) as [| | | |password| | |] eqn:Hp;
    repeat match goal with
           | |- context [zod_is_email ?text] =>
               destruct (zod_is_email text) eqn:?
           | |- context [Nat.ltb ?n ?m] =>
               destruct (Nat.ltb_spec n m)
           end;
    cbn [app];
    try (split; [eexists; split; [|reflexivity]; discriminate
                |intros email' name' password'
                   (fields' & Hbody & He' & Hn' & Hp' & Hemail' & Hname' & Hpassword');
                 injection Hbody as <-;
                 rewrite He in He'; rewrite Hn in Hn'; rewrite Hp in Hp';
                 try discriminate;
                 injection He' as <-; injection Hn' as <-; injection Hp' as <-;
                 first [congruence | lia]]).
  exists email, name, password. split; [|reflexivity].
  exists fields. repeat split; assumption.
Qed.

(** X14.  Registration validates before anything else.  The handler
    answers 400 'Validation Error' exactly when the body is not an
    object with a string [email] that is an e-mail address, a string
    [name] of at least 2 and a string [password] of at least 8 code
    units; a 400 is a 'Validation Error' and leaves the store and the
    log as they were. *)
Theorem register_validation {platform : Platform} {schema : UsersSchema}
  (env : Env) (request : Request) (st st' : State) (reply : Reply) :
  AuthController.register env request st = (Ok reply, st') ->
  (status reply = 400
   <-> forall email name password,
         ~ acceptable_registration (request_body request) email name password)
  /\ (status reply = 400 ->
      st' = st /\ js_get (body reply) "error" = Ok (JString "Validation Error")).
Proof.
  unfold AuthController.register, try_catch, bind, lift.
  pose proof (zod_parse_register (request_body request)) as Hparse.
  destruct (zod_parse registerSchema (request_body request)) as [parsed|e|why];
    [| |contradiction].
  - destruct Hparse as (email & name & password & Hok & ->).
    assert (Hnot : forall r s, (Ok r, s) = (Ok reply, st') -> status r <> 400 ->
              (status reply = 400
               <-> forall email name password,
                     ~ acceptable_registration (request_body request) email name password)
              /\ (status reply = 400 ->
                  st' = st
                  /\ js_get (body reply) "error" = Ok (JString "Validation Error"))).
    { intros r s [= <- <-] Hne. split; [split|]; try contradiction.
      intros Hnone. exfalso. exact (Hnone email name password Hok). }
    cbn [field String.eqb Ascii.eqb Bool.eqb].
    destruct (AuthService.register env email name password st)
      as [[user|e|why] st1] eqn:Hregister.
    + intros Hrun. apply (Hnot _ _ Hrun). discriminate.
    + assert (Hclass : instanceof_ZodError e = None).
      { revert Hregister.
        unfold AuthService.register, bind, get_state. simpl.
        destruct (Nat.ltb 0 _); simpl; [intros [= <- _]; reflexivity|].
        unfold AuthService.hashPassword, ret, insert_user. simpl.
        destruct (user_insert_violation st _); [intros [= <- _]; reflexivity|].
        discriminate. }
      rewrite Hclass.
      destruct (String.eqb (err_message e) _); simpl;
        intros Hrun; apply (Hnot _ _ Hrun); discriminate.
    + discriminate.
  - destruct Hparse as ((issues & Hsome & ->) & Hnone).
    simpl. intros [= <- <-].
    split; [split; [intros _; exact Hnone | reflexivity]|].
    intros _. split; reflexivity.
Qed.

(** X15.  An e-mail is registered once.  For a body that validates and
    an e-mail some user already has, [register] throws 'User with this
    email already exists' before any hashing or insert, and the handler
    answers 409 with that message; the store and the log are as they
    were. *)
Theorem register_duplicate_email {platform : Platform} {schema : UsersSchema}
  (env : Env) (request : Request) (st : State) (email name password : string)
  (existing : User) :
  acceptable_registration (request_body request) email name password ->
  user_by_email st email = Some existing ->
  AuthService.register env email name password st
  = (Throw (Error_ "User with this email already exists"), st)
  /\ AuthController.register env request st = (Ok email_taken, st).
Proof.
  intros Hok Htaken.
  assert (Hservice : AuthService.register env email name password st
                     = (Throw (Error_ "User with this email already exists"), st)).
  { unfold AuthService.register, bind, get_state. simpl.
    unfold user_by_email in Htaken. rewrite <- select_one_find in Htaken.
    destruct (select_where _ 1 (users st)) as [|found rest]; [discriminate|].
    reflexivity. }
  split; [exact Hservice|].
  unfold AuthController.register, try_catch, bind, lift.
  pose proof (zod_parse_register (request_body request)) as Hparse.
  destruct (zod_parse registerSchema (request_body request)) as [parsed|e|why];
    [| |contradiction].
  - destruct Hparse as (email' & name' & password' & Hok' & ->).
    destruct Hok as (fields & Hbody & He & Hn & Hp & _).
    destruct Hok' as (fields' & Hbody' & He' & Hn' & Hp' & _).
    rewrite Hbody in Hbody'. injection Hbody' as <-.
    rewrite He in He'. rewrite Hn in Hn'. rewrite Hp in Hp'.
    injection He' as <-. injection Hn' as <-. injection Hp' as <-.
    cbn [field String.eqb Ascii.eqb Bool.eqb].
    rewrite Hservice. reflexivity.
  - exfalso. destruct Hparse as (_ & Hnone). exact (Hnone _ _ _ Hok).
Qed.

(** X16.  A login succeeds with exactly one combination: the e-mail is
    that of a stored user (the first with it), that user has a password
    hash that is not empty, and bcrypt accepts the password for the
    hash; the result is then that user.  A login never writes. *)
Theorem login_succeeds_exactly {platform : Platform} (st : State)
  (email password : string) (user : User) :
  snd (AuthService.login email password st) = st
  /\ (fst (AuthService.login email password st) = Ok user
      <-> user_by_email st email = Some user
          /\ exists hash,
               u_passwordHash user = Some hash
               /\ hash <> ""
               /\ bcrypt_compare password hash = true).
Proof.
  split; [apply login_reads_only|].
  unfold AuthService.login, bind, get_state, user_by_email. simpl.
  rewrite <- select_one_find.
  destruct (select_where (fun u => String.eqb (u_email u) email) 1 (users st))
    as [|found rest]; simpl.
  { split; [discriminate | intros [H _]; discriminate]. }
  destruct (u_passwordHash found) as [hash|] eqn:Hhash.
  - destruct (String.eqb_spec hash "") as [->|Hne]; simpl.
    + split; [discriminate|].
      intros [[= <-] (hash & Hh & Hne & _)]. congruence.
    + unfold AuthService.verifyPassword, ret. simpl.
      destruct (bcrypt_compare password hash) eqn:Hverify; simpl.
      * split.
        -- intros [= <-]. split; [reflexivity|]. exists hash. repeat split; assumption.
        -- intros [[= <-] _]. reflexivity.
      * split; [discriminate|].
        intros [[= <-] (hash' & Hh & _ & Hv)]. congruence.
  - simpl. split; [discriminate|].
    intros [[= <-] (hash & Hh & _)]. congruence.
Qed.

Lemma existsb_false_find {A} (p : A -> bool) (t : list A) :
  existsb p t = false -> find p t = None.
Proof.
  induction t as [|r t IH]; simpl; [reflexivity|].
  destruct (p r); [discriminate | exact IH].
Qed.

(** What a registration that succeeds has done. *)
Lemma register_stores {platform : Platform} {schema : UsersSchema}
  (env : Env) (email name password : string) (st st' : State) (user : User) :
  AuthService.register env email name password st = (Ok user, st') ->
  st' = set_users st (users st ++ [user])%list
  /\ find (fun u => String.eqb (u_id u) (u_id user)) (users st) = None
  /\ find (fun u => String.eqb (u_email u) email) (users st) = None
  /\ u_email user = email
  /\ u_name user = name
  /\ u_passwordHash user
     = Some (bcrypt_hash password AuthService.SALT_ROUNDS (bcrypt_salt env)).
Proof.
  unfold AuthService.register, bind, get_state. simpl.
  destruct (Nat.ltb 0 _); simpl; [discriminate|].
  unfold AuthService.hashPassword, ret, insert_user, user_insert_violation. simpl.
  destruct (existsb (fun u' => String.eqb (u_id u') (db_random_uuid env)) (users st))
    eqn:E1; [discriminate|].
  destruct (existsb (fun u' => String.eqb (u_email u') email) (users st))
    eqn:E2; [discriminate|].
  destruct (negb _); [discriminate|].
  intros [= <- <-].
  apply existsb_false_find in E1. apply existsb_false_find in E2.
  repeat split; assumption.
Qed.

(** X17.  A registration that succeeds can be looked up both ways: by
    the id and by the e-mail of the user it returns, [getUserById] and
    [getUserByEmail] give that user, where before they gave nobody.
    Lookups of every other id and e-mail answer as before, and the
    connections are untouched.  What is stored of the password is its
    bcrypt hash. *)
Theorem register_then_lookups {platform : Platform} {schema : UsersSchema}
  (env : Env) (email name password : string) (st st' : State) (user : User) :
  AuthService.register env email name password st = (Ok user, st') ->
  AuthService.getUserById (u_id user) st' = (Ok (Some user), st')
  /\ AuthService.getUserByEmail email st' = (Ok (Some user), st')
  /\ AuthService.getUserById (u_id user) st = (Ok None, st)
  /\ AuthService.getUserByEmail email st = (Ok None, st)
  /\ (forall other, other <> u_id user ->
        fst (AuthService.getUserById other st')
        = fst (AuthService.getUserById other st))
  /\ (forall other, other <> email ->
        fst (AuthService.getUserByEmail other st')
        = fst (AuthService.getUserByEmail other st))
  /\ oauthProviders st' = oauthProviders st
  /\ u_passwordHash user
     = Some (bcrypt_hash password AuthService.SALT_ROUNDS (bcrypt_salt env)).
Proof.
  intros Hrun.
  destruct (register_stores env email name password st st' user Hrun)
    as (-> & Hid & Hemail & Huser & _ & Hhash).
  rewrite !getUserById_reads, !getUserByEmail_reads. unfold user_by_email.
  cbn [users set_users oauthProviders].
  rewrite Hid, Hemail.
  rewrite (find_app_none _ _ _ Hid), (find_app_none _ _ _ Hemail).
  rewrite Huser, !String.eqb_refl.
  repeat (split; [reflexivity|]).
  split; [|split; [|split; [reflexivity | exact Hhash]]].
  - intros other Hother. rewrite !getUserById_reads. cbn [fst users set_users].
    f_equal. apply find_app_other. apply String.eqb_neq. congruence.
  - intros other Hother. rewrite !getUserByEmail_reads. unfold user_by_email.
    cbn [fst users set_users].
    f_equal. apply find_app_other. apply String.eqb_neq. congruence.
Qed.

(** X18.  [updatePreferences] merges and touches one user.  The id is
    the text of a uuid.  For an id
    nobody has it throws 'User not found' and writes nothing.  For a
    user's id it returns the row as stored: a preference key the patch
    does not name keeps its value, a key it names takes the value of the
    patch; id, e-mail, name, password hash and creation time are kept,
    [updatedAt] is the time of the call; every other user and every
    connection is as before. *)
Theorem updatePreferences_merges (env : Env) (userId : string)
  (patch : PreferencesPatch) (st : State) :
  uuid_text userId = true ->
  match fst (AuthService.getUserById userId st) with
  | Ok None =>
      AuthService.updatePreferences env userId patch st
      = (Throw (Error_ "User not found"), st)
  | Ok (Some before) =>
      exists after st',
        AuthService.updatePreferences env userId patch st = (Ok (Some after), st')
        /\ AuthService.getUserById userId st' = (Ok (Some after), st')
        /\ u_preferences after = AuthService.spread_preferences (u_preferences before) patch
        /\ (patch_tone patch = None ->
            tone (u_preferences after) = tone (u_preferences before))
        /\ (forall value, patch_tone patch = Some value ->
            tone (u_preferences after) = value)
        /\ u_id after = u_id before
        /\ u_email after = u_email before
        /\ u_name after = u_name before
        /\ u_passwordHash after = u_passwordHash before
        /\ u_createdAt after = u_createdAt before
        /\ u_updatedAt after = clock_now env
        /\ oauthProviders st' = oauthProviders st
        /\ List.length (users st') = List.length (users st)
        /\ forall other, other <> userId ->
             fst (AuthService.getUserById other st')
             = fst (AuthService.getUserById other st)
  | _ => False
  end.
Proof.
  intros _. rewrite getUserById_reads. cbn [fst].
  destruct (find (fun u => String.eqb (u_id u) userId) (users st)) as [before|] eqn:Hfind.
  - destruct (find_some_in _ _ _ Hfind) as [Hin Hid]. apply String.eqb_eq in Hid.
    set (after := AuthService.with_preferences env
                    (AuthService.spread_preferences (u_preferences before) patch)
                    before).
    set (table := map (fun u => if String.eqb (u_id u) userId
                                then AuthService.with_preferences env
                                       (AuthService.spread_preferences
                                          (u_preferences before) patch) u
                                else u) (users st)).
    assert (Hrun : AuthService.updatePreferences env userId patch st
                   = (Ok (Some after), set_users st table)).
    { unfold AuthService.updatePreferences, bind, get_state. simpl.
      pose proof Hfind as Hsel. rewrite <- select_one_find in Hsel.
      destruct (select_where (fun u => String.eqb (u_id u) userId) 1 (users st))
        as [|user rest]; [discriminate|].
      injection Hsel as ->.
      unfold update_where, put_state, ret. simpl.
      rewrite returning_first, Hfind. reflexivity. }
    exists after, (set_users st table). split; [exact Hrun|]. split.
    + rewrite getUserById_reads. unfold table. cbn [users set_users].
      rewrite (find_after_update (fun u => String.eqb (u_id u) userId))
        by reflexivity.
      rewrite Hfind. cbn [option_map]. rewrite Hid, String.eqb_refl. reflexivity.
    + split; [reflexivity|].
      split; [intros Hnone; unfold after; simpl; rewrite Hnone; reflexivity|].
      split; [intros value Hsome; unfold after; simpl; rewrite Hsome; reflexivity|].
      repeat (split; [reflexivity|]).
      split; [unfold table; apply length_map|].
      intros other Hother. rewrite !getUserById_reads. unfold table.
      cbn [fst users set_users]. f_equal.
      rewrite (find_after_update (fun u => String.eqb (u_id u) other))
        by reflexivity.
      destruct (find (fun u => String.eqb (u_id u) other) (users st)) as [x|] eqn:Hx;
        [|reflexivity].
      simpl. destruct (find_some_in _ _ _ Hx) as [_ Hxid].
      apply String.eqb_eq in Hxid.
      destruct (String.eqb_spec (u_id x) userId); [congruence | reflexivity].
  - unfold AuthService.updatePreferences, bind, get_state. simpl.
    apply select_one_nil in Hfind. rewrite Hfind. reflexivity.
Qed.

(** X19.  [me] shows the caller their own record and nothing of the
    password.  For a request authenticated for an id that is the text of
    a uuid it answers 404 'User not
    found' exactly when no user has the id of the token, and otherwise
    200 with the id, e-mail and name of that user; the reply has no
    [passwordHash], and the store is as it was. *)
Theorem me_shows_own_record (request : Request) (userId : string) (st : State) :
  authenticated_user request = Some userId ->
  uuid_text userId = true ->
  exists reply,
    AuthController.me request st = (Ok reply, st)
    /\ (reply = user_not_found <-> ~ In userId (map u_id (users st)))
    /\ (In userId (map u_id (users st)) ->
        status reply = 200
        /\ data_field reply "id" = JString userId
        /\ exists user,
             fst (AuthService.getUserById userId st) = Ok (Some user)
             /\ data_field reply "email" = JString (u_email user)
             /\ data_field reply "name" = JString (u_name user)
             /\ data_field reply "createdAt" = JDate (u_createdAt user)
             /\ data_field reply "passwordHash" = JUndefined).
Proof.
  intros Hauth _.
  unfold AuthController.me, try_catch, bind. rewrite Hauth.
  rewrite !getUserById_reads. cbn [fst].
  destruct (find (fun u => String.eqb (u_id u) userId) (users st)) as [user|] eqn:Hfind.
  - destruct (find_some_in _ _ _ Hfind) as [Hin Hid]. apply String.eqb_eq in Hid.
    assert (Hknown : In userId (map u_id (users st))).
    { rewrite <- Hid. apply in_map. exact Hin. }
    eexists. split; [reflexivity|]. split.
    + split; [discriminate | intros Hnot; contradiction].
    + intros _. split; [reflexivity|]. split; [rewrite <- Hid; reflexivity|].
      exists user. repeat split; reflexivity.
  - eexists. split; [reflexivity|]. split.
    + split; [|reflexivity]. intros _ Hknown.
      apply (existsb_eqb_in u_id) in Hknown.
      rewrite (existsb_find_none _ _ Hfind) in Hknown. discriminate.
    + intros Hknown. exfalso.
      apply (existsb_eqb_in u_id) in Hknown.
      rewrite (existsb_find_none _ _ Hfind) in Hknown. discriminate.
Qed.

(** X20.  From registration to [me].  A registration answered 201 has
    stored a user, shows that user's id, e-mail, name and creation time,
    and has signed a token for that user's id and e-mail; a
    later request to [GET /auth/me] whose token the verifier accepts
    for that payload is answered 200 with the id, e-mail and name that
    were registered, and changes nothing. *)
Theorem register_then_me {platform : Platform} {schema : UsersSchema}
  {verifier : JwtVerifier} (config : LinkedInConfig) (env : Env)
  (registration : Request) (st st' : State) (reply : Reply) :
  AuthController.register env registration st = (Ok reply, st') ->
  status reply = 201 ->
  exists user password,
    acceptable_registration (request_body registration)
      (u_email user) (u_name user) password
    /\ data_field reply "user"
       = JObject [("id", JString (u_id user));
                  ("email", JString (u_email user));
                  ("name", JString (u_name user));
                  ("createdAt", JDate (u_createdAt user))]
    /\ data_field reply "token"
       = JString (jwt_sign {| jwt_userId := u_id user; jwt_email := u_email user |}
                    (clock_now env))
    /\ forall env' authorization request,
         jwt_verify authorization (clock_now env')
         = Some {| jwt_userId := u_id user; jwt_email := u_email user |} ->
         u_id user <> "" ->
         exists answer,
           serve config GET_auth_me env' authorization request st' = (Ok answer, st')
           /\ status answer = 200
           /\ data_field answer "id" = JString (u_id user)
           /\ data_field answer "email" = JString (u_email user)
           /\ data_field answer "name" = JString (u_name user).
Proof.
  unfold AuthController.register, try_catch, bind, lift.
  pose proof (zod_parse_register (request_body registration)) as Hparse.
  destruct (zod_parse registerSchema (request_body registration)) as [parsed|e|why];
    [| |contradiction].
  2:{ destruct Hparse as ((issues & _ & ->) & _). simpl.
      intros [= <- <-]. discriminate. }
  destruct Hparse as (email & name & password & Hok & ->).
  cbn [field String.eqb Ascii.eqb Bool.eqb].
  destruct (AuthService.register env email name password st)
    as [[user|e|why] st1] eqn:Hregister; [| |discriminate].
  2:{ destruct (instanceof_ZodError e); [intros [= <- <-]; discriminate|].
      destruct (String.eqb (err_message e) _); simpl;
        intros [= <- <-]; discriminate. }
  intros [= <- <-] _.
  destruct (register_stores env email name password st st1 user Hregister)
    as (-> & Hid & _ & Hemail & Hname & _).
  exists user, password. rewrite Hemail, Hname.
  split; [exact Hok|].
  split; [rewrite <- Hemail, <- Hname; reflexivity|].
  split; [rewrite <- Hemail; reflexivity|].
  intros env' authorization request Haccepted Hnonempty.
  simpl. rewrite authPreHandler_runs, Haccepted.
  unfold AuthController.me, try_catch, bind, authenticated_user.
  cbn [with_user request_user jwt_userId].
  apply String.eqb_neq in Hnonempty. rewrite Hnonempty.
  rewrite getUserById_reads. cbn [users set_users].
  rewrite (find_app_none _ _ _ Hid), String.eqb_refl.
  eexists. split; [reflexivity|].
  rewrite <- Hemail, <- Hname. repeat split; reflexivity.
Qed.

(** X25.  The login handler always answers, and with one of three
    replies: 200 with the id, e-mail and name of a stored user and a
    token signed for that user's id and e-mail, 401 'Invalid email or
    password', or 400 'Validation Error'.  It never answers 500, and it
    writes nothing, not even to the log. *)
Theorem login_handler_answers {platform : Platform} (env : Env)
  (request : Request) (st : State) :
  exists reply,
    AuthController.login env request st = (Ok reply, st)
    /\ (reply = invalid_credentials
        \/ (status reply = 400
            /\ js_get (body reply) "error" = Ok (JString "Validation Error"))
        \/ (status reply = 200
            /\ exists user,
                 In user (users st)
                 /\ data_field reply "user"
                    = JObject [("id", JString (u_id user));
                               ("email", JString (u_email user));
                               ("name", JString (u_name user))]
                 /\ data_field reply "token"
                    = JString (jwt_sign {| jwt_userId := u_id user;
                                           jwt_email := u_email user |}
                                 (clock_now env)))).
Proof.
  unfold AuthController.login, try_catch, bind, lift.
  destruct (zod_parse loginSchema (request_body request)) as [parsed|e|why] eqn:Hparse.
  - pose proof (login_reads_only (field "email" parsed) (field "password" parsed) st)
      as Hreads.
    destruct (AuthService.login (field "email" parsed) (field "password" parsed) st)
      as [[user|e|why] st1] eqn:Hlogin; simpl in Hreads; subst st1.
    + eexists. split; [reflexivity|]. right. right. split; [reflexivity|].
      exists user. split; [|split; reflexivity].
      assert (Hfound : user_by_email st (field "email" parsed) = Some user).
      { revert Hlogin. unfold AuthService.login, bind, get_state, user_by_email. simpl.
        rewrite <- select_one_find.
        destruct (select_where _ 1 (users st)) as [|found rest]; [discriminate|].
        destruct (u_passwordHash found) as [hash|]; [|discriminate].
        destruct (String.eqb hash ""); [discriminate|].
        unfold AuthService.verifyPassword, ret. simpl.
        destruct (bcrypt_compare _ hash); simpl; [|discriminate].
        intros [= <-]. reflexivity. }
      exact (proj1 (find_some_in _ _ _ Hfound)).
    + assert (Hcause : LoginFailure st (field "email" parsed) (field "password" parsed)).
      { apply (login_throws_only_so st _ _ e). rewrite Hlogin. reflexivity. }
      destruct (login_fails st _ _ Hcause) as (e' & Hrun & Hclass & Hfailure).
      rewrite Hrun in Hlogin. injection Hlogin as <-.
      unfold instanceof_ZodError. rewrite Hclass, Hfailure.
      eexists. split; [reflexivity|]. left. reflexivity.
    + exfalso. revert Hlogin. unfold AuthService.login, bind, get_state. simpl.
      destruct (select_where _ 1 (users st)) as [|found rest]; [discriminate|].
      destruct (u_passwordHash found) as [hash|]; [|discriminate].
      destruct (String.eqb hash ""); [discriminate|].
      unfold AuthService.verifyPassword, ret. simpl.
      destruct (bcrypt_compare _ hash); discriminate.
  - unfold zod_parse in Hparse.
    destruct (request_body request);
      try (injection Hparse as <-; eexists; split; [reflexivity|];
           right; left; split; reflexivity).
    destruct (parse_fields loginSchema _) as [[|issue issues] parsed];
      [discriminate|].
    injection Hparse as <-. eexists. split; [reflexivity|].
    right. left. split; reflexivity.
  - exfalso. unfold zod_parse in Hparse.
    destruct (request_body request); try discriminate.
    destruct (parse_fields loginSchema _) as [[|issue issues] parsed]; discriminate.
Qed.

(** ** The provider's answers *)

(** X21.  The name of a profile.  When the userinfo payload has a
    truthy [name], that is the profile's name.  Otherwise the name is
    [given_name], a space and [family_name], each as a template literal
    prints it: a payload with none of the three gives the name
    'undefined undefined'. *)
Theorem profile_name_fallback {platform : Platform} (env : Env)
  (accessToken : string) (response : HttpResponse)
  (fields : list (string * JsValue)) (st : State) :
  fetch env (userinfo_request accessToken) = Responded response ->
  response_ok response = true ->
  JSON_parse (response_body response) = Some (JObject fields) ->
  let sub := own_property "sub" fields in
  let email := own_property "email" fields in
  let name := own_property "name" fields in
  (truthy name = true ->
   getLinkedInProfile env (JString accessToken) st
   = (Ok (mkProfile sub email name), st))
  /\ (truthy name = false ->
      forall given family,
        template_text (own_property "given_name" fields) = Ok given ->
        template_text (own_property "family_name" fields) = Ok family ->
        getLinkedInProfile env (JString accessToken) st
        = (Ok (mkProfile sub email (JString (given ++ " " ++ family))), st))
  /\ (name = JUndefined ->
      own_property "given_name" fields = JUndefined ->
      own_property "family_name" fields = JUndefined ->
      getLinkedInProfile env (JString accessToken) st
      = (Ok (mkProfile sub email (JString "undefined undefined")), st)).
Proof.
  intros Hfetch Hok Hjson. cbv zeta.
  assert (Hrun : forall st,
            getLinkedInProfile env (JString accessToken) st
            = if truthy (own_property "name" fields)
              then (Ok (mkProfile (own_property "sub" fields)
                          (own_property "email" fields)
                          (own_property "name" fields)), st)
              else match template_text (own_property "given_name" fields),
                         template_text (own_property "family_name" fields) with
                   | Ok given, Ok family =>
                       (Ok (mkProfile (own_property "sub" fields)
                              (own_property "email" fields)
                              (JString (given ++ " " ++ family))), st)
                   | Ok _, Throw e => (Throw e, st)
                   | Ok _, Unmodelled why => (Unmodelled why, st)
                   | Throw e, _ => (Throw e, st)
                   | Unmodelled why, _ => (Unmodelled why, st)
                   end).
  { intros st0. unfold getLinkedInProfile, await_fetch, bind, lift.
    cbn [template_text]. unfold userinfo_request in Hfetch. rewrite Hfetch.
    unfold ret. rewrite Hok. cbn [negb]. unfold response_json. rewrite Hjson.
    unfold ret. cbn [js_get].
    destruct (truthy (own_property "name" fields)); [reflexivity|].
    destruct (template_text (own_property "given_name" fields)); [|reflexivity..].
    destruct (template_text (own_property "family_name" fields)); reflexivity. }
  split; [|split].
  - intros Htruthy. rewrite Hrun, Htruthy. reflexivity.
  - intros Hfalsy given family Hgiven Hfamily.
    rewrite Hrun, Hfalsy, Hgiven, Hfamily. reflexivity.
  - intros Hname Hgiven Hfamily.
    rewrite Hrun, Hname, Hgiven, Hfamily. reflexivity.
Qed.

(** X22.  [refreshLinkedInToken] asks and tells, and stores nothing.
    It posts the refresh token with the client's id and secret; a
    provider that answers not-ok gives 'Failed to refresh token'
    whatever the body of the answer, one that answers ok with a JSON
    object gives that object's [access_token] and [expires_in], and a
    request that fails gives its own error.  In every case the store is
    as it was: the new token is not recorded by this call. *)
Theorem refreshLinkedInToken_outcomes {platform : Platform} (config : LinkedInConfig)
  (env : Env) (refreshToken : string) (st : State) :
  snd (refreshLinkedInToken config env refreshToken st) = st
  /\ match fetch env (refresh_request config refreshToken) with
     | Rejected e =>
         refreshLinkedInToken config env refreshToken st = (Throw e, st)
     | Responded response =>
         if response_ok response then
           forall fields,
             JSON_parse (response_body response) = Some (JObject fields) ->
             refreshLinkedInToken config env refreshToken st
             = (Ok (mkRefreshedToken (own_property "access_token" fields)
                      (own_property "expires_in" fields)), st)
         else
           refreshLinkedInToken config env refreshToken st
           = (Throw (Error_ "Failed to refresh token"), st)
     end.
Proof.
  unfold refreshLinkedInToken, await_fetch, bind, lift, refresh_request.
  destruct (fetch env _) as [response|e]; [|split; reflexivity].
  unfold ret. destruct (response_ok response); cbn [negb]; [|split; reflexivity].
  unfold response_json.
  destruct (JSON_parse (response_body response)) as [data|].
  - unfold ret. split.
    + destruct data; reflexivity.
    + intros fields [= ->]. reflexivity.
  - split; [reflexivity | discriminate].
Qed.

(** ** Utilities and configuration *)

Lemma length_slice_from_start (text : CodeUnits) (end_ : Z) :
  Z.of_nat (List.length (slice_from_start text end_))
  = (if (end_ <? 0)%Z
     then Z.max (Z.of_nat (List.length text) + end_) 0
     else Z.min end_ (Z.of_nat (List.length text)))%Z.
Proof.
  unfold slice_from_start. rewrite length_firstn.
  destruct (Z.ltb_spec end_ 0); lia.
Qed.

(** X23.  [truncate] keeps to its limit only from 3 on.  A text within
    the limit is returned as it is.  A longer one becomes a prefix of
    the text followed by '...', and the result is within the limit
    exactly when the limit is at least 3, where its length is the limit;
    for a smaller limit the result is longer than the limit. *)
Theorem truncate_limit (text : CodeUnits) (maxLength : Z) :
  let length_of (t : CodeUnits) := Z.of_nat (List.length t) in
  ((length_of text <= maxLength)%Z -> truncate text maxLength = text)
  /\ ((maxLength < length_of text)%Z ->
      (exists kept rest,
         text = (kept ++ rest)%list
         /\ truncate text maxLength = (kept ++ ellipsis)%list)
      /\ ((length_of (truncate text maxLength) <= maxLength)%Z <-> (3 <= maxLength)%Z)
      /\ ((3 <= maxLength)%Z -> length_of (truncate text maxLength) = maxLength)).
Proof.
  cbv zeta. unfold truncate. split.
  - intros Hfits. apply Z.leb_le in Hfits. rewrite Hfits. reflexivity.
  - intros Hlong. pose proof Hlong as Hcase. apply Z.leb_gt in Hcase. rewrite Hcase.
    split.
    + exists (slice_from_start text (maxLength - 3)).
      unfold slice_from_start. eexists.
      split; [symmetry; apply firstn_skipn | reflexivity].
    + rewrite length_app, Nat2Z.inj_add, length_slice_from_start.
      change (Z.of_nat (List.length ellipsis)) with 3%Z.
      destruct (Z.ltb_spec (maxLength - 3) 0); split; try split; lia.
Qed.

Lemma validateConfig_filter (process_env : string -> option string) :
  filter (fun key => missing (process_env key)) ["JWT_SECRET"; "ANTHROPIC_API_KEY"]
  = ((if missing (process_env "JWT_SECRET") then ["JWT_SECRET"] else [])
     ++ (if missing (process_env "ANTHROPIC_API_KEY") then ["ANTHROPIC_API_KEY"] else []))%list.
Proof.
  cbn [filter].
  destruct (missing (process_env "JWT_SECRET"));
    destruct (missing (process_env "ANTHROPIC_API_KEY")); reflexivity.
Qed.

(** X24.  [validateConfig] objects only in production.  It returns
    normally exactly when [NODE_ENV] is not 'production' or both
    [JWT_SECRET] and [ANTHROPIC_API_KEY] are set to a text that is not
    empty; otherwise it throws an error whose message names the
    variables that are missing, in that order. *)
Theorem validateConfig_throws_exactly (process_env : string -> option string) :
  let unset key := missing (process_env key) in
  (validateConfig process_env = Ok tt
   <-> process_env "NODE_ENV" <> Some "production"
       \/ (unset "JWT_SECRET" = false /\ unset "ANTHROPIC_API_KEY" = false))
  /\ (process_env "NODE_ENV" = Some "production" ->
      validateConfig process_env
      = match unset "JWT_SECRET", unset "ANTHROPIC_API_KEY" with
        | true, true =>
            Throw (Error_ "Missing required environment variables: JWT_SECRET, ANTHROPIC_API_KEY")
        | true, false =>
            Throw (Error_ "Missing required environment variables: JWT_SECRET")
        | false, true =>
            Throw (Error_ "Missing required environment variables: ANTHROPIC_API_KEY")
        | false, false => Ok tt
        end).
Proof.
  cbv zeta. unfold validateConfig. cbv zeta. rewrite validateConfig_filter.
  destruct (process_env "NODE_ENV") as [mode|] eqn:Hmode.
  - destruct (String.eqb_spec mode "production") as [->|Hother].
    + destruct (missing (process_env "JWT_SECRET"));
        destruct (missing (process_env "ANTHROPIC_API_KEY")); simpl;
        (split; [split; [try discriminate; intros _; right; split; reflexivity
                        |intros [H|[H1 H2]]; try congruence; reflexivity]
                |intros _; reflexivity]).
    + rewrite Bool.andb_false_r.
      split; [split; [intros _; left; congruence | reflexivity]|].
      intros [= E]. contradiction.
  - rewrite Bool.andb_false_r.
    split; [split; [intros _; left; discriminate | reflexivity]|].
    discriminate.
Qed.

(** ** The further properties at work on concrete requests *)

Lemma both_connected_consistent : consistent Examples.both_connected.
Proof.
  split; simpl.
  - repeat constructor; simpl; intuition discriminate.
  - repeat constructor; simpl; intuition discriminate.
  - intros r [<-|[<-|[]]]; simpl; auto.
  - repeat constructor; simpl; intuition discriminate.
  - repeat constructor; simpl; intuition discriminate.
Qed.


(** The writes on a store with two users and two connections. *)
Lemma writes_keep_constraints_witness :
  consistent Examples.both_connected
  /\ consistent (snd (storeOAuthProvider Examples.provider_down Examples.alice_id
                        linkedin Examples.reconnect Examples.both_connected))
  /\ consistent (snd (AuthService.register (platform := Reference.platform)
                        (schema := Reference.schema) Examples.signup
                        "carol@b.com" "Carol" "password123" Examples.both_connected))
  /\ List.length (filter (same_connection Examples.alice_id linkedin)
                    (oauthProviders Examples.both_connected)) <= 1.
Proof.
  split; [exact both_connected_consistent|].
  destruct (writes_keep_constraints (platform := Reference.platform)
              (schema := Reference.schema) Examples.both_connected
              both_connected_consistent)
    as (Hstore & _ & Hregister & _ & Hone).
  split; [apply Hstore|]. split; [apply Hregister | apply Hone].
Defined.



(** Alice's callback, then her status request at the same hour. *)
Lemma callback_then_status_witness :
  exists reply st',
    linkedInCallback (platform := Reference.platform) default_config
      Examples.provider_up Examples.alice_callback Examples.unconnected
    = (Ok reply, st')
    /\ status reply = 200
    /\ exists answer,
         linkedInStatus Examples.provider_up Examples.alice_request st'
         = (Ok answer, st')
         /\ data_field answer "connected" = JBool true
         /\ data_field answer "expiresAt" = JDate 1705183999000
         /\ data_field answer "canPost" = JBool true
         /\ data_field answer "needsRefresh" = JBool false.
Proof.
  eexists. eexists. split; [vm_compute; reflexivity|].
  split; [reflexivity|].
  match goal with
  | |- exists answer, linkedInStatus _ _ ?st' = _ /\ _ =>
      destruct (callback_then_status (platform := Reference.platform)
                  default_config Examples.provider_up Examples.alice_callback
                  Examples.unconnected st' _ ltac:(vm_compute; reflexivity) eq_refl)
        as (user & tokenData & seconds & Hdecode & Hexchange & Hseconds & Hstatus)
  end.
  assert (Huser : user = Examples.alice_id).
  { vm_compute in Hdecode. inversion Hdecode. reflexivity. }
  assert (Htoken : tokenData = mkTokenData (JString "tok-new") (JNum "5183999") JUndefined).
  { vm_compute in Hexchange. inversion Hexchange. reflexivity. }
  subst user tokenData.
  assert (Hs : seconds = 5183999%Z).
  { vm_compute in Hseconds. inversion Hseconds. reflexivity. }
  subst seconds.
  destruct (Hstatus Examples.provider_up Examples.alice_request eq_refl)
    as (answer & Hrun & _ & Hconnected & _ & Hexpiry & Hpost & Hrefresh).
  exists answer. split; [exact Hrun|]. split; [exact Hconnected|].
  split; [exact Hexpiry|]. split; [exact Hpost | exact Hrefresh].
Defined.

(** A callback whose state is JSON [null], with a provider that would
    answer and with one that would not. *)
Lemma callback_bad_request_witness :
  linkedInCallback (platform := Reference.platform) default_config
    Examples.provider_up Examples.callback_with_null_state Examples.connected
  = (Ok invalid_state, Examples.connected)
  /\ linkedInCallback (platform := Reference.platform)
       (linkedin_config (fun _ => Some "configured"))
       Examples.provider_down Examples.callback_with_null_state Examples.connected
     = (Ok invalid_state, Examples.connected).
Proof.
  assert (Hrun : linkedInCallback (platform := Reference.platform) default_config
                   Examples.provider_up Examples.callback_with_null_state
                   Examples.connected
                 = (Ok invalid_state, Examples.connected))
    by (vm_compute; reflexivity).
  split; [exact Hrun|].
  destruct (callback_bad_request (platform := Reference.platform) default_config
              Examples.provider_up Examples.callback_with_null_state
              Examples.connected Examples.connected invalid_state Hrun eq_refl)
    as (_ & _ & Hall).
  apply Hall.
Defined.


(** The provider refuses Alice's code, and then her token. *)
Lemma callback_error_details_witness :
  fst (decode_state (platform := Reference.platform)
         (text (query_state Examples.alice_callback)) Examples.connected)
  = Ok (inr (JString Examples.alice_id))
  /\ (exists e,
        linkedInCallback (platform := Reference.platform) default_config
          Examples.provider_down Examples.alice_callback Examples.connected
        = (Ok (connect_failed e), add_log Examples.connected e)
        /\ js_get (body (connect_failed e)) "details"
           = Ok (JString ("Failed to exchange code: "
                          ++ Reference.stringify
                               (JObject [("error", JString "invalid_grant")]))))
  /\ (exists e,
        linkedInCallback (platform := Reference.platform) default_config
          Examples.userinfo_down Examples.alice_callback Examples.connected
        = (Ok (connect_failed e), add_log Examples.connected e)
        /\ js_get (body (connect_failed e)) "details"
           = Ok (JString "Failed to fetch LinkedIn profile")).
Proof.
  assert (Hdecode :
    fst (decode_state (platform := Reference.platform)
           (text (query_state Examples.alice_callback)) Examples.connected)
    = Ok (inr (JString Examples.alice_id))) by (vm_compute; reflexivity).
  split; [exact Hdecode|]. split.
  - destruct (callback_error_details (platform := Reference.platform) default_config
                Examples.provider_down Examples.alice_callback Examples.connected
                (JString Examples.alice_id)
                (mkResponse false
                   (Reference.stringify (JObject [("error", JString "invalid_grant")])))
                eq_refl eq_refl Hdecode eq_refl) as [Htoken _].
    eexists. exact (Htoken eq_refl).
  - destruct (callback_error_details (platform := Reference.platform) default_config
                Examples.userinfo_down Examples.alice_callback Examples.connected
                (JString Examples.alice_id)
                (mkResponse false (Reference.stringify Examples.userinfo_payload))
                eq_refl eq_refl Hdecode eq_refl) as [_ Hprofile].
    eexists.
    apply (Hprofile (mkTokenData (JString "tok-new") (JNum "5183999") JUndefined)
             "tok-new"); [vm_compute; reflexivity | reflexivity | reflexivity].
Defined.

(** Alice disconnects; Bob is still connected. *)
Lemma disconnect_touches_one_connection_witness :
  authenticated_user Examples.alice_request = Some Examples.alice_id
  /\ uuid_text Examples.alice_id = true
  /\ let st' := snd (linkedInDisconnect Examples.alice_request Examples.both_connected) in
     linkedInStatus Examples.provider_up Examples.alice_request st'
     = (Ok not_connected, st')
     /\ getOAuthProvider (u_id Examples.bob) linkedin st'
        = (Ok (Some Examples.bob_connection), st')
     /\ fst (linkedInStatus Examples.provider_up Examples.bob_request st')
        = fst (linkedInStatus Examples.provider_up Examples.bob_request
                 Examples.both_connected).
Proof.
  split; [reflexivity|]. split; [reflexivity|].
  destruct (disconnect_touches_one_connection Examples.alice_request
              Examples.alice_id Examples.both_connected eq_refl eq_refl)
    as (_ & _ & Hothers & Hstatus & Hother_status).
  split; [exact (Hstatus Examples.provider_up Examples.alice_request eq_refl)|].
  split.
  - apply (Hothers (u_id Examples.bob) linkedin).
    intros H. vm_compute in H. discriminate H.
  - apply (Hother_status Examples.provider_up Examples.bob_request (u_id Examples.bob));
      [reflexivity|].
    intros H. vm_compute in H. discriminate H.
Defined.

(** Alice connects, and the provider sends her back. *)
Lemma connect_then_callback_witness :
  authenticated_user Examples.alice_request = Some Examples.alice_id
  /\ exists answer,
       linkedInConnect (platform := Reference.platform) default_config
         Examples.provider_up Examples.alice_request Examples.unconnected
       = (Ok answer, Examples.unconnected)
       /\ data_field answer "state" = JString Examples.alice_state
       /\ exists reply st' row,
            linkedInCallback (platform := Reference.platform) default_config
              Examples.provider_up Examples.alice_callback Examples.unconnected
            = (Ok reply, st')
            /\ connection_of st' Examples.alice_id linkedin = Some row
            /\ op_scopes row = Some recorded_scopes.
Proof.
  split; [reflexivity|].
  destruct (connect_then_callback (platform := Reference.platform) default_config
              Examples.provider_up Examples.alice_request Examples.alice_id
              Examples.unconnected eq_refl
              ltac:(vm_compute; reflexivity) ltac:(vm_compute; reflexivity))
    as (answer & state & Hconnect & Hstate & _ & Hcallback).
  assert (Hissued : state = Examples.alice_state).
  { rewrite (linkedInConnect_runs (platform := Reference.platform) default_config
               Examples.provider_up Examples.alice_request Examples.alice_id
               Examples.unconnected eq_refl) in Hconnect.
    injection Hconnect as <-. vm_compute in Hstate. inversion Hstate. reflexivity. }
  subst state.
  exists answer. split; [exact Hconnect|]. split; [exact Hstate|].
  destruct (linkedInCallback (platform := Reference.platform) default_config
              Examples.provider_up Examples.alice_callback Examples.unconnected)
    as [outcome st'] eqn:Hrun.
  assert (Hok : exists reply, outcome = Ok reply /\ status reply = 200).
  { vm_compute in Hrun. inversion Hrun. eexists. split; reflexivity. }
  destruct Hok as (reply & -> & H200).
  destruct (Hcallback Examples.provider_up Examples.alice_callback
              Examples.unconnected reply st' eq_refl Hrun H200)
    as (row & Hrow & Hscopes).
  exists reply, st', row. split; [reflexivity|]. split; assumption.
Defined.

(** Alice's disconnect through its route. *)
Lemma serve_keeps_constraints_witness :
  consistent Examples.both_connected
  /\ consistent
       (snd (serve (platform := Reference.platform) (schema := Reference.schema)
               (verifier := Reference.verifier) default_config DELETE_auth_linkedin
               Examples.provider_up (Examples.bearer Examples.alice_session)
               Examples.alice_callback Examples.both_connected)).
Proof.
  split; [exact both_connected_consistent|].
  exact (serve_keeps_constraints (platform := Reference.platform)
           (schema := Reference.schema) (verifier := Reference.verifier)
           default_config DELETE_auth_linkedin Examples.provider_up
           (Examples.bearer Examples.alice_session) Examples.alice_callback
           Examples.both_connected both_connected_consistent).
Defined.

(** A registration with a password of seven characters. *)
Lemma register_validation_witness :
  exists reply,
    AuthController.register (platform := Reference.platform)
      (schema := Reference.schema) Examples.signup
      (Examples.registration_request "carol@b.com" "Carol" "passwor")
      Examples.two_users
    = (Ok reply, Examples.two_users)
    /\ status reply = 400
    /\ (forall email name password,
          ~ acceptable_registration (platform := Reference.platform)
              (request_body (Examples.registration_request "carol@b.com" "Carol" "passwor"))
              email name password)
    /\ js_get (body reply) "error" = Ok (JString "Validation Error").
Proof.
  eexists. split; [vm_compute; reflexivity|]. split; [reflexivity|].
  match goal with
  | |- (forall email name password, ~ acceptable_registration ?body _ _ _)
       /\ js_get (body ?reply) _ = _ =>
      destruct (register_validation (platform := Reference.platform)
                  (schema := Reference.schema) Examples.signup
                  (Examples.registration_request "carol@b.com" "Carol" "passwor")
                  Examples.two_users Examples.two_users reply
                  ltac:(vm_compute; reflexivity))
        as [[Hrefused _] Hkept]
  end.
  split; [exact (Hrefused eq_refl)|].
  destruct (Hkept eq_refl) as (_ & Herror). exact Herror.
Defined.

(** Somebody registers with Alice's e-mail. *)
Lemma register_duplicate_email_witness :
  acceptable_registration (platform := Reference.platform)
    (request_body (Examples.registration_request "a@b.com" "Alicia" "password123"))
    "a@b.com" "Alicia" "password123"
  /\ user_by_email Examples.two_users "a@b.com" = Some Examples.alice
  /\ AuthController.register (platform := Reference.platform)
       (schema := Reference.schema) Examples.signup
       (Examples.registration_request "a@b.com" "Alicia" "password123")
       Examples.two_users
     = (Ok email_taken, Examples.two_users).
Proof.
  assert (Hok : acceptable_registration (platform := Reference.platform)
                  (request_body
                     (Examples.registration_request "a@b.com" "Alicia" "password123"))
                  "a@b.com" "Alicia" "password123").
  { eexists. split; [reflexivity|].
    split; [reflexivity|]. split; [reflexivity|]. split; [reflexivity|].
    split; [reflexivity|]. split; vm_compute; lia. }
  split; [exact Hok|]. split; [reflexivity|].
  exact (proj2 (register_duplicate_email (platform := Reference.platform)
                  (schema := Reference.schema) Examples.signup
                  (Examples.registration_request "a@b.com" "Alicia" "password123")
                  Examples.two_users "a@b.com" "Alicia" "password123" Examples.alice
                  Hok eq_refl)).
Defined.

(** Carol registers and is found by id and by e-mail. *)
Lemma register_then_lookups_witness :
  exists carol st',
    AuthService.register (platform := Reference.platform) (schema := Reference.schema)
      Examples.signup "carol@b.com" "Carol" "password123" Examples.two_users
    = (Ok carol, st')
    /\ AuthService.getUserById (u_id carol) st' = (Ok (Some carol), st')
    /\ AuthService.getUserByEmail "carol@b.com" st' = (Ok (Some carol), st')
    /\ AuthService.getUserByEmail "carol@b.com" Examples.two_users
       = (Ok None, Examples.two_users)
    /\ fst (AuthService.getUserByEmail "a@b.com" st') = Ok (Some Examples.alice).
Proof.
  eexists. eexists. split; [vm_compute; reflexivity|].
  match goal with
  | |- AuthService.getUserById (u_id ?carol) ?st' = _ /\ _ =>
      destruct (register_then_lookups (platform := Reference.platform)
                  (schema := Reference.schema) Examples.signup
                  "carol@b.com" "Carol" "password123" Examples.two_users st' carol
                  ltac:(vm_compute; reflexivity))
        as (Hid & Hemail & _ & Hnew & _ & Hothers & _)
  end.
  split; [exact Hid|]. split; [exact Hemail|]. split; [exact Hnew|].
  rewrite (Hothers "a@b.com") by discriminate. reflexivity.
Defined.

(** Alice asks for her record. *)
Lemma me_shows_own_record_witness :
  authenticated_user Examples.alice_request = Some Examples.alice_id
  /\ uuid_text Examples.alice_id = true
  /\ exists reply,
       AuthController.me Examples.alice_request Examples.two_users
       = (Ok reply, Examples.two_users)
       /\ status reply = 200
       /\ data_field reply "email" = JString "a@b.com"
       /\ data_field reply "passwordHash" = JUndefined.
Proof.
  split; [reflexivity|]. split; [reflexivity|].
  destruct (me_shows_own_record Examples.alice_request Examples.alice_id
              Examples.two_users eq_refl eq_refl)
    as (reply & Hrun & _ & Hknown).
  exists reply. split; [exact Hrun|].
  destruct (Hknown ltac:(simpl; left; reflexivity))
    as (H200 & _ & user & Huser & Hemail & _ & _ & Hhash).
  split; [exact H200|].
  assert (E : user = Examples.alice).
  { vm_compute in Huser. inversion Huser. reflexivity. }
  subst user. split; [exact Hemail | exact Hhash].
Defined.

(** Carol registers, and asks for her record with the token she got. *)
Lemma register_then_me_witness :
  exists reply st' token,
    AuthController.register (platform := Reference.platform)
      (schema := Reference.schema) Examples.signup
      (Examples.registration_request "carol@b.com" "Carol" "password123")
      Examples.two_users
    = (Ok reply, st')
    /\ status reply = 201
    /\ data_field reply "token" = JString token
    /\ exists answer,
         serve (platform := Reference.platform) (schema := Reference.schema)
           (verifier := Reference.verifier) default_config GET_auth_me
           Examples.provider_up (Some ("Bearer " ++ token)) Examples.alice_callback st'
         = (Ok answer, st')
         /\ status answer = 200
         /\ data_field answer "email" = JString "carol@b.com"
         /\ data_field answer "name" = JString "Carol".
Proof.
  eexists. eexists. eexists. split; [vm_compute; reflexivity|].
  split; [reflexivity|]. split; [vm_compute; reflexivity|].
  match goal with
  | |- exists answer, serve _ _ _ _ _ ?st' = _ /\ _ =>
      destruct (register_then_me (platform := Reference.platform)
                  (schema := Reference.schema) (verifier := Reference.verifier)
                  default_config Examples.signup
                  (Examples.registration_request "carol@b.com" "Carol" "password123")
                  Examples.two_users st' _ ltac:(vm_compute; reflexivity) eq_refl)
        as (user & password & Hok & Hshown & _ & Hme)
  end.
  match type of Hshown with
  | ?shown = _ =>
      assert (Hreply : shown
                       = JObject [("id", JString "5b6c7d8e-9f0a-4b1c-8d2e-3f4a5b6c7d8e");
                                  ("email", JString "carol@b.com");
                                  ("name", JString "Carol");
                                  ("createdAt", JDate 1700000000003)])
        by (vm_compute; reflexivity);
      rewrite Hreply in Hshown
  end.
  injection Hshown as Hid Hemail Hname _.
  rewrite <- Hid, <- Hemail, <- Hname in Hme.
  destruct (Hme Examples.provider_up
              (Some ("Bearer "
                     ++ Reference.stand_in_sign
                          {| jwt_userId := "5b6c7d8e-9f0a-4b1c-8d2e-3f4a5b6c7d8e";
                             jwt_email := "carol@b.com" |} 1700000000000))
              Examples.alice_callback
              ltac:(vm_compute; reflexivity) ltac:(discriminate))
    as (answer & Hrun & H200 & _ & Hmail & Hcalled).
  exists answer. split; [exact Hrun|]. split; [exact H200|].
  split; [exact Hmail | exact Hcalled].
Defined.

(** A userinfo payload with [sub] and [email] only. *)
Lemma profile_name_fallback_witness :
  fetch Examples.nameless_provider (userinfo_request "tok-new")
  = Responded (mkResponse true (Reference.stringify Examples.nameless_payload))
  /\ getLinkedInProfile (platform := Reference.platform) Examples.nameless_provider
       (JString "tok-new") Examples.unconnected
     = (Ok (mkProfile (JString "li-new") (JString "a@b.com")
              (JString "undefined undefined")), Examples.unconnected).
Proof.
  split; [reflexivity|].
  destruct (profile_name_fallback (platform := Reference.platform)
              Examples.nameless_provider "tok-new"
              (mkResponse true (Reference.stringify Examples.nameless_payload))
              [("sub", JString "li-new"); ("email", JString "a@b.com")]
              Examples.unconnected eq_refl eq_refl ltac:(vm_compute; reflexivity))
    as (_ & _ & Hnone).
  exact (Hnone eq_refl eq_refl eq_refl).
Defined.

(** A bad token and a good one on [DELETE /auth/linkedin]; any header on
    the callback. *)
Lemma route_guard_witness :
  serve (platform := Reference.platform) (schema := Reference.schema)
    (verifier := Reference.verifier) default_config DELETE_auth_linkedin
    Examples.provider_up (Some "Bearer forged") Examples.alice_request
    Examples.both_connected
  = (Ok invalid_token, Examples.both_connected)
  /\ (let st' := snd (serve (platform := Reference.platform)
                        (schema := Reference.schema) (verifier := Reference.verifier)
                        default_config DELETE_auth_linkedin Examples.provider_up
                        (Examples.bearer Examples.alice_session)
                        Examples.bob_request Examples.both_connected) in
      connection_of st' (u_id Examples.bob) linkedin = Some Examples.bob_connection
      /\ connection_of st' Examples.alice_id linkedin = None)
  /\ serve (platform := Reference.platform) (schema := Reference.schema)
       (verifier := Reference.verifier) default_config GET_auth_linkedin_callback
       Examples.provider_up None Examples.alice_callback Examples.unconnected
     = serve (platform := Reference.platform) (schema := Reference.schema)
         (verifier := Reference.verifier) default_config GET_auth_linkedin_callback
         Examples.provider_up (Examples.bearer Examples.alice_session)
         Examples.alice_callback Examples.unconnected.
Proof.
  split; [|split].
  - destruct (route_guard (platform := Reference.platform)
                (schema := Reference.schema) (verifier := Reference.verifier)
                default_config DELETE_auth_linkedin Examples.provider_up
                (Some "Bearer forged") Examples.alice_request
                Examples.both_connected) as (Hrefused & _).
    apply Hrefused; [reflexivity | vm_compute; reflexivity].
  - cbv zeta. split; [|vm_compute; reflexivity].
    destruct (route_guard (platform := Reference.platform)
                (schema := Reference.schema) (verifier := Reference.verifier)
                default_config DELETE_auth_linkedin Examples.provider_up
                (Examples.bearer Examples.alice_session) Examples.bob_request
                Examples.both_connected) as (_ & Hacts & _).
    destruct (Hacts eq_refl Examples.alice_session ltac:(vm_compute; reflexivity))
      as (_ & Hothers).
    rewrite (Hothers (u_id Examples.bob) linkedin).
    + reflexivity.
    + intros H. vm_compute in H. discriminate H.
  - destruct (route_guard (platform := Reference.platform)
                (schema := Reference.schema) (verifier := Reference.verifier)
                default_config GET_auth_linkedin_callback Examples.provider_up
                (Examples.bearer Examples.alice_session) Examples.alice_callback
                Examples.unconnected) as (_ & _ & Hpublic).
    apply Hpublic. reflexivity.
Defined.

(** 'abcdef' cut to 2 and to 5. *)
Lemma truncate_limit_witness :
  truncate (Examples.code_units "abcdef") 2 = Examples.code_units "abcde..."
  /\ ~ (Z.of_nat (List.length (truncate (Examples.code_units "abcdef") 2)) <= 2)%Z
  /\ Z.of_nat (List.length (truncate (Examples.code_units "abcdef") 5)) = 5%Z.
Proof.
  split; [reflexivity|].
  destruct (truncate_limit (Examples.code_units "abcdef") 2) as (_ & Hlong2).
  destruct (truncate_limit (Examples.code_units "abcdef") 5) as (_ & Hlong5).
  split.
  - destruct (Hlong2 ltac:(vm_compute; reflexivity)) as (_ & Hiff & _).
    intros Hwithin. apply Hiff in Hwithin. lia.
  - destruct (Hlong5 ltac:(vm_compute; reflexivity)) as (_ & _ & Hexact).
    apply Hexact. lia.
Defined.

(** Alice changes her tone; Bob, whom the store does not hold, cannot. *)
Lemma updatePreferences_merges_witness :
  uuid_text Examples.alice_id = true
  /\ uuid_text (u_id Examples.bob) = true
  /\ (exists after st',
     AuthService.updatePreferences Examples.signup Examples.alice_id
       (mkPatch None (Some (Some "casual")) None None) Examples.two_users
     = (Ok (Some after), st')
     /\ tone (u_preferences after) = Some "casual"
     /\ brand_voice (u_preferences after) = Some "professional"
     /\ u_email after = "a@b.com"
     /\ fst (AuthService.getUserById (u_id Examples.bob) st') = Ok (Some Examples.bob))
  /\ AuthService.updatePreferences Examples.signup (u_id Examples.bob)
       (mkPatch None (Some (Some "casual")) None None) Examples.unconnected
     = (Throw (Error_ "User not found"), Examples.unconnected).
Proof.
  split; [reflexivity|]. split; [reflexivity|]. split.
  - pose proof (updatePreferences_merges Examples.signup Examples.alice_id
                  (mkPatch None (Some (Some "casual")) None None) Examples.two_users
                  eq_refl)
      as H.
    change (fst (AuthService.getUserById Examples.alice_id Examples.two_users))
      with (Ok (Some Examples.alice)) in H.
    destruct H as (after & st' & Hrun & _ & Hmerged & _ & Htone & _ & Hemail & _ & _
                   & _ & _ & _ & _ & Hothers).
    exists after, st'. split; [exact Hrun|].
    split; [exact (Htone (Some "casual") eq_refl)|].
    split; [rewrite Hmerged; reflexivity|]. split; [exact Hemail|].
    rewrite (Hothers (u_id Examples.bob)); [reflexivity|].
    intros E. vm_compute in E. discriminate E.
  - exact (updatePreferences_merges Examples.signup (u_id Examples.bob)
             (mkPatch None (Some (Some "casual")) None None) Examples.unconnected
             eq_refl).
Defined.

(** Production with the JWT secret set and no API key; development
    with neither. *)
Lemma validateConfig_throws_exactly_witness :
  validateConfig (fun key => if String.eqb key "NODE_ENV" then Some "production"
                             else if String.eqb key "JWT_SECRET" then Some "s3cret"
                             else None)
  = Throw (Error_ "Missing required environment variables: ANTHROPIC_API_KEY")
  /\ validateConfig (fun key => if String.eqb key "NODE_ENV" then Some "development"
                                else None)
     = Ok tt.
Proof.
  split.
  - exact (proj2 (validateConfig_throws_exactly
                    (fun key => if String.eqb key "NODE_ENV" then Some "production"
                                else if String.eqb key "JWT_SECRET" then Some "s3cret"
                                else None)) eq_refl).
  - apply (proj1 (validateConfig_throws_exactly
                    (fun key => if String.eqb key "NODE_ENV" then Some "development"
                                else None))).
    left. discriminate.
Defined.

(** Alice logs in with her password, and not with another. *)
Lemma login_succeeds_exactly_witness :
  fst (AuthService.login (platform := Reference.platform) "a@b.com" "password123"
         Examples.two_users) = Ok Examples.alice
  /\ fst (AuthService.login (platform := Reference.platform) "a@b.com" "password124"
            Examples.two_users) <> Ok Examples.alice.
Proof.
  split.
  - apply (proj2 (login_succeeds_exactly (platform := Reference.platform)
                    Examples.two_users "a@b.com" "password123" Examples.alice)).
    split; [reflexivity|]. eexists. split; [reflexivity|].
    split; [discriminate | vm_compute; reflexivity].
  - intros Hin.
    apply (proj2 (login_succeeds_exactly (platform := Reference.platform)
                    Examples.two_users "a@b.com" "password124" Examples.alice)) in Hin.
    destruct Hin as (_ & hash & Hhash & _ & Hverify).
    injection Hhash as <-. vm_compute in Hverify. discriminate Hverify.
Defined.

(** Alice logs in through the handler. *)
Lemma login_handler_answers_witness :
  exists reply,
    AuthController.login (platform := Reference.platform) Examples.signup
      (Examples.login_request "a@b.com" "password123") Examples.two_users
    = (Ok reply, Examples.two_users)
    /\ status reply = 200
    /\ data_field reply "user"
       = JObject [("id", JString Examples.alice_id);
                  ("email", JString "a@b.com");
                  ("name", JString "Alice")].
Proof.
  destruct (login_handler_answers (platform := Reference.platform) Examples.signup
              (Examples.login_request "a@b.com" "password123") Examples.two_users)
    as (reply & Hrun & _).
  exists reply. split; [exact Hrun|].
  assert (Hreply : fst (AuthController.login (platform := Reference.platform)
                          Examples.signup
                          (Examples.login_request "a@b.com" "password123")
                          Examples.two_users)
                   = Ok reply) by (rewrite Hrun; reflexivity).
  vm_compute in Hreply. injection Hreply as <-. split; reflexivity.
Defined.
